(** * Img_Annotation_Helpers: a model of [converter.py]

    The converter turns Labelme annotations (one JSON file per image) into
    YOLO text files or into one VIA JSON document, and VIA documents back
    into Labelme files.  This development embeds the functions of
    [converter.py] as Rocq functions and proves properties of them.

    Layout:
    - [Py]: the fragments of the Python runtime the converter relies on
      (exceptions, [return], [print], string methods, [list.index],
      [os.path.join], [glob.glob]);
    - [Number]: the arithmetic the geometry is written in, with two
      instances: exact rationals and IEEE binary64 (with [repr]);
    - the data read from and written to disk;
    - the converters, under the names they have in the source
      ([labelmepoly2yolov4c], whose geometry is OpenCV's
      [minEnclosingCircle], is left out; the rest of its body is the
      body of [labelmepoly2yolo]);
    - the theorems. *)

From Stdlib Require Import ZArith QArith Qabs Qround Qminmax Floats Lia Lqa.
From Stdlib Require Import String Ascii OrdersEx.
From stdpp Require Import base option list sorting strings pretty.

Local Open Scope string_scope.
Local Open Scope list_scope.
Local Open Scope Z_scope.

(** ** Python runtime *)

Module Py.

(** The exceptions the converter can raise. *)
Inductive exn :=
| KeyError | AttributeError | IndexError | ValueError | TypeError
| OverflowError | FileNotFoundError | SameFileError | PermissionError
| IsADirectoryError.

(** How a block of statements ends: it falls through with a value, it
    executes [return v] (which leaves the enclosing loops and the
    function), or it raises. *)
Inductive res (A : Type) :=
| Ok (a : A)
| Ret (v : Z)
| Exc (e : exn).
Arguments Ok {A} a.
Arguments Ret {A} v.
Arguments Exc {A} e.

(** Everything a converter does to the outside: [print], [open], [write]
    on an open file and [shutil.copyfile].  [C] is the type of what is
    written. *)
Inductive mode := W | A.

Inductive event (C : Type) :=
| Print (msg : string)
| Open (path : string) (m : mode)
| Write (path : string) (c : C)
| Copy (src dst : string).
Arguments Print {C} msg.
Arguments Open {C} path m.
Arguments Write {C} path c.
Arguments Copy {C} src dst.

(** A computation: the events it performed, in order, and how it ended. *)
Definition io (C A : Type) : Type := list (event C) * res A.

Definition ret {C A} (a : A) : io C A := ([], Ok a).

Definition bind {C A B} (m : io C A) (k : A -> io C B) : io C B :=
  match m with
  | (t, Ok a) => let '(t', r) := k a in (t ++ t', r)
  | (t, Ret v) => (t, Ret v)
  | (t, Exc e) => (t, Exc e)
  end.

Definition emit {C} (e : event C) : io C unit := ([e], Ok tt).
Definition print {C} (msg : string) : io C unit := emit (Print msg).
Definition return_ {C A} (v : Z) : io C A := ([], Ret v).
Definition raise {C A} (e : exn) : io C A := ([], Exc e).
Definition lift {C A} (r : res A) : io C A := ([], r).

(** [try: body / except: handler], with a bare [except]. *)
Definition try_except {C A} (body : io C A) (handler : io C A) : io C A :=
  match body with
  | (t, Exc _) => let '(t', r) := handler in (t ++ t', r)
  | other => other
  end.

(** [for x in l: body x]. *)
Fixpoint for_each {C X} (body : X -> io C unit) (l : list X) : io C unit :=
  match l with
  | [] => ret tt
  | x :: l' => bind (body x) (fun _ => for_each body l')
  end.

(** A [for] loop whose body appends to a list. *)
Fixpoint for_collect {C X Y} (body : X -> io C Y) (l : list X) : io C (list Y) :=
  match l with
  | [] => ret []
  | x :: l' =>
      bind (body x) (fun y => bind (for_collect body l') (fun ys => ret (y :: ys)))
  end.

(** [s.replace(old, new)]: every non-overlapping occurrence, left to
    right; with an empty [old], [new] goes before every character and at
    the end. *)
Fixpoint replace_go (old new : string) (skip : nat) (s : string) : string :=
  match s with
  | EmptyString => EmptyString
  | String c s' =>
      match skip with
      | S k => replace_go old new k s'
      | O =>
          if String.prefix old s
          then new +:+ replace_go old new (String.length old - 1) s'
          else String c (replace_go old new 0 s')
      end
  end.

Fixpoint intersperse (new : string) (s : string) : string :=
  match s with
  | EmptyString => new
  | String c s' => new +:+ String c (intersperse new s')
  end.

Definition replace (old new s : string) : string :=
  match old with
  | EmptyString => intersperse new s
  | _ => replace_go old new 0 s
  end.

(** [s.split(sep)] for a separator of one character (the converter
    splits on a dot and on a slash): never empty. *)
Fixpoint split (sep : ascii) (s : string) : list string :=
  match s with
  | EmptyString => [EmptyString]
  | String c s' =>
      if Ascii.eqb c sep then EmptyString :: split sep s'
      else match split sep s' with
           | [] => [String c EmptyString]
           | w :: ws => String c w :: ws
           end
  end.

(** [l[-1]]. *)
Definition last_item {X} (l : list X) : res X :=
  match last l with
  | Some x => Ok x
  | None => Exc IndexError
  end.

(** [l.index(x)]: the first position of [x], [ValueError] without one. *)
Fixpoint index (x : string) (l : list string) : res Z :=
  match l with
  | [] => Exc ValueError
  | y :: l' =>
      if String.eqb y x then Ok 0
      else match index x l' with
           | Ok i => Ok (i + 1)
           | other => other
           end
  end.

(** [x in l] on a list of strings. *)
Definition contains (x : string) (l : list string) : bool :=
  existsb (String.eqb x) l.

(** [str(n)] and [repr(n)] of an [int]. *)
Definition repr_int (n : Z) : string := pretty n.

(** [str(l)] of a list, from the [repr] of its items. *)
Fixpoint join (sep : string) (l : list string) : string :=
  match l with
  | [] => EmptyString
  | [x] => x
  | x :: l' => x +:+ sep +:+ join sep l'
  end.

Definition str_list (items : list string) : string :=
  "[" +:+ join ", " items +:+ "]".

(** [os.path.join(a, b)] on POSIX. *)
Definition ends_with_slash (s : string) : bool :=
  match last (list_ascii_of_string s) with
  | Some c => Ascii.eqb c "/"
  | None => false
  end.

Definition os_path_join (a b : string) : string :=
  if String.prefix "/" b then b
  else if (String.eqb a EmptyString || ends_with_slash a)%bool then a +:+ b
  else a +:+ "/" +:+ b.

(** [fnmatch] restricted to literal characters and [*]. *)
Fixpoint fnmatch (pat : list ascii) : list ascii -> bool :=
  match pat with
  | [] => fun s => match s with [] => true | _ => false end
  | p :: pat' =>
      if Ascii.eqb p "*" then
        fix star (s : list ascii) : bool :=
          (fnmatch pat' s ||
           match s with
           | [] => false
           | _ :: s' => star s'
           end)%bool
      else
        fun s =>
          match s with
          | c :: s' => (Ascii.eqb p c && fnmatch pat' s')%bool
          | [] => false
          end
  end.

(** A path cut after its last slash: directory part and base name. *)
Definition split_path (p : string) : string * string :=
  match reverse (split "/" p) with
  | [] => (EmptyString, p)
  | base :: rdirs =>
      (String.concat EmptyString (map (fun d => d +:+ "/") (reverse rdirs)), base)
  end.

(** [glob.glob(pattern)] over the files [files] of the file system, for a
    pattern whose directory part holds no wildcard: the files of that
    directory whose base name matches; a base name that starts with a dot
    is matched only by a pattern that starts with one too.  The order is
    the one the directory is enumerated in. *)
Definition glob_match (pattern path : string) : bool :=
  let '(pdir, pbase) := split_path pattern in
  let '(dir, base) := split_path path in
  (String.eqb pdir dir
   && (negb (String.prefix "." base) || String.prefix "." pbase)
   && fnmatch (list_ascii_of_string pbase) (list_ascii_of_string base))%bool.

Definition glob_glob (files : list string) (pattern : string) : list string :=
  List.filter (glob_match pattern) files.

(** The objects a module-level name of [converter.py] can be bound to.
    [import glob] binds the name [glob] to the module; the function is
    its attribute [glob.glob].  Calling a module raises [TypeError]. *)
Inductive pyobject :=
| PyModule (name : string)
| PyFunction (f : list string -> string -> list string).

Definition call (f : pyobject) (files : list string) (arg : string)
  : res (list string) :=
  match f with
  | PyModule _ => Exc TypeError
  | PyFunction g => Ok (g files arg)
  end.

End Py.

Import Py.

Declare Scope io_scope.
Delimit Scope io_scope with io.
Notation "'let!' x ':=' m 'in' k" := (bind m (fun x => k))
  (at level 10, x pattern, m at level 100, k at level 200) : io_scope.
Notation "m ';;' k" := (bind m (fun _ => k))
  (at level 100, k at level 200, right associativity) : io_scope.
Local Open Scope io_scope.

(** ** Numbers

    A JSON number is parsed to an [int] or to a [float].  NumPy turns the
    point lists into arrays of one element type and the geometry then runs
    on NumPy scalars: subtraction, addition, true division, [abs] and the
    comparisons behind [min] and [max].  The class below is that
    interface.  It has two instances: binary64, which is what CPython and
    NumPy compute with, and exact rationals, the arithmetic the geometric
    statements of the specification are about. *)

Class Number (A : Type) := {
  num_of_Z : Z -> A;
  num_add : A -> A -> A;
  num_sub : A -> A -> A;
  num_div : A -> A -> A;
  num_abs : A -> A;
  num_ltb : A -> A -> bool;
  (** [int(x)] of a float: truncation toward zero. *)
  num_int : A -> res Z
}.

(** [repr] of a NumPy scalar inside [str(list)].  Up to NumPy 1.x, the
    versions contemporary with the converter, the [repr] of a [float64]
    is the bare number, as for a Python [float]. *)
Class Repr (A : Type) := repr : A -> string.

(** A number as [json.loads] returns it. *)
Inductive jnum (A : Type) :=
| JInt (z : Z)
| JReal (x : A).
Arguments JInt {A} z.
Arguments JReal {A} x.

(** The element a JSON number becomes in a NumPy array, and under true
    division.  An array of [int]s only has element type [int64]; its
    differences are taken in [int64] and converted by the first true
    division, which for the rationals is the same number, and for
    binary64 is the same number as long as the integers are below
    [2^53]. *)
Definition np_float {A} `{Number A} (n : jnum A) : A :=
  match n with
  | JInt z => num_of_Z z
  | JReal x => x
  end.

(** [int(n)]. *)
Definition py_int {A} `{Number A} (n : jnum A) : res Z :=
  match n with
  | JInt z => Ok z
  | JReal x => num_int x
  end.

(** *** Exact rationals

    True division of a NumPy scalar by zero does not raise (it gives an
    infinity or a NaN, with a warning); in this instance a quotient by
    zero is Rocq's 0, so statements about quotients by the image size
    are of interest for a nonzero image size only. *)

Definition Qltb (x y : Q) : bool := negb (Qle_bool y x).

Definition Qtrunc (x : Q) : Z := Z.quot (Qnum x) (Z.pos (Qden x)).

#[export] Instance Q_Number : Number Q := {|
  num_of_Z := inject_Z;
  num_add := Qplus;
  num_sub := Qminus;
  num_div := Qdiv;
  num_abs := Qabs;
  num_ltb := Qltb;
  num_int := fun x => Ok (Qtrunc x)
|}.

(** *** Binary64 *)

Module Binary64.

(** [int64] to [float64], for integers of [int64] range. *)
Definition float_of_Z (z : Z) : float :=
  let a := PrimFloat.of_uint63 (Uint63.of_Z (Z.abs z)) in
  if z <? 0 then PrimFloat.opp a else a.

(** [int(x)]: [ValueError] on a NaN, [OverflowError] on an infinity. *)
Definition float_int (f : float) : res Z :=
  match Prim2SF f with
  | S754_nan => Exc ValueError
  | S754_infinity _ => Exc OverflowError
  | S754_zero _ => Ok 0
  | S754_finite s m e =>
      let a := if 0 <=? e then Z.pos m * 2 ^ e else Z.pos m / 2 ^ (- e) in
      Ok (if s then - a else a)
  end.

#[export] Instance float_Number : Number float := {|
  num_of_Z := float_of_Z;
  num_add := PrimFloat.add;
  num_sub := PrimFloat.sub;
  num_div := PrimFloat.div;
  num_abs := PrimFloat.abs;
  num_ltb := PrimFloat.ltb;
  num_int := float_int
|}.

(** [repr] of a float: the shortest decimal that reads back as the same
    float, the nearest one among those of that length; fixed notation
    when the decimal exponent is between -4 and 16, exponent notation
    otherwise. *)

Definition pow2Q (e : Z) : Q := Qpower (2 # 1) e.
Definition pow10Q (e : Z) : Q := Qpower (10 # 1) e.

(** The least [k], from [k0] on, with [v < 10^k]. *)
Fixpoint find_decpt (fuel : nat) (v : Q) (k : Z) : Z :=
  match fuel with
  | O => k
  | S fuel' => if Qltb v (pow10Q k) then k else find_decpt fuel' v (k + 1)
  end.

(** Whether the decimal [c] reads back as the float whose neighbours'
    midpoints are [lo] and [hi] (a midpoint reads back as the float with
    the even significand). *)
Definition in_interval (even : bool) (lo hi c : Q) : bool :=
  if even then (Qle_bool lo c && Qle_bool c hi)%bool
  else (Qltb lo c && Qltb c hi)%bool.

(** The decimal of [n] digits that reads back as [v], if there is one:
    [d] stands for [d * 10^(k-n)]; of two that do, the nearer one, and
    the one with the even last digit when they are as near. *)
Definition candidate (even : bool) (lo hi v : Q) (k n : Z) : option Z :=
  let d := Qfloor (v * pow10Q (n - k))%Q in
  let u := d + 1 in
  let val x := (inject_Z x * pow10Q (k - n))%Q in
  let okd := in_interval even lo hi (val d) in
  let oku := in_interval even lo hi (val u) in
  match okd, oku with
  | true, true =>
      match ((v - val d) ?= (val u - v))%Q with
      | Lt => Some d
      | Gt => Some u
      | Eq => if Z.even d then Some d else Some u
      end
  | true, false => Some d
  | false, true => Some u
  | false, false => None
  end.

Fixpoint shortest (fuel : nat) (even : bool) (lo hi v : Q) (k n : Z) : Z * Z :=
  match fuel with
  | O => (Qfloor (v * pow10Q (n - k))%Q, n)
  | S fuel' =>
      match candidate even lo hi v k n with
      | Some d => (d, n)
      | None => shortest fuel' even lo hi v k (n + 1)
      end
  end.

Fixpoint strip_zeros (fuel : nat) (d : Z) : Z :=
  match fuel with
  | O => d
  | S fuel' =>
      if ((d mod 10 =? 0) && negb (d =? 0))%bool
      then strip_zeros fuel' (d / 10) else d
  end.

Fixpoint zeros (n : nat) : string :=
  match n with
  | O => EmptyString
  | S n' => String "0" (zeros n')
  end.

Definition str_take (n : nat) (s : string) : string := String.substring 0 n s.
Definition str_drop (n : nat) (s : string) : string :=
  String.substring n (String.length s - n) s.

Definition format_digits (ds : string) (decpt : Z) : string :=
  let len := Z.of_nat (String.length ds) in
  if ((decpt <=? -4) || (16 <? decpt))%bool then
    let ex := decpt - 1 in
    let es := pretty (Z.abs ex) in
    let es := if Z.abs ex <? 10 then "0" +:+ es else es in
    str_take 1 ds
      +:+ (if 1 <? len then "." +:+ str_drop 1 ds else EmptyString)
      +:+ "e" +:+ (if ex <? 0 then "-" else "+") +:+ es
  else if decpt <=? 0 then
    "0." +:+ zeros (Z.to_nat (- decpt)) +:+ ds
  else if len <=? decpt then
    ds +:+ zeros (Z.to_nat (decpt - len)) +:+ ".0"
  else
    str_take (Z.to_nat decpt) ds +:+ "." +:+ str_drop (Z.to_nat decpt) ds.

Definition float_repr (f : float) : string :=
  match Prim2SF f with
  | S754_nan => "nan"
  | S754_infinity s => if s then "-inf" else "inf"
  | S754_zero s => if s then "-0.0" else "0.0"
  | S754_finite s m e =>
      let mz := Z.pos m in
      let v := (inject_Z mz * pow2Q e)%Q in
      let boundary := ((mz =? 2 ^ 52) && (-1074 <? e))%bool in
      let lo :=
        (inject_Z (4 * mz - (if boundary then 1 else 2)) * pow2Q (e - 2))%Q in
      let hi := (inject_Z (4 * mz + 2) * pow2Q (e - 2))%Q in
      let k := find_decpt 700 v (-324) in
      let '(d, n) := shortest 17 (Z.even mz) lo hi v k 1 in
      let decpt := if d =? 10 ^ n then k + 1 else k in
      let ds := pretty (strip_zeros 17 d) in
      (if s then "-" else EmptyString) +:+ format_digits ds decpt
  end.

#[export] Instance float_Repr : Repr float := float_repr.

End Binary64.

(** ** The converter *)

(** A line feed. *)
Definition nl : string := String (ascii_of_nat 10) EmptyString.

(** The value under a JSON key that the converter expects to be text. *)
Inductive jvalue :=
| JNull
| JBool (b : bool)
| JNumber (z : Z)
| JStr (s : string).

(** [v.split(sep)]: only a [str] has the method. *)
Definition jsplit (sep : ascii) (v : jvalue) : res (list string) :=
  match v with
  | JStr s => Ok (split sep s)
  | _ => Exc AttributeError
  end.

(** [d[key]] on a key that may be missing. *)
Definition getitem {V} (field : option V) : res V :=
  match field with
  | Some v => Ok v
  | None => Exc KeyError
  end.

(** [l[-1]] of the result of [split], which has at least one item. *)
Definition last_part (l : list string) : string := List.last l EmptyString.

(** [d[k] = v] on a [dict], which keeps the order of first insertion. *)
Fixpoint dict_set {V} (k : string) (v : V) (d : list (string * V))
  : list (string * V) :=
  match d with
  | [] => [(k, v)]
  | (k', v') :: d' =>
      if String.eqb k' k then (k', v) :: d' else (k', v') :: dict_set k v d'
  end.

(** A [for] loop that updates a local variable. *)
Fixpoint for_fold {C X S} (body : S -> X -> io C S) (l : list X) (s : S)
  : io C S :=
  match l with
  | [] => ret s
  | x :: l' => let! s' := body s x in for_fold body l' s'
  end.

(** A [for] loop whose body knows how many iterations came before. *)
Fixpoint for_each_from {C X} (body : nat -> X -> io C unit) (i : nat)
  (l : list X) : io C unit :=
  match l with
  | [] => ret tt
  | x :: l' => body i x ;; for_each_from body (S i) l'
  end.

(** The order of [str]: by code point, which on the UTF-8 bytes of a
    [string] is the order by byte. *)
Definition str_le (s1 s2 : string) : Prop := String.leb s1 s2 = true.

#[global] Instance str_le_dec : RelDecision str_le :=
  fun s1 s2 => decide (String.leb s1 s2 = true).

(** [list.sort()]: a stable merge sort. *)
Definition sort (l : list string) : list string := merge_sort str_le l.

(** The name [glob] at module level: [import glob]. *)
Definition glob : pyobject := PyModule "glob".

Section Converter.

Context {A : Type} `{NumA : Number A} `{ReprA : Repr A}.

(** *** Data *)

(** A Labelme shape, with the keys the converter reads. *)
Record shape := {
  shape_type : string;
  label : string;
  points : list (jnum A * jnum A)
}.

(** A Labelme annotation file as [json.loads] returns it; [imagePath] may
    be missing or hold something else than text. *)
Record labelme_file := {
  imagePath : option jvalue;
  imageWidth : jnum A;
  imageHeight : jnum A;
  shapes : list shape
}.

(** A VIA region: [shape_attributes] ([name], [all_points_x],
    [all_points_y]) and [region_attributes] ([label]). *)
Record region := {
  name : string;
  all_points_x : list (jnum A);
  all_points_y : list (jnum A);
  region_label : string
}.

(** A VIA annotation; [file_attributes] is always the empty dict. *)
Record via_annotation := {
  filename : string;
  regions : list region;
  size : Z
}.

(** The Labelme dict [via2labelme] builds.  Its [flags] is the empty
    dict and its [imageData] is [None]; each shape has [None] for
    [line_color], [fill_color] and [group_id] and the empty dict for
    [flags]. *)
Record labelme_ann := {
  version : string;
  fillColor : list Z;
  lineColor : list Z;
  ann_imageHeight : Z;
  ann_imageWidth : Z;
  ann_imagePath : string;
  ann_shapes : list shape
}.

(** What is written to a file. *)
Inductive content :=
| Text (s : string)
| ViaJson (doc : list (string * via_annotation))
| LabelmeJson (ann : labelme_ann).

(** What the converter reads from the outside: the files there are, in
    the order the directory is enumerated; the parsed JSON of a file;
    [os.stat(p).st_size]; the [shape] of [cv2.imread(p)], height first,
    or nothing where [imread] returns [None]; the draws of
    [np.random.randint(255, size=3)], by the number of earlier draws;
    [os.path.samefile] on two paths that exist and are spelled
    differently (links, [.] and doubled slashes); and what
    [shutil.copyfile] raises when it opens its destination for writing,
    if it raises (a missing directory, no permission, a directory). *)
Record world := {
  listdir : list string;
  load_labelme : string -> labelme_file;
  load_via : string -> list (string * via_annotation);
  st_size : string -> option Z;
  imread : string -> option (Z * Z);
  randint : nat -> list Z;
  samefile : string -> string -> bool;
  copy_error : string -> option exn
}.

Abbreviation io' := (io content).

(** Whether two paths are the same file, for a first path that exists:
    a path is the same file as itself. *)
Definition same_file (w : world) (src dst : string) : bool :=
  (String.eqb src dst || samefile w src dst)%bool.

(** [shutil.copyfile(src, dst)]: [SameFileError] when both paths are the
    same file, then [FileNotFoundError] when the source cannot be
    opened (a missing source is the same file as nothing), then what
    the opening of the destination raises. *)
Definition copyfile (w : world) (src dst : string) : io' unit :=
  match st_size w src with
  | None => raise FileNotFoundError
  | Some _ =>
      if same_file w src dst then raise SameFileError
      else match copy_error w dst with
           | Some e => raise e
           | None => emit (Copy src dst)
           end
  end.

(** A copy that goes through. *)
Definition copy_ready (w : world) (src dst : string) : Prop :=
  is_Some (st_size w src)
  /\ same_file w src dst = false
  /\ copy_error w dst = None.

(** *** extract_labelme_labels *)

(** The loop over the shapes of one file. *)
Definition collect_labels (label_list : list string) (poly_shapes : list shape)
  : list string :=
  fold_left
    (fun label_list shape =>
       if contains (label shape) label_list then label_list
       else label_list ++ [label shape])
    poly_shapes label_list.

Definition extract_labelme_labels (w : world) (labelme_input_directory : string)
  : list string * list Z :=
  let poly_file_list := glob_glob (listdir w) (labelme_input_directory +:+ "*.json") in
  let label_list :=
    fold_left
      (fun label_list poly_file =>
         collect_labels label_list (shapes (load_labelme w poly_file)))
      poly_file_list [] in
  let label_list := sort label_list in
  (label_list, map Z.of_nat (seq 0 (length label_list))).

(** *** create_empty_txt_yolo *)

Definition create_empty_txt_yolo (w : world) (input_dir : string)
  (image_format : string) : io' unit :=
  let! img_list := lift (call glob (listdir w) (input_dir +:+ image_format)) in
  let! txt_list := lift (call glob (listdir w) (input_dir +:+ "*.txt")) in
  for_each
    (fun img =>
       let txt_file := replace image_format ".txt" img in
       if contains txt_file txt_list then ret tt
       else emit (Open txt_file W))
    img_list.

(** The default of the parameter [image_format]. *)
Definition default_image_format : string := ".jpg".

(** *** Parts shared by the Labelme to YOLO converters *)

Definition format_warning : string := "Warning! Format detection unsuccessful".

(** The image format of a file: [".jpg"] unless the [try] block gets to
    its end. *)
Definition detect_image_format (poly_annotations : labelme_file) : io' string :=
  try_except
    (let! path := lift (getitem (imagePath poly_annotations)) in
     let! parts := lift (jsplit "." path) in
     ret ("." +:+ last_part parts))
    (print format_warning ;; ret ".jpg").

(** [np.array(shape["points"])]. *)
Definition np_array (pts : list (jnum A * jnum A)) : list (A * A) :=
  map (fun p => (np_float (fst p), np_float (snd p))) pts.

(** The text of one line: [str([id] + box)] without commas and brackets. *)
Definition box_yolo_out (shape_label_id : Z) (box_yolo : list A) : string :=
  replace "]" "" (replace "[" "" (replace "," ""
    (str_list (repr_int shape_label_id :: map repr box_yolo)))).

(** The loop that writes [classes.txt]; [np.shape(label_list)[1]] is the
    common length of the two lists, and there is no second axis when
    they differ in length (the [IndexError] of NumPy before 1.24; later
    versions refuse to make the array and raise [ValueError]). *)
Definition write_classes (classes_path : string) (label_list : list string * list Z)
  : io' unit :=
  emit (Open classes_path W) ;;
  emit (Open classes_path Py.A) ;;
  (if Nat.eqb (length (fst label_list)) (length (snd label_list))
   then ret tt else raise IndexError) ;;
  for_each
    (fun '(l, i) =>
       emit (Write classes_path (Text (repr_int i +:+ " " +:+ l))) ;;
       emit (Write classes_path (Text nl)))
    (zip (fst label_list) (snd label_list)).

(** *** labelmerect2yolo *)

Definition two : A := num_of_Z 2.

(** The box of a rectangle, as the four numbers of the output line. *)
Definition rect_box_yolo (shape_points : list (A * A)) (img_dims : A * A)
  : res (list A) :=
  match shape_points with
  | p0 :: p1 :: _ =>
      let box_width := num_sub (fst p1) (fst p0) in
      let box_height := num_sub (snd p0) (snd p1) in
      let box_center_x := num_add (fst p0) (num_div box_width two) in
      let box_center_y := num_add (snd p1) (num_div box_height two) in
      Ok [num_div box_center_x (fst img_dims);
          num_div box_center_y (snd img_dims);
          num_abs (num_div box_width (fst img_dims));
          num_abs (num_div box_height (snd img_dims))]
  | _ => Exc IndexError
  end.

Definition rect_warning : string :=
  "Warning! The annotations contain shapes other than rectangles".

(** The body of the loop over the shapes. *)
Definition labelmerect2yolo_shape (label_list : list string * list Z)
  (img_dims : A * A) (yolo_outfile : string) (shape : shape) : io' unit :=
  if negb (String.eqb (shape_type shape) "rectangle") then
    print rect_warning
  else
    let shape_points := np_array (points shape) in
    let! shape_label_id := lift (index (label shape) (fst label_list)) in
    let! box_yolo := lift (rect_box_yolo shape_points img_dims) in
    emit (Write yolo_outfile (Text (box_yolo_out shape_label_id box_yolo))) ;;
    emit (Write yolo_outfile (Text nl)).

(** The body of the loop over the files. *)
Definition labelmerect2yolo_file (w : world) (output_dir : string)
  (label_list : list string * list Z) (poly_file : string) : io' unit :=
  let poly_annotations := load_labelme w poly_file in
  let poly_shapes := shapes poly_annotations in
  let! image_format := detect_image_format poly_annotations in
  let img_dims := (np_float (imageWidth poly_annotations),
                   np_float (imageHeight poly_annotations)) in
  let yolo_outfile_name := replace ".json" ".txt" (last_part (split "/" poly_file)) in
  let yolo_outfile := output_dir +:+ yolo_outfile_name in
  emit (Open yolo_outfile W) ;;
  emit (Open yolo_outfile Py.A) ;;
  for_each (labelmerect2yolo_shape label_list img_dims yolo_outfile) poly_shapes ;;
  copyfile w (replace ".json" image_format poly_file)
    (output_dir +:+ replace ".txt" image_format yolo_outfile_name).

Definition labelmerect2yolo (w : world) (input_dir output_dir : string)
  (label_list : list string * list Z) : io' unit :=
  let poly_file_list := glob_glob (listdir w) (input_dir +:+ "*.json") in
  for_each (labelmerect2yolo_file w output_dir label_list) poly_file_list ;;
  write_classes (output_dir +:+ "classes.txt") label_list.

(** *** labelmepoly2yolo *)

(** [min(column)] and [max(column)] of a column with first item [x]:
    the built-ins keep the first of equal items. *)
Definition py_min (x : A) (l : list A) : A :=
  fold_left (fun cur item => if num_ltb item cur then item else cur) l x.

Definition py_max (x : A) (l : list A) : A :=
  fold_left (fun cur item => if num_ltb cur item then item else cur) l x.

(** The box of a polygon in pixels: centre, width and height.  Without a
    point the array has one axis only and [shape_points[:, 0]] raises. *)
Definition poly_box (shape_points : list (A * A)) : res (A * A * A * A) :=
  match shape_points with
  | [] => Exc IndexError
  | p :: ps =>
      let min_x := py_min (fst p) (map fst ps) in
      let max_x := py_max (fst p) (map fst ps) in
      let min_y := py_min (snd p) (map snd ps) in
      let max_y := py_max (snd p) (map snd ps) in
      let box_width := num_sub max_x min_x in
      let box_height := num_sub max_y min_y in
      let box_center_x := num_add min_x (num_div box_width two) in
      let box_center_y := num_add min_y (num_div box_height two) in
      Ok (box_center_x, box_center_y, box_width, box_height)
  end.

Definition poly_box_yolo (shape_points : list (A * A)) (img_dims : A * A)
  : res (list A) :=
  match poly_box shape_points with
  | Ok (box_center_x, box_center_y, box_width, box_height) =>
      Ok [num_div box_center_x (fst img_dims);
          num_div box_center_y (snd img_dims);
          num_div box_width (fst img_dims);
          num_div box_height (snd img_dims)]
  | Ret v => Ret v
  | Exc e => Exc e
  end.

Definition poly_warning : string :=
  "Warning! The annotations contain shapes other than polygons".

Definition labelmepoly2yolo_shape (label_list : list string * list Z)
  (img_dims : A * A) (yolo_outfile : string) (shape : shape) : io' unit :=
  if negb (String.eqb (shape_type shape) "polygon") then
    print poly_warning
  else
    let shape_points := np_array (points shape) in
    let! shape_label_id := lift (index (label shape) (fst label_list)) in
    let! box_yolo := lift (poly_box_yolo shape_points img_dims) in
    emit (Write yolo_outfile (Text (box_yolo_out shape_label_id box_yolo))) ;;
    emit (Write yolo_outfile (Text nl)).

Definition labelmepoly2yolo_file (w : world) (output_dir : string)
  (label_list : list string * list Z) (poly_file : string) : io' unit :=
  let poly_annotations := load_labelme w poly_file in
  let poly_shapes := shapes poly_annotations in
  let! image_format := detect_image_format poly_annotations in
  let img_dims := (np_float (imageWidth poly_annotations),
                   np_float (imageHeight poly_annotations)) in
  let yolo_outfile_name := replace ".json" ".txt" (last_part (split "/" poly_file)) in
  let yolo_outfile := output_dir +:+ yolo_outfile_name in
  emit (Open yolo_outfile W) ;;
  emit (Open yolo_outfile Py.A) ;;
  for_each (labelmepoly2yolo_shape label_list img_dims yolo_outfile) poly_shapes ;;
  copyfile w (replace ".json" image_format poly_file)
    (output_dir +:+ replace ".txt" image_format yolo_outfile_name).

Definition labelmepoly2yolo (w : world) (input_dir output_dir : string)
  (label_list : list string * list Z) : io' unit :=
  let poly_file_list := glob_glob (listdir w) (input_dir +:+ "*.json") in
  for_each (labelmepoly2yolo_file w output_dir label_list) poly_file_list ;;
  write_classes (os_path_join output_dir "classes.txt") label_list.

(** *** labelme2via *)

Definition via_error : string :=
  "Error: shapes other than polygons not yet supported. Please modify labelme2via()".

(** [[int(v) for v in l]]. *)
Definition ints (l : list (jnum A)) : io' (list (jnum A)) :=
  for_collect (fun v => let! z := lift (py_int v) in ret (JInt z)) l.

(** The body of the loop over the shapes: the region of a shape. *)
Definition labelme2via_shape (shape : shape) : io' region :=
  if negb (String.eqb (shape_type shape) "polygon") then
    print via_error ;; return_ 1
  else
    let shape_points := points shape in
    let shape_label := label shape in
    let! all_points_x := ints (map fst shape_points) in
    let! all_points_y := ints (map snd shape_points) in
    ret {| name := "polygon";
           all_points_x := all_points_x;
           all_points_y := all_points_y;
           region_label := shape_label |}.

(** The body of the loop over the files, on the dict [annotations]. *)
Definition labelme2via_file (w : world) (input_dir output_dir : string)
  (annotations : list (string * via_annotation)) (poly_file : string)
  : io' (list (string * via_annotation)) :=
  let poly_annotations := load_labelme w poly_file in
  let poly_shapes := shapes poly_annotations in
  let! image_format := detect_image_format poly_annotations in
  let! img_size :=
    lift (match st_size w (replace ".json" image_format poly_file) with
          | Some n => Ok n
          | None => Exc FileNotFoundError
          end) in
  let! regions := for_collect labelme2via_shape poly_shapes in
  let image_name := replace ".json" image_format (last_part (split "/" poly_file)) in
  let ann := {| filename := image_name; regions := regions; size := img_size |} in
  let annotations := dict_set (image_name +:+ repr_int img_size) ann annotations in
  let image_filename := replace ".json" image_format (last_part (split "/" poly_file)) in
  copyfile w (os_path_join input_dir image_filename)
    (os_path_join output_dir image_filename) ;;
  ret annotations.

(** The dict at the end of the loop over the files. *)
Definition labelme2via_annotations (w : world) (input_dir output_dir : string)
  : io' (list (string * via_annotation)) :=
  let poly_file_list := glob_glob (listdir w) (input_dir +:+ "*.json") in
  for_fold (labelme2via_file w input_dir output_dir) poly_file_list [].

Definition via_annotations_json (output_dir : string) : string :=
  os_path_join output_dir "via_annotations.json".

Definition labelme2via (w : world) (input_dir output_dir : string) : io' unit :=
  let! annotations := labelme2via_annotations w input_dir output_dir in
  emit (Open (via_annotations_json output_dir) W) ;;
  emit (Write (via_annotations_json output_dir) (ViaJson annotations)).

(** *** via2labelme *)

Definition no_file_error : string :=
  "Error. No annotation file found. Check that .json annotations are in the input directory".

Definition many_files_error : string :=
  "Error. There are more than one .json files in the input directory. Check VIA annotations".

Definition via2labelme_error : string :=
  "Error: shapes other than polygons not yet supported. Please modify via2labelme()".

Definition mismatch_error : string := "Error: annotation points mismatch".

(** The body of the loop over the regions: the shape of a region. *)
Definition via2labelme_region (region : region) : io' shape :=
  let label := region_label region in
  let shape_type := name region in
  if negb (String.eqb shape_type "polygon") then
    print via2labelme_error ;; return_ 1
  else
    let all_points_x := all_points_x region in
    let all_points_y := all_points_y region in
    if negb (Nat.eqb (length all_points_x) (length all_points_y)) then
      print mismatch_error ;; return_ 1
    else
      let! points :=
        for_collect
          (fun '(x, y) =>
             let! x' := lift (py_int x) in
             let! y' := lift (py_int y) in
             ret (JInt x', JInt y'))
          (zip all_points_x all_points_y) in
      ret {| shape_type := shape_type; label := label; points := points |}.

(** The body of the loop over the annotations; [i] annotations came
    before, each with two draws of a colour. *)
Definition via2labelme_annotation (w : world) (input_dir output_dir : string)
  (i : nat) (via_annotation : via_annotation) : io' unit :=
  let file_name := filename via_annotation in
  let image := imread w (os_path_join input_dir file_name) in
  let fill := randint w (2 * i) in
  let line := randint w (2 * i + 1) in
  let! image_shape :=
    lift (match image with
          | Some hw => Ok hw
          | None => Exc AttributeError
          end) in
  let '(height, width) := image_shape in
  let! shapes := for_collect via2labelme_region (regions via_annotation) in
  let labelme_ann :=
    {| version := "4.5.6";
       fillColor := fill;
       lineColor := line;
       ann_imageHeight := height;
       ann_imageWidth := width;
       ann_imagePath := file_name;
       ann_shapes := shapes |} in
  let lme_ann_name := replace (last_part (split "." file_name)) "json" file_name in
  emit (Open (os_path_join output_dir lme_ann_name) W) ;;
  emit (Write (os_path_join output_dir lme_ann_name) (LabelmeJson labelme_ann)) ;;
  copyfile w (os_path_join input_dir file_name) (os_path_join output_dir file_name).

Definition via2labelme (w : world) (input_dir output_dir : string) : io' unit :=
  let poly_file := glob_glob (listdir w) (input_dir +:+ "*.json") in
  match poly_file with
  | [] => print no_file_error ;; return_ 1
  | _ :: _ :: _ => print many_files_error ;; return_ 1
  | [poly_file] =>
      let via_annotations := map snd (load_via w poly_file) in
      for_each_from (via2labelme_annotation w input_dir output_dir) 0 via_annotations
  end.

(** *** What a trace leaves on disk *)

(** The text of the file [path] after the events [t], for a file that
    holds text: [open] in mode [W] empties it, [write] appends. *)
Definition file_text_step (path : string) (cur : option string) (e : event content)
  : option string :=
  match e with
  | Open p W => if String.eqb p path then Some EmptyString else cur
  | Open p Py.A =>
      if String.eqb p path
      then Some (default EmptyString cur) else cur
  | Write p (Text s) =>
      if String.eqb p path then option_map (fun c => c +:+ s) cur else cur
  | _ => cur
  end.

Definition file_text (path : string) (t : list (event content)) : option string :=
  fold_left (file_text_step path) t None.

(** The Labelme dicts written, in order, and the VIA dicts written. *)
Definition written_labelme (t : list (event content)) : list labelme_ann :=
  omap (fun e => match e with Write _ (LabelmeJson a) => Some a | _ => None end) t.

Definition written_via (t : list (event content))
  : list (list (string * via_annotation)) :=
  omap (fun e => match e with Write _ (ViaJson d) => Some d | _ => None end) t.

(** The events that change a file: everything but [print]. *)
Definition is_print (e : event content) : bool :=
  match e with
  | Print _ => true
  | _ => false
  end.

(** The events that create a file or write to one. *)
Definition is_open_or_write (e : event content) : bool :=
  match e with
  | Open _ _ | Write _ _ => true
  | _ => false
  end.

(** The files a trace creates or changes. *)
Definition touched (t : list (event content)) : list string :=
  omap (fun e => match e with
                 | Open p _ => Some p
                 | Write p _ => Some p
                 | Copy _ dst => Some dst
                 | Print _ => None
                 end) t.

(** *** Vocabulary of the round trip through VIA *)

(** The image format [detect_image_format] finds for a file. *)
Definition image_format_of (f : labelme_file) : string :=
  match imagePath f with
  | Some (JStr s) => "." +:+ last_part (split "." s)
  | _ => ".jpg"
  end.

(** The image [labelme2via] looks up for a Labelme file, and its name. *)
Definition image_path_of (w : world) (poly_file : string) : string :=
  replace ".json" (image_format_of (load_labelme w poly_file)) poly_file.

Definition image_name_of (w : world) (poly_file : string) : string :=
  replace ".json" (image_format_of (load_labelme w poly_file))
    (last_part (split "/" poly_file)).

(** The key of a Labelme file in the VIA dict: the name of its image
    followed by the size of its image (where there is no image,
    [labelme2via] raises before it makes a key). *)
Definition key_of (w : world) (poly_file : string) : string :=
  image_name_of w poly_file
    +:+ repr_int (default 0 (st_size w (image_path_of w poly_file))).

(** A coordinate, a point and a shape after [int]. *)
Definition truncate (v : jnum A) : jnum A :=
  match py_int v with
  | Ok z => JInt z
  | _ => v
  end.

Definition truncate_point (p : jnum A * jnum A) : jnum A * jnum A :=
  (truncate (fst p), truncate (snd p)).


(** The region [labelme2via] makes of a polygon. *)
Definition region_of_shape (sh : shape) : region :=
  {| name := "polygon";
     all_points_x := map truncate (map fst (points sh));
     all_points_y := map truncate (map snd (points sh));
     region_label := label sh |}.

(** The VIA annotation [labelme2via] makes of a file of polygons. *)
Definition via_annotation_of (w : world) (poly_file : string) : via_annotation :=
  {| filename := image_name_of w poly_file;
     regions := map region_of_shape (shapes (load_labelme w poly_file));
     size := default 0 (st_size w (image_path_of w poly_file)) |}.

(** Every coordinate of the shape has an [int] (always so for the
    rationals; for binary64, no coordinate is a NaN or an infinity). *)
Definition has_ints (sh : shape) : Prop :=
  forall pt, In pt (points sh) ->
             (exists x, py_int (fst pt) = Ok x) /\ (exists y, py_int (snd pt) = Ok y).

(** A Labelme file [labelme2via] gets through: polygons only, with
    coordinates that have an [int], the image is there under the path
    the size is taken from, and its copy to the output directory goes
    through. *)
Definition file_ready (w : world) (input_dir output_dir : string)
  (poly_file : string) : Prop :=
  (forall sh, In sh (shapes (load_labelme w poly_file)) ->
              shape_type sh = "polygon" /\ has_ints sh)
  /\ is_Some (st_size w (image_path_of w poly_file))
  /\ copy_ready w (os_path_join input_dir (image_name_of w poly_file))
       (os_path_join output_dir (image_name_of w poly_file)).

(** An image [via2labelme] can read and whose copy to the output
    directory goes through. *)
Definition image_ready (w : world) (via_dir output_dir : string)
  (image_name : string) : Prop :=
  is_Some (imread w (os_path_join via_dir image_name))
  /\ copy_ready w (os_path_join via_dir image_name)
       (os_path_join output_dir image_name).


End Converter.

(** ** Scenarios

    The inputs the statements below are evaluated on. *)

Module Scenario.

Import Binary64.

(** One rectangle labelled cat in a 100 by 100 image. *)
Definition cat_shape : @shape float :=
  {| shape_type := "rectangle";
     label := "cat";
     points := [(JInt 10, JInt 10); (JInt 50, JInt 40)] |}.

Definition cat_file : @labelme_file float :=
  {| imagePath := Some (JStr "img.jpg");
     imageWidth := JInt 100;
     imageHeight := JInt 100;
     shapes := [cat_shape] |}.

Definition cat_world : @world float :=
  {| listdir := ["in/img.json"; "in/img.jpg"];
     load_labelme := fun _ => cat_file;
     load_via := fun _ => [];
     st_size := fun p => if String.eqb p "in/img.jpg" then Some 1234 else None;
     imread := fun _ => Some (100, 100);
     randint := fun _ => [0; 0; 0];
     samefile := fun _ _ => false;
     copy_error := fun _ => None |}.

(** A directory of YOLO files with an image that has no text file. *)
Definition yolo_world : @world Q :=
  {| listdir := ["d/a.jpg"; "d/b.jpg"; "d/b.txt"];
     load_labelme := fun _ =>
       {| imagePath := None; imageWidth := JInt 1; imageHeight := JInt 1;
          shapes := [] |};
     load_via := fun _ => [];
     st_size := fun _ => Some 1;
     imread := fun _ => Some (1, 1);
     randint := fun _ => [0; 0; 0];
     samefile := fun _ _ => false;
     copy_error := fun _ => None |}.

(** A directory with two JSON documents. *)
Definition two_json_world : @world Q :=
  {| listdir := ["via/one.json"; "via/two.json"; "via/a.jpg"];
     load_labelme := fun _ =>
       {| imagePath := None; imageWidth := JInt 1; imageHeight := JInt 1;
          shapes := [] |};
     load_via := fun _ => [];
     st_size := fun _ => Some 1;
     imread := fun _ => Some (1, 1);
     randint := fun _ => [0; 0; 0];
     samefile := fun _ _ => false;
     copy_error := fun _ => None |}.

(** A Labelme file whose path field has no dot. *)
Definition no_suffix_file : @labelme_file Q :=
  {| imagePath := Some (JStr "image");
     imageWidth := JInt 100;
     imageHeight := JInt 100;
     shapes := [] |}.

(** A Labelme file without a path field. *)
Definition no_path_file : @labelme_file Q :=
  {| imagePath := None;
     imageWidth := JInt 100;
     imageHeight := JInt 100;
     shapes := [] |}.

Definition no_path_world : @world Q :=
  {| listdir := ["in/img.json"];
     load_labelme := fun _ => no_path_file;
     load_via := fun _ => [];
     st_size := fun _ => Some 1;
     imread := fun _ => Some (1, 1);
     randint := fun _ => [0; 0; 0];
     samefile := fun _ _ => false;
     copy_error := fun _ => None |}.

(** A triangle with coordinates that are not integers. *)
Definition triangle : @shape Q :=
  {| shape_type := "polygon";
     label := "dog";
     points := [(JReal (7 # 2), JInt 1); (JInt 9, JReal (5 # 4)); (JInt 4, JInt 8)] |}.

(** A directory whose file holds a polygon and a rectangle. *)
Definition dog_shape : @shape float :=
  {| shape_type := "polygon";
     label := "dog";
     points := [(JInt 3, JInt 1); (JInt 9, JInt 1); (JInt 4, JInt 8)] |}.

Definition mixed_world : @world float :=
  {| listdir := ["in/img.json"; "in/img.jpg"];
     load_labelme := fun _ =>
       {| imagePath := Some (JStr "img.jpg"); imageWidth := JInt 100;
          imageHeight := JInt 100; shapes := [dog_shape; cat_shape] |};
     load_via := fun _ => [];
     st_size := fun _ => Some 1234;
     imread := fun _ => Some (100, 100);
     randint := fun _ => [0; 0; 0];
     samefile := fun _ _ => false;
     copy_error := fun _ => None |}.

(** The same directory listed and its shapes stored in another order. *)
Definition mixed_world_permuted : @world float :=
  {| listdir := ["in/img.jpg"; "in/img.json"];
     load_labelme := fun _ =>
       {| imagePath := Some (JStr "img.jpg"); imageWidth := JInt 100;
          imageHeight := JInt 100; shapes := [cat_shape; dog_shape] |};
     load_via := fun _ => [];
     st_size := fun _ => Some 1234;
     imread := fun _ => Some (100, 100);
     randint := fun _ => [0; 0; 0];
     samefile := fun _ _ => false;
     copy_error := fun _ => None |}.

(** The corners of the rectangle labelled cat, and the image size. *)
Definition cat_corners : list (Q * Q) := [(10 # 1, 10 # 1); (50 # 1, 40 # 1)].
Definition cat_dims : Q * Q := (100 # 1, 100 # 1).

(** Two corners with coordinates that are not integers, as binary64. *)
Definition corner_a : float * float :=
  (PrimFloat.div (float_of_Z 1234567) (float_of_Z 1000),
   PrimFloat.div (float_of_Z 1) (float_of_Z 3)).

Definition corner_b : float * float :=
  (PrimFloat.div (float_of_Z 7654321) (float_of_Z 1000),
   PrimFloat.div (float_of_Z 22) (float_of_Z 7)).

(** A polygon whose points coincide. *)
Definition coincident_points : list (Q * Q) :=
  [(3 # 2, 5 # 1); (3 # 2, 5 # 1); (3 # 2, 5 # 1)].

(** A VIA document with a region of three x and two y coordinates. *)
Definition bad_region : @region Q :=
  {| name := "polygon";
     all_points_x := [JInt 1; JInt 2; JInt 3];
     all_points_y := [JInt 1; JInt 2];
     region_label := "cat" |}.

Definition bad_annotation : @via_annotation Q :=
  {| filename := "a.jpg"; regions := [bad_region]; size := 1234 |}.

Definition mismatch_world : @world Q :=
  {| listdir := ["via/via_annotations.json"; "via/a.jpg"];
     load_labelme := fun _ =>
       {| imagePath := None; imageWidth := JInt 1; imageHeight := JInt 1;
          shapes := [] |};
     load_via := fun _ => [("a.jpg1234", bad_annotation)];
     st_size := fun _ => Some 1234;
     imread := fun _ => Some (100, 100);
     randint := fun _ => [0; 0; 0];
     samefile := fun _ _ => false;
     copy_error := fun _ => None |}.

(** A corpus of one file of polygons, and the directory [labelme2via]
    leaves for it. *)
Definition polygon_world : @world Q :=
  {| listdir := ["in/img.json"; "in/img.jpg"];
     load_labelme := fun _ =>
       {| imagePath := Some (JStr "img.jpg"); imageWidth := JInt 100;
          imageHeight := JInt 100; shapes := [triangle] |};
     load_via := fun _ => [];
     st_size := fun _ => Some 1234;
     imread := fun _ => Some (100, 100);
     randint := fun _ => [0; 0; 0];
     samefile := fun _ _ => false;
     copy_error := fun _ => None |}.

Definition written_document (w : @world Q) (input_dir output_dir : string)
  : list (string * @via_annotation Q) :=
  match written_via (fst (labelme2via w input_dir output_dir)) with
  | [doc] => doc
  | _ => []
  end.

Definition polygon_via_world : @world Q :=
  {| listdir := ["via/via_annotations.json"; "via/img.jpg"];
     load_labelme := load_labelme polygon_world;
     load_via := fun _ => written_document polygon_world "in/" "via/";
     st_size := fun _ => Some 1234;
     imread := fun _ => Some (100, 100);
     randint := fun _ => [0; 0; 0];
     samefile := fun _ _ => false;
     copy_error := fun _ => None |}.

(** Two Labelme files whose names become the same image name: in
    [a.json.json] both occurrences of [.json] are replaced. *)
Definition cat_polygon : @shape Q :=
  {| shape_type := "polygon";
     label := "cat";
     points := [(JInt 0, JInt 0); (JInt 4, JInt 0); (JInt 0, JInt 3)] |}.


(** Two Labelme files with different images and the same key: the image
    [a.c.c] of 123 bytes and the image [a.c.c1] of 23 bytes. *)
Definition clash2_world : @world Q :=
  {| listdir := ["in/a.json.json"; "in/a.c.json"; "in/a.c.c"; "in/a.c.c1"];
     load_labelme := fun p =>
       if String.eqb p "in/a.json.json"
       then {| imagePath := Some (JStr "a.c.c"); imageWidth := JInt 100;
               imageHeight := JInt 100; shapes := [cat_polygon] |}
       else {| imagePath := Some (JStr "a.c.c1"); imageWidth := JInt 100;
               imageHeight := JInt 100; shapes := [triangle] |};
     load_via := fun _ => [];
     st_size := fun p => if String.eqb p "in/a.c.c" then Some 123
                         else if String.eqb p "in/a.c.c1" then Some 23
                         else None;
     imread := fun _ => Some (100, 100);
     randint := fun _ => [0; 0; 0];
     samefile := fun _ _ => false;
     copy_error := fun _ => None |}.


End Scenario.

(** ** The command line *)

(** A call used as a statement: what the callee returns is dropped. *)
Definition call_statement {C} (m : io C unit) : io C unit :=
  match m with
  | (t, Ret _) => (t, Ok tt)
  | other => other
  end.

Definition output_dir_error : string :=
  "Error: parameter output_dir is required for this method.".

(** The two messages built with [str.format]. *)
Definition no_json_warning (input_dir : string) : string :=
  "Warning: no .json files found in the input directory: " +:+ input_dir.

Definition not_recognized_error (command : string) : string :=
  "Error: command '" +:+ command +:+ "' not recognized. Stop.".

Section Main.

Context {A : Type} `{NumA : Number A} `{ReprA : Repr A}.

(** The converter that is left out, as the command line calls it. *)
Variable labelmepoly2yolov4c :
  @world A -> string -> string -> list string * list Z -> io (@content A) unit.

(** The body of [if __name__ == "__main__"], after [parse_args]:
    [--input_dir] is required, [--output_dir] is [None] when absent. *)
Definition main (w : @world A) (command input_dir : string)
  (output_dir : option string) : io (@content A) unit :=
  (match glob_glob (listdir w) (input_dir +:+ "*.json") with
   | [] => print (no_json_warning input_dir)
   | _ => ret tt
   end) ;;
  if String.eqb command "labelmepoly_to_yolo" then
    match output_dir with
    | Some output_dir =>
        let labels := extract_labelme_labels w input_dir in
        call_statement (labelmepoly2yolo w input_dir output_dir labels)
    | None => print output_dir_error
    end
  else if String.eqb command "labelmerect_to_yolo" then
    match output_dir with
    | Some output_dir =>
        let labels := extract_labelme_labels w input_dir in
        call_statement (labelmerect2yolo w input_dir output_dir labels)
    | None => print output_dir_error
    end
  else if String.eqb command "labelmepoly_to_yolov4c" then
    match output_dir with
    | Some output_dir =>
        let labels := extract_labelme_labels w input_dir in
        call_statement (labelmepoly2yolov4c w input_dir output_dir labels)
    | None => print output_dir_error
    end
  else if String.eqb command "labelme_to_via" then
    match output_dir with
    | Some output_dir => call_statement (labelme2via w input_dir output_dir)
    | None => print output_dir_error
    end
  else if String.eqb command "via_to_labelme" then
    match output_dir with
    | Some output_dir => call_statement (via2labelme w input_dir output_dir)
    | None => print output_dir_error
    end
  else if String.eqb command "create_empty_txt_yolo" then
    call_statement (create_empty_txt_yolo w input_dir default_image_format)
  else
    print (not_recognized_error command).

End Main.

(** ** Vocabulary of the outputs *)

Section Outputs.

Context {A : Type} `{NumA : Number A} `{ReprA : Repr A}.

(** The line, with its line feed, that [labelmerect2yolo] writes for a
    rectangle whose label is in the table and that has two points, and
    the one [labelmepoly2yolo] writes for a polygon whose label is in
    the table and that has a point. *)
Definition rect_line (label_list : list string * list Z) (img_dims : A * A)
  (sh : @shape A) : string :=
  match index (label sh) (fst label_list),
        rect_box_yolo (np_array (points sh)) img_dims with
  | Ok shape_label_id, Ok box_yolo => box_yolo_out shape_label_id box_yolo +:+ nl
  | _, _ => EmptyString
  end.

Definition poly_line (label_list : list string * list Z) (img_dims : A * A)
  (sh : @shape A) : string :=
  match index (label sh) (fst label_list),
        poly_box_yolo (np_array (points sh)) img_dims with
  | Ok shape_label_id, Ok box_yolo => box_yolo_out shape_label_id box_yolo +:+ nl
  | _, _ => EmptyString
  end.

Definition is_kind (kind : string) (sh : @shape A) : bool :=
  String.eqb (shape_type sh) kind.

(** Where a converter to YOLO copies the image of a file to. *)
Definition yolo_image_of (w : @world A) (output_dir : string) (poly_file : string)
  : string :=
  output_dir
    +:+ replace ".txt" (image_format_of (load_labelme w poly_file))
          (replace ".json" ".txt" (last_part (split "/" poly_file))).

(** A file a converter to YOLO gets through: every shape of the kind
    it converts has its label in the table and at least [n] points, and
    the copy of the image to the output directory goes through. *)
Definition yolo_ready (w : @world A) (output_dir : string)
  (label_list : list string * list Z) (kind : string) (n : nat)
  (poly_file : string) : Prop :=
  (forall sh, In sh (shapes (load_labelme w poly_file)) ->
              shape_type sh = kind ->
              In (label sh) (fst label_list) /\ (n <= length (points sh))%nat)
  /\ copy_ready w (image_path_of w poly_file) (yolo_image_of w output_dir poly_file).

(** The lines of [classes.txt]. *)
Definition class_lines (label_list : list string * list Z) : string :=
  String.concat EmptyString
    (map (fun '(l, i) => repr_int i +:+ " " +:+ l +:+ nl)
       (zip (fst label_list) (snd label_list))).

(** A JSON number that is an [int]. *)
Definition is_int (v : jnum A) : Prop :=
  match v with
  | JInt _ => True
  | JReal _ => False
  end.

(** A region [via2labelme] converts: a polygon with as many x as y
    coordinates, each of which has an [int]. *)
Definition region_ok (rg : @region A) : Prop :=
  name rg = "polygon"
  /\ length (all_points_x rg) = length (all_points_y rg)
  /\ (forall v, In v (all_points_x rg ++ all_points_y rg) ->
                exists z, py_int v = Ok z).

(** An annotation [via2labelme] gets through: its image can be read,
    the copy of the image to the output directory goes through, and its
    regions are convertible. *)
Definition annotation_ready (w : @world A) (input_dir output_dir : string)
  (va : @via_annotation A) : Prop :=
  image_ready w input_dir output_dir (filename va)
  /\ forall rg, In rg (regions va) -> region_ok rg.

(** The Labelme dict the file [path] holds after the events [t], if it
    holds one: [open] in mode [W] empties the file, and so does, for
    a reader of JSON, any other content written or copied to it. *)
Definition labelme_at_step (path : string) (cur : option (@labelme_ann A))
  (e : event (@content A)) : option (@labelme_ann A) :=
  match e with
  | Open p W => if String.eqb p path then None else cur
  | Write p (LabelmeJson a) => if String.eqb p path then Some a else cur
  | Write p _ => if String.eqb p path then None else cur
  | Copy _ dst => if String.eqb dst path then None else cur
  | _ => cur
  end.

Definition labelme_at (path : string) (t : list (event (@content A)))
  : option (@labelme_ann A) :=
  fold_left (labelme_at_step path) t None.


(** The shape [via2labelme] makes of such a region. *)
Definition shape_of_region (rg : @region A) : @shape A :=
  {| shape_type := name rg;
     label := region_label rg;
     points := map truncate_point (zip (all_points_x rg) (all_points_y rg)) |}.

(** The Labelme dict [via2labelme] writes for the annotation number [i]
    of the document, and the name of the file it writes it to. *)
Definition labelme_ann_of (w : @world A) (input_dir : string) (i : nat)
  (va : @via_annotation A) : @labelme_ann A :=
  {| version := "4.5.6";
     fillColor := randint w (2 * i);
     lineColor := randint w (2 * i + 1);
     ann_imageHeight :=
       fst (default (0, 0) (imread w (os_path_join input_dir (filename va))));
     ann_imageWidth :=
       snd (default (0, 0) (imread w (os_path_join input_dir (filename va))));
     ann_imagePath := filename va;
     ann_shapes := map shape_of_region (regions va) |}.

Definition lme_ann_name (file_name : string) : string :=
  replace (last_part (split "." file_name)) "json" file_name.

(** The Labelme file [via2labelme] writes for an image. *)
Definition labelme_path_of (output_dir : string) (image_name : string) : string :=
  os_path_join output_dir (lme_ann_name image_name).

(** The three events of an annotation that is converted. *)
Definition annotation_events (w : @world A) (input_dir output_dir : string)
  (i : nat) (va : @via_annotation A) : list (event (@content A)) :=
  [Open (os_path_join output_dir (lme_ann_name (filename va))) W;
   Write (os_path_join output_dir (lme_ann_name (filename va)))
     (LabelmeJson (labelme_ann_of w input_dir i va));
   Copy (os_path_join input_dir (filename va))
     (os_path_join output_dir (filename va))].

(** What holds of the dict [annotations] of [labelme2via] after [n]
    files: distinct keys, at most [n] of them, each the file name
    followed by the size, and regions [via2labelme] converts. *)
Definition document_ok (n : nat) (doc : list (string * @via_annotation A)) : Prop :=
  List.NoDup (map fst doc)
  /\ (length doc <= n)%nat
  /\ forall k va, In (k, va) doc ->
                  k = filename va +:+ repr_int (size va)
                  /\ forall rg, In rg (regions va) ->
                                region_ok rg
                                /\ Forall is_int (all_points_x rg)
                                /\ Forall is_int (all_points_y rg).

(** What the command line prints before it looks at the command. *)
Definition json_warning (w : @world A) (input_dir : string)
  : list (event (@content A)) :=
  match glob_glob (listdir w) (input_dir +:+ "*.json") with
  | [] => [Print (no_json_warning input_dir)]
  | _ => []
  end.

(** The commands that need [--output_dir], and all the commands. *)
Definition converting_commands : list string :=
  ["labelmepoly_to_yolo"; "labelmerect_to_yolo"; "labelmepoly_to_yolov4c";
   "labelme_to_via"; "via_to_labelme"].

Definition commands : list string :=
  converting_commands ++ ["create_empty_txt_yolo"].

End Outputs.

(** ** Further scenarios *)

Module Cases.

Import Binary64.

(** A VIA document of two annotations with a polygon each, whose
    coordinates are not all integers. *)
Definition region_a : @region Q :=
  {| name := "polygon";
     all_points_x := [JReal (7 # 2); JInt 9; JInt 4];
     all_points_y := [JInt 1; JReal (-5 # 4); JInt 8];
     region_label := "dog" |}.

Definition region_b : @region Q :=
  {| name := "polygon";
     all_points_x := [JInt 0; JInt 4; JInt 0];
     all_points_y := [JInt 0; JInt 0; JInt 3];
     region_label := "cat" |}.

Definition via_world : @world Q :=
  {| listdir := ["via/via_annotations.json"; "via/a.jpg"; "via/b.png"];
     load_labelme := fun _ =>
       {| imagePath := None; imageWidth := JInt 1; imageHeight := JInt 1;
          shapes := [] |};
     load_via := fun _ =>
       [("a.jpg10", {| filename := "a.jpg"; regions := [region_a]; size := 10 |});
        ("b.png20", {| filename := "b.png"; regions := [region_b; region_a];
                       size := 20 |})];
     st_size := fun _ => Some 10;
     imread := fun p => if String.eqb p "via/a.jpg" then Some (48, 64)
                        else Some (30, 40);
     randint := fun n => [Z.of_nat n; 7; 9];
     samefile := fun _ _ => false;
     copy_error := fun _ => None |}.

(** A region that is a rectangle. *)
Definition rect_region : @region Q :=
  {| name := "rect";
     all_points_x := [JInt 1; JInt 2];
     all_points_y := [JInt 1; JInt 2];
     region_label := "cat" |}.

(** A rectangle with one point, and a shape whose label is in no table. *)
Definition one_point_rectangle : @shape float :=
  {| shape_type := "rectangle"; label := "cat"; points := [(JInt 10, JInt 10)] |}.

Definition one_point_world : @world float :=
  {| listdir := ["in/img.json"; "in/img.jpg"];
     load_labelme := fun _ =>
       {| imagePath := Some (JStr "img.jpg"); imageWidth := JInt 100;
          imageHeight := JInt 100; shapes := [one_point_rectangle] |};
     load_via := fun _ => [];
     st_size := fun _ => Some 1234;
     imread := fun _ => Some (100, 100);
     randint := fun _ => [0; 0; 0];
     samefile := fun _ _ => false;
     copy_error := fun _ => None |}.

Definition empty_polygon : @shape float :=
  {| shape_type := "polygon"; label := "dog"; points := [] |}.

Definition empty_polygon_world : @world float :=
  {| listdir := ["in/img.json"; "in/img.jpg"];
     load_labelme := fun _ =>
       {| imagePath := Some (JStr "img.jpg"); imageWidth := JInt 100;
          imageHeight := JInt 100; shapes := [empty_polygon] |};
     load_via := fun _ => [];
     st_size := fun _ => Some 1234;
     imread := fun _ => Some (100, 100);
     randint := fun _ => [0; 0; 0];
     samefile := fun _ _ => false;
     copy_error := fun _ => None |}.

(** Points of a polygon inside an image of 100 by 80, and the same
    points in another order. *)
Definition inner_points : list (Q * Q) :=
  [(7 # 2, 10 # 1); (90 # 1, 5 # 4); (40 # 1, 80 # 1)].

Definition inner_points_permuted : list (Q * Q) :=
  [(40 # 1, 80 # 1); (7 # 2, 10 # 1); (90 # 1, 5 # 4)].

Definition inner_dims : Q * Q := (100 # 1, 80 # 1).

(** A directory of images without a JSON file. *)
Definition images_only_world : @world float :=
  {| listdir := ["d/a.jpg"; "d/b.jpg"; "d/b.txt"];
     load_labelme := load_labelme one_point_world;
     load_via := fun _ => [];
     st_size := fun _ => Some 1;
     imread := fun _ => Some (1, 1);
     randint := fun _ => [0; 0; 0];
     samefile := fun _ _ => false;
     copy_error := fun _ => None |}.

(** A corpus of two files of polygons, with images of different kinds,
    and the directory [labelme2via] leaves for it. *)
Definition two_file_world : @world Q :=
  {| listdir := ["in/a.json"; "in/b.json"; "in/a.jpg"; "in/b.png"];
     load_labelme := fun p =>
       if String.eqb p "in/a.json"
       then {| imagePath := Some (JStr "a.jpg"); imageWidth := JInt 100;
               imageHeight := JInt 100; shapes := [Scenario.triangle] |}
       else {| imagePath := Some (JStr "b.png"); imageWidth := JInt 100;
               imageHeight := JInt 100; shapes := [Scenario.cat_polygon] |};
     load_via := fun _ => [];
     st_size := fun p => if String.eqb p "in/a.jpg" then Some 111
                         else if String.eqb p "in/b.png" then Some 222
                         else None;
     imread := fun _ => Some (100, 100);
     randint := fun _ => [0; 0; 0];
     samefile := fun _ _ => false;
     copy_error := fun _ => None |}.


(** Two files whose images, [jpg.jpg] and [png.png], get different keys
    and the same Labelme file name, [json.json]. *)
Definition name_clash_world : @world Q :=
  {| listdir := ["in/jpg.json"; "in/png.json"; "in/jpg.jpg"; "in/png.png"];
     load_labelme := fun p =>
       if String.eqb p "in/jpg.json"
       then {| imagePath := Some (JStr "jpg.jpg"); imageWidth := JInt 100;
               imageHeight := JInt 100; shapes := [Scenario.cat_polygon] |}
       else {| imagePath := Some (JStr "png.png"); imageWidth := JInt 100;
               imageHeight := JInt 100; shapes := [Scenario.triangle] |};
     load_via := fun _ => [];
     st_size := fun p => if String.eqb p "in/jpg.jpg" then Some 111
                         else if String.eqb p "in/png.png" then Some 222
                         else None;
     imread := fun _ => Some (100, 100);
     randint := fun _ => [0; 0; 0];
     samefile := fun _ _ => false;
     copy_error := fun _ => None |}.

Definition name_clash_via_world : @world Q :=
  {| listdir := ["via/via_annotations.json"; "via/jpg.jpg"; "via/png.png"];
     load_labelme := load_labelme name_clash_world;
     load_via := fun _ => Scenario.written_document name_clash_world "in/" "via/";
     st_size := fun _ => Some 1;
     imread := fun _ => Some (100, 100);
     randint := fun _ => [0; 0; 0];
     samefile := fun _ _ => false;
     copy_error := fun _ => None |}.

(** The corpus of two files without its second image. *)
Definition missing_second_world : @world Q :=
  {| listdir := listdir two_file_world;
     load_labelme := load_labelme two_file_world;
     load_via := fun _ => [];
     st_size := fun p => if String.eqb p "in/a.jpg" then Some 111 else None;
     imread := fun _ => Some (100, 100);
     randint := fun _ => [0; 0; 0];
     samefile := fun _ _ => false;
     copy_error := fun _ => None |}.

(** The VIA document of two annotations with a rectangle in the second
    one, and the one whose second image cannot be read. *)
Definition rect_second_via_world : @world Q :=
  {| listdir := listdir via_world;
     load_labelme := load_labelme via_world;
     load_via := fun _ =>
       [("a.jpg10", {| filename := "a.jpg"; regions := [region_a]; size := 10 |});
        ("b.png20", {| filename := "b.png"; regions := [region_b; rect_region];
                       size := 20 |})];
     st_size := fun _ => Some 10;
     imread := fun _ => Some (30, 40);
     randint := fun n => [Z.of_nat n; 7; 9];
     samefile := fun _ _ => false;
     copy_error := fun _ => None |}.

Definition unreadable_second_via_world : @world Q :=
  {| listdir := listdir via_world;
     load_labelme := load_labelme via_world;
     load_via := load_via via_world;
     st_size := fun _ => Some 10;
     imread := fun p => if String.eqb p "via/a.jpg" then Some (48, 64) else None;
     randint := fun n => [Z.of_nat n; 7; 9];
     samefile := fun _ _ => false;
     copy_error := fun _ => None |}.

(** A triangle with the abscissas 0.1, 0.3 and 0.2, in binary64. *)
Definition tenth_points : list (float * float) :=
  [(PrimFloat.div (float_of_Z 1) (float_of_Z 10), float_of_Z 1);
   (PrimFloat.div (float_of_Z 3) (float_of_Z 10), float_of_Z 1);
   (PrimFloat.div (float_of_Z 2) (float_of_Z 10), float_of_Z 2)].

(** A converter that does nothing, in the place of the one left out. *)
Definition no_v4c : @world float -> string -> string -> list string * list Z
                    -> io (@content float) unit :=
  fun _ _ _ _ => ret tt.

End Cases.

(** ** Properties *)

(** *** The runtime *)

Section Runtime.

Context {C : Type}.

Lemma bind_ok {X Y} (m : io C X) (k : X -> io C Y) t a :
  m = (t, Ok a) -> bind m k = (t ++ fst (k a), snd (k a)).
Proof. intros ->. simpl. destruct (k a); reflexivity. Qed.

Lemma bind_lift_ok {X Y} (a : X) (k : X -> io C Y) : bind (lift (Ok a)) k = k a.
Proof. unfold bind, lift. destruct (k a). reflexivity. Qed.

Lemma bind_nil_ok {X Y} (a : X) (k : X -> io C Y) : bind ([], Ok a) k = k a.
Proof. apply (bind_lift_ok a k). Qed.

Lemma bind_pair_ok {X Y} (t : list (event C)) (a : X) (k : X -> io C Y) :
  bind (t, Ok a) k = (t ++ fst (k a), snd (k a)).
Proof. apply bind_ok. reflexivity. Qed.

Lemma bind_emit_ret {X} (e : event C) (x : X) :
  bind (emit e) (fun _ => ret x) = ([e], Ok x).
Proof. reflexivity. Qed.

Lemma bind_not_ok {X Y} (m : io C X) (k : X -> io C Y) :
  (forall a, snd m <> Ok a) ->
  fst (bind m k) = fst m /\ forall b, snd (bind m k) <> Ok b.
Proof.
  destruct m as [t [a | v | e]]; simpl; intros Hm.
  - exfalso. apply (Hm a). reflexivity.
  - split; [reflexivity | discriminate].
  - split; [reflexivity | discriminate].
Qed.

Lemma bind_fst_Forall {X Y} (P : event C -> Prop) (m : io C X) (k : X -> io C Y) :
  Forall P (fst m) -> (forall a, Forall P (fst (k a))) -> Forall P (fst (bind m k)).
Proof.
  destruct m as [t [a | v | e]]; simpl; intros Hm Hk; try exact Hm.
  specialize (Hk a). destruct (k a) as [t' r]. simpl in *.
  apply Forall_app. split; assumption.
Qed.

Lemma bind_snd_not_ok_l {X Y} (m : io C X) (k : X -> io C Y) :
  (forall a, snd m <> Ok a) -> forall b, snd (bind m k) <> Ok b.
Proof. intros Hm. apply (bind_not_ok m k Hm). Qed.

Lemma bind_snd_not_ok_r {X Y} (m : io C X) (k : X -> io C Y) :
  (forall a b, snd (k a) <> Ok b) -> forall b, snd (bind m k) <> Ok b.
Proof.
  destruct m as [t [a | v | e]]; simpl; intros Hk b; try discriminate.
  specialize (Hk a b). destruct (k a) as [t' r]. exact Hk.
Qed.

Lemma for_collect_fst_Forall {X Y} (P : event C -> Prop) (body : X -> io C Y) l :
  (forall x, Forall P (fst (body x))) -> Forall P (fst (for_collect body l)).
Proof.
  intros Hb. induction l as [| x l IH]; simpl; [constructor |].
  apply bind_fst_Forall; [apply Hb |]. intros y.
  apply bind_fst_Forall; [exact IH |]. intros ys. constructor.
Qed.

Lemma for_collect_not_ok {X Y} (body : X -> io C Y) l x :
  In x l -> (forall y, snd (body x) <> Ok y) ->
  forall ys, snd (for_collect body l) <> Ok ys.
Proof.
  intros Hin Hx. induction l as [| x' l IH]; [destruct Hin |].
  simpl. destruct Hin as [-> | Hin].
  - apply bind_snd_not_ok_l. exact Hx.
  - apply bind_snd_not_ok_r. intros y. apply bind_snd_not_ok_l. apply IH. exact Hin.
Qed.

Lemma for_collect_ok {X Y} (body : X -> io C Y) l ys :
  Forall2 (fun x y => body x = ([], Ok y)) l ys ->
  for_collect body l = ([], Ok ys).
Proof.
  induction 1 as [| x y l ys Hx _ IH]; simpl; [reflexivity |].
  rewrite Hx, IH. reflexivity.
Qed.

Lemma for_collect_stop {X Y} (body : X -> io C Y) pre x post t v :
  Forall (fun x' => exists y, body x' = ([], Ok y)) pre ->
  body x = (t, Ret v) ->
  for_collect body (pre ++ x :: post) = (t, Ret v).
Proof.
  intros Hpre Hx. induction Hpre as [| x' pre [y Hy] _ IH]; simpl.
  - rewrite Hx. reflexivity.
  - rewrite Hy, IH. reflexivity.
Qed.


Lemma for_fold_fst_Forall {X S} (P : event C -> Prop) (body : S -> X -> io C S) l s :
  (forall s x, Forall P (fst (body s x))) -> Forall P (fst (for_fold body l s)).
Proof.
  intros Hb. revert s. induction l as [| x l IH]; intros s; simpl; [constructor |].
  apply bind_fst_Forall; [apply Hb |]. intros s'. apply IH.
Qed.

Lemma for_fold_not_ok {X S} (body : S -> X -> io C S) l x :
  In x l -> (forall s s', snd (body s x) <> Ok s') ->
  forall s s', snd (for_fold body l s) <> Ok s'.
Proof.
  intros Hin Hx. induction l as [| x' l IH]; [destruct Hin |].
  intros s. simpl. destruct Hin as [-> | Hin].
  - apply bind_snd_not_ok_l. apply Hx.
  - apply bind_snd_not_ok_r. intros s1. apply IH. exact Hin.
Qed.

Lemma for_each_from_not_ok {X} (body : nat -> X -> io C unit) l x :
  In x l -> (forall i u, snd (body i x) <> Ok u) ->
  forall i u, snd (for_each_from body i l) <> Ok u.
Proof.
  intros Hin Hx. induction l as [| x' l IH]; [destruct Hin |].
  intros i. simpl. destruct Hin as [-> | Hin].
  - apply bind_snd_not_ok_l. apply Hx.
  - apply bind_snd_not_ok_r. intros _. apply IH. exact Hin.
Qed.

Lemma split_not_nil sep s : split sep s <> [].
Proof.
  destruct s as [| c s]; simpl; [discriminate |].
  destruct (Ascii.eqb c sep); [discriminate |].
  destruct (split sep s); discriminate.
Qed.

Lemma split_no_sep sep s :
  ~ In sep (list_ascii_of_string s) -> split sep s = [s].
Proof.
  induction s as [| c s IH]; simpl; intros Hn; [reflexivity |].
  destruct (Ascii.eqb_spec c sep) as [-> | Hc].
  - exfalso. apply Hn. left. reflexivity.
  - rewrite IH; [reflexivity |]. intros Hin. apply Hn. right. exact Hin.
Qed.

End Runtime.

Import Binary64.

(** *** The rectangle scenario *)

(** C1. One rectangle with the points (10, 10) and (50, 40) in an image
    of 100 by 100, labelled cat, where cat has id 0 in the label table:
    the body of the shape loop of [labelmerect2yolo] writes the text
    [0 0.3 0.25 0.4 0.3] and then a line feed, in binary64 with the
    [repr] of Python; the label table built from the directory gives cat
    the id 0; and after the whole conversion the text file of the image
    holds exactly that line. *)
Theorem rect_scenario_line :
  (forall (rest : list string) (ids : list Z) (yolo_outfile : string),
      labelmerect2yolo_shape ("cat" :: rest, ids)
        (np_float (imageWidth Scenario.cat_file),
         np_float (imageHeight Scenario.cat_file))
        yolo_outfile Scenario.cat_shape
      = ([Write yolo_outfile (Text "0 0.3 0.25 0.4 0.3");
          Write yolo_outfile (Text nl)], Ok tt))
  /\ extract_labelme_labels Scenario.cat_world "in/" = (["cat"], [0])
  /\ file_text "out/img.txt"
       (fst (labelmerect2yolo Scenario.cat_world "in/" "out/"
               (extract_labelme_labels Scenario.cat_world "in/")))
     = Some ("0 0.3 0.25 0.4 0.3" +:+ nl).
Proof.
  split; [| split].
  - intros rest ids yolo_outfile. vm_compute. reflexivity.
  - vm_compute. reflexivity.
  - vm_compute. reflexivity.
Qed.

(** *** The image format of a file *)

Section ImageFormat.

Context {A : Type} `{NumA : Number A} `{ReprA : Repr A}.

Lemma detect_image_format_str (f : @labelme_file A) s :
  imagePath f = Some (JStr s) ->
  detect_image_format f = ([], Ok ("." +:+ last_part (split "." s))).
Proof. intros Hp. unfold detect_image_format. rewrite Hp. reflexivity. Qed.

Lemma detect_image_format_default (f : @labelme_file A) :
  (forall s, imagePath f <> Some (JStr s)) ->
  detect_image_format f = ([Print format_warning], Ok ".jpg").
Proof.
  intros Hp. unfold detect_image_format.
  destruct (imagePath f) as [[| b | z | s] |]; try reflexivity.
  exfalso. apply (Hp s). reflexivity.
Qed.

(** The format is always found: detection never ends the file. *)
Lemma detect_image_format_total (f : @labelme_file A) :
  exists t fmt, detect_image_format f = (t, Ok fmt)
                /\ Forall (fun e => is_print e = true) t.
Proof.
  destruct (imagePath f) as [[| b | z | s] |] eqn:Hp.
  4: { exists [], ("." +:+ last_part (split "." s)).
       split; [apply detect_image_format_str; exact Hp | constructor]. }
  all: exists [Print format_warning], ".jpg";
    (split; [apply detect_image_format_default; intros s'; rewrite Hp; discriminate
            | repeat constructor]).
Qed.

(** C9, as the code has it.  The converters fall back to [".jpg"] and
    print the warning exactly when the key [imagePath] is missing or its
    value is not text; the file is then processed as usual, starting
    with the creation of its text file.  When the value is text, the
    format is a dot followed by what comes after the last dot of the
    text, which is the whole text when it holds no dot, and nothing is
    printed. *)
Theorem detect_image_format_cases (f : @labelme_file A) :
  match imagePath f with
  | Some (JStr s) =>
      detect_image_format f = ([], Ok ("." +:+ last_part (split "." s)))
      /\ (~ In "."%char (list_ascii_of_string s) ->
          detect_image_format f = ([], Ok ("." +:+ s)))
  | _ =>
      detect_image_format f = ([Print format_warning], Ok ".jpg")
      /\ (forall w output_dir label_list poly_file,
             load_labelme w poly_file = f ->
             let yolo_outfile :=
               output_dir +:+ replace ".json" ".txt" (last_part (split "/" poly_file)) in
             (exists t r,
                 labelmerect2yolo_file w output_dir label_list poly_file
                 = (Print format_warning :: Open yolo_outfile W
                      :: Open yolo_outfile Py.A :: t, r))
             /\ (exists t r,
                 labelmepoly2yolo_file w output_dir label_list poly_file
                 = (Print format_warning :: Open yolo_outfile W
                      :: Open yolo_outfile Py.A :: t, r)))
  end.
Proof.
  destruct (imagePath f) as [v |] eqn:Hp.
  - destruct v as [| b | z | s].
    4: { split.
         - apply detect_image_format_str. exact Hp.
         - intros Hno. rewrite (detect_image_format_str f s Hp).
           rewrite (split_no_sep "." s Hno). reflexivity. }
    all: (split;
      [ apply detect_image_format_default; intros s'; rewrite Hp; discriminate
      | intros w output_dir label_list poly_file Hload yolo_outfile;
        assert (Hd : detect_image_format f = ([Print format_warning], Ok ".jpg"))
          by (apply detect_image_format_default; intros s'; rewrite Hp; discriminate);
        split;
        [ unfold labelmerect2yolo_file | unfold labelmepoly2yolo_file ];
        rewrite Hload, Hd; cbn [bind emit app];
        match goal with
        | |- context [ bind ?m ?k ] => destruct (bind m k) as [t r]
        end;
        exists t, r; reflexivity ]).
  - split.
    + apply detect_image_format_default. intros s'. rewrite Hp. discriminate.
    + intros w output_dir label_list poly_file Hload yolo_outfile.
      assert (Hd : detect_image_format f = ([Print format_warning], Ok ".jpg"))
        by (apply detect_image_format_default; intros s'; rewrite Hp; discriminate).
      split;
        [ unfold labelmerect2yolo_file | unfold labelmepoly2yolo_file ];
        rewrite Hload, Hd; cbn [bind emit app];
        match goal with
        | |- context [ bind ?m ?k ] => destruct (bind m k) as [t r]
        end;
        exists t, r; reflexivity.
Qed.

End ImageFormat.

(** C9, as the specification has it, fails where the path has no suffix:
    the text [image] holds no dot, and the format is then [".image"],
    not [".jpg"], with no warning. *)
Lemma no_suffix_no_fallback :
  imagePath Scenario.no_suffix_file = Some (JStr "image")
  /\ existsb (Ascii.eqb ".") (list_ascii_of_string "image") = false
  /\ detect_image_format Scenario.no_suffix_file = ([], Ok ".image")
  /\ String.eqb ".image" ".jpg" = false.
Proof. repeat split. Qed.

(** *** create_empty_txt_yolo *)

Lemma create_empty_txt_yolo_TypeError {A} (w : @world A) input_dir image_format :
  create_empty_txt_yolo w input_dir image_format = ([], Exc TypeError).
Proof. reflexivity. Qed.

(** C8, on a directory with the images [a.jpg] and [b.jpg] and the text
    file [b.txt].  The first statement of the function calls the module
    [glob], which raises [TypeError]: nothing is created, so the image
    [a.jpg] gets no text file.  The pattern of that call, the directory
    followed by [".jpg"], has no wildcard either: [glob.glob] finds no
    image with it, while the images are there under [*.jpg]. *)
Theorem create_empty_txt_yolo_creates_nothing :
  create_empty_txt_yolo Scenario.yolo_world "d/" default_image_format
  = ([], Exc TypeError)
  /\ touched (fst (create_empty_txt_yolo Scenario.yolo_world "d/"
                     default_image_format)) = []
  /\ glob_glob (listdir Scenario.yolo_world) ("d/" +:+ default_image_format) = []
  /\ glob_glob (listdir Scenario.yolo_world) "d/*.jpg" = ["d/a.jpg"; "d/b.jpg"]
  /\ glob_glob (listdir Scenario.yolo_world) "d/*.txt" = ["d/b.txt"].
Proof. repeat split. Qed.

(** *** via2labelme: the number of JSON documents *)

Section Via2Labelme.

Context {A : Type} `{NumA : Number A}.

(** C6. When the input directory holds no JSON file, or more than one,
    [via2labelme] prints the matching error and returns 1; it does
    nothing else, so nothing is written. *)
Theorem via2labelme_cardinality (w : @world A) (input_dir output_dir : string) :
  length (glob_glob (listdir w) (input_dir +:+ "*.json")) <> 1%nat ->
  exists msg,
    via2labelme w input_dir output_dir = ([Print msg], Ret 1)
    /\ touched (fst (via2labelme w input_dir output_dir)) = []
    /\ (glob_glob (listdir w) (input_dir +:+ "*.json") = [] -> msg = no_file_error)
    /\ ((1 < length (glob_glob (listdir w) (input_dir +:+ "*.json")))%nat ->
        msg = many_files_error).
Proof.
  intros Hlen. unfold via2labelme.
  destruct (glob_glob (listdir w) (input_dir +:+ "*.json")) as [| p [| q l]].
  - exists no_file_error. repeat split. simpl. lia.
  - exfalso. apply Hlen. reflexivity.
  - exists many_files_error. repeat split. discriminate.
Qed.

End Via2Labelme.

(** The directory of the scenario holds two JSON files. *)
Lemma via2labelme_cardinality_witness :
  length (glob_glob (listdir Scenario.two_json_world) ("via/" +:+ "*.json")) = 2%nat
  /\ exists msg,
      via2labelme Scenario.two_json_world "via/" "out/" = ([Print msg], Ret 1)
      /\ touched (fst (via2labelme Scenario.two_json_world "via/" "out/")) = []
      /\ (glob_glob (listdir Scenario.two_json_world) ("via/" +:+ "*.json") = []
          -> msg = no_file_error)
      /\ ((1 < length (glob_glob (listdir Scenario.two_json_world)
                         ("via/" +:+ "*.json")))%nat ->
          msg = many_files_error).
Proof.
  split; [reflexivity |].
  apply (via2labelme_cardinality Scenario.two_json_world "via/" "out/").
  vm_compute. discriminate.
Defined.

(** *** Shapes of another kind *)

Section ShapeKinds.

Context {A : Type} `{NumA : Number A} `{ReprA : Repr A}.

Lemma eqb_neq_negb (s t : string) : s <> t -> negb (String.eqb s t) = true.
Proof. intros Hne. destruct (String.eqb_spec s t); [contradiction | reflexivity]. Qed.

Lemma ints_quiet (l : list (jnum A)) :
  Forall (fun e : event (@content A) => is_open_or_write e = false) (fst (ints l)).
Proof.
  apply for_collect_fst_Forall. intros v.
  destruct (py_int v); simpl; constructor.
Qed.

Lemma labelme2via_shape_quiet (sh : @shape A) :
  Forall (fun e => is_open_or_write e = false) (fst (labelme2via_shape sh)).
Proof.
  unfold labelme2via_shape.
  destruct (negb (String.eqb (shape_type sh) "polygon")).
  - repeat constructor.
  - apply bind_fst_Forall; [apply ints_quiet |]. intros xs.
    apply bind_fst_Forall; [apply ints_quiet |]. intros ys. constructor.
Qed.

Lemma copyfile_quiet (w : @world A) src dst :
  Forall (fun e => is_open_or_write e = false) (fst (copyfile w src dst)).
Proof.
  unfold copyfile. destruct (st_size w src); [| constructor].
  destruct (same_file w src dst); [constructor |].
  destruct (copy_error w dst); repeat constructor.
Qed.

Lemma detect_image_format_quiet (f : @labelme_file A) :
  Forall (fun e : event (@content A) => is_open_or_write e = false)
    (fst (detect_image_format f)).
Proof.
  destruct (detect_image_format_total f) as (t & fmt & -> & Ht). simpl.
  eapply Forall_impl; [exact Ht |]. intros [msg | | |]; simpl; congruence.
Qed.

(** Until the loop over the files is over, [labelme2via] creates no file
    and writes to none: it prints and copies images. *)
Lemma labelme2via_annotations_quiet (w : @world A) input_dir output_dir :
  Forall (fun e => is_open_or_write e = false)
    (fst (labelme2via_annotations w input_dir output_dir)).
Proof.
  unfold labelme2via_annotations. apply for_fold_fst_Forall.
  intros annotations poly_file. unfold labelme2via_file.
  apply bind_fst_Forall; [apply detect_image_format_quiet |]. intros fmt.
  apply bind_fst_Forall; [destruct (st_size w _); constructor |]. intros n.
  apply bind_fst_Forall.
  { apply for_collect_fst_Forall. apply labelme2via_shape_quiet. }
  intros rs. apply bind_fst_Forall; [apply copyfile_quiet |]. intros _. constructor.
Qed.

Lemma quiet_written_via (t : list (event (@content A))) :
  Forall (fun e => is_open_or_write e = false) t -> written_via t = [].
Proof.
  induction 1 as [| e t He _ IH]; [reflexivity |].
  destruct e as [msg | p m | p c | src dst]; simpl in He; try discriminate;
    simpl; exact IH.
Qed.

Lemma labelme2via_shape_other (sh : @shape A) :
  shape_type sh <> "polygon" ->
  labelme2via_shape sh = ([Print via_error], Ret 1).
Proof.
  intros Hk. unfold labelme2via_shape. rewrite (eqb_neq_negb _ _ Hk). reflexivity.
Qed.

Lemma labelme2via_file_not_ok (w : @world A) input_dir output_dir poly_file sh :
  In sh (shapes (load_labelme w poly_file)) ->
  shape_type sh <> "polygon" ->
  forall annotations d,
    snd (labelme2via_file w input_dir output_dir annotations poly_file) <> Ok d.
Proof.
  intros Hin Hk annotations. unfold labelme2via_file.
  apply bind_snd_not_ok_r. intros fmt.
  apply bind_snd_not_ok_r. intros n.
  apply bind_snd_not_ok_l.
  apply (for_collect_not_ok _ _ sh Hin).
  intros y. rewrite (labelme2via_shape_other sh Hk). discriminate.
Qed.

(** C5. A shape that is not a polygon ends [labelme2via]: the body of
    the shape loop prints the error and returns 1, the function does not
    run to its end, and no file has been created or written, the VIA
    document included.  The Labelme to YOLO converters print a warning
    for a shape of another kind than theirs and go on with the next
    shape of the file. *)
Theorem labelme2via_aborts_yolo_skips (w : @world A) (input_dir output_dir : string)
  (poly_file : string) (sh : @shape A) :
  In poly_file (glob_glob (listdir w) (input_dir +:+ "*.json")) ->
  In sh (shapes (load_labelme w poly_file)) ->
  shape_type sh <> "polygon" ->
  labelme2via_shape sh = ([Print via_error], Ret 1)
  /\ snd (labelme2via w input_dir output_dir) <> Ok tt
  /\ Forall (fun e => is_open_or_write e = false)
       (fst (labelme2via w input_dir output_dir))
  /\ written_via (fst (labelme2via w input_dir output_dir)) = []
  /\ (forall label_list img_dims yolo_outfile (other : @shape A) rest,
         shape_type other <> "rectangle" ->
         for_each (labelmerect2yolo_shape label_list img_dims yolo_outfile)
           (other :: rest)
         = (Print rect_warning
              :: fst (for_each (labelmerect2yolo_shape label_list img_dims yolo_outfile) rest),
            snd (for_each (labelmerect2yolo_shape label_list img_dims yolo_outfile) rest)))
  /\ (forall label_list img_dims yolo_outfile (other : @shape A) rest,
         shape_type other <> "polygon" ->
         for_each (labelmepoly2yolo_shape label_list img_dims yolo_outfile)
           (other :: rest)
         = (Print poly_warning
              :: fst (for_each (labelmepoly2yolo_shape label_list img_dims yolo_outfile) rest),
            snd (for_each (labelmepoly2yolo_shape label_list img_dims yolo_outfile) rest))).
Proof.
  intros Hfile Hin Hk.
  assert (Hbody : forall d,
             snd (labelme2via_annotations w input_dir output_dir) <> Ok d).
  { unfold labelme2via_annotations.
    apply (for_fold_not_ok _ _ poly_file Hfile).
    intros s. apply (labelme2via_file_not_ok w input_dir output_dir poly_file sh Hin Hk). }
  assert (Hfst : fst (labelme2via w input_dir output_dir)
                 = fst (labelme2via_annotations w input_dir output_dir)).
  { unfold labelme2via. apply bind_not_ok. exact Hbody. }
  split; [apply labelme2via_shape_other; exact Hk |].
  split; [unfold labelme2via; apply bind_snd_not_ok_l; exact Hbody |].
  assert (Hq := labelme2via_annotations_quiet w input_dir output_dir).
  split; [rewrite Hfst; exact Hq |].
  split; [rewrite Hfst; apply quiet_written_via; exact Hq |].
  split.
  - intros label_list img_dims yolo_outfile other rest Ho.
    simpl. unfold labelmerect2yolo_shape at 1. rewrite (eqb_neq_negb _ _ Ho).
    simpl. destruct (for_each _ rest). reflexivity.
  - intros label_list img_dims yolo_outfile other rest Ho.
    simpl. unfold labelmepoly2yolo_shape at 1. rewrite (eqb_neq_negb _ _ Ho).
    simpl. destruct (for_each _ rest). reflexivity.
Qed.

(** *** Regions with mismatched point lists *)

Lemma via2labelme_region_prints (rg : @region A) :
  Forall (fun e : event (@content A) => is_print e = true)
    (fst (via2labelme_region rg)).
Proof.
  unfold via2labelme_region.
  destruct (negb (String.eqb (name rg) "polygon")); [repeat constructor |].
  destruct (negb (length (all_points_x rg) =? length (all_points_y rg))%nat);
    [repeat constructor |].
  apply bind_fst_Forall; [| intros; constructor].
  apply for_collect_fst_Forall. intros [x y].
  destruct (py_int x); simpl; [| constructor | constructor].
  destruct (py_int y); simpl; constructor.
Qed.

Lemma via2labelme_region_mismatch_not_ok (rg : @region A) :
  length (all_points_x rg) <> length (all_points_y rg) ->
  forall sh, snd (via2labelme_region rg) <> Ok sh.
Proof.
  intros Hlen sh. unfold via2labelme_region.
  destruct (negb (String.eqb (name rg) "polygon")); [discriminate |].
  destruct (Nat.eqb_spec (length (all_points_x rg)) (length (all_points_y rg)));
    [contradiction | discriminate].
Qed.

Lemma via2labelme_region_mismatch (rg : @region A) :
  name rg = "polygon" ->
  length (all_points_x rg) <> length (all_points_y rg) ->
  via2labelme_region rg = ([Print mismatch_error], Ret 1).
Proof.
  intros Hname Hlen. unfold via2labelme_region. rewrite Hname. simpl.
  destruct (Nat.eqb_spec (length (all_points_x rg)) (length (all_points_y rg)));
    [contradiction | reflexivity].
Qed.

Lemma prints_touch_nothing (t : list (event (@content A))) :
  Forall (fun e => is_print e = true) t -> touched t = [].
Proof.
  induction 1 as [| e t He _ IH]; [reflexivity |].
  destruct e; simpl in He; try discriminate. simpl. exact IH.
Qed.

Lemma via2labelme_annotation_mismatch (w : @world A) input_dir output_dir i va rg :
  In rg (regions va) ->
  length (all_points_x rg) <> length (all_points_y rg) ->
  (forall u, snd (via2labelme_annotation w input_dir output_dir i va) <> Ok u)
  /\ touched (fst (via2labelme_annotation w input_dir output_dir i va)) = [].
Proof.
  intros Hin Hlen. unfold via2labelme_annotation.
  destruct (imread w (os_path_join input_dir (filename va))) as [[h wd] |].
  - assert (Hregions : forall ys,
               snd (for_collect via2labelme_region (regions va)) <> Ok ys).
    { apply (for_collect_not_ok _ _ rg Hin).
      apply via2labelme_region_mismatch_not_ok. exact Hlen. }
    rewrite bind_lift_ok.
    match goal with
    | |- context [ bind ?m ?k ] =>
        destruct (bind_not_ok m k Hregions) as [Hfst Hsnd]
    end.
    split; [exact Hsnd |].
    rewrite Hfst. apply prints_touch_nothing.
    apply for_collect_fst_Forall. apply via2labelme_region_prints.
  - split; [discriminate | reflexivity].
Qed.

(** C7. A region whose lists of x and of y coordinates differ in length
    ends [via2labelme]: the function does not run to its end; the body
    of the loop over the annotations, run on the annotation of that
    region, ends before it creates or writes any file; the region, being
    a polygon, makes the body of the region loop print the points
    mismatch error and return 1; and so does the body of the loop over
    the annotations when the image is readable and the regions before
    that one are converted. *)
Theorem via2labelme_points_mismatch (w : @world A) (input_dir output_dir : string)
  (poly_file : string) (va : @via_annotation A) (rg : @region A) :
  glob_glob (listdir w) (input_dir +:+ "*.json") = [poly_file] ->
  In va (map snd (load_via w poly_file)) ->
  In rg (regions va) ->
  length (all_points_x rg) <> length (all_points_y rg) ->
  snd (via2labelme w input_dir output_dir) <> Ok tt
  /\ (forall i,
         snd (via2labelme_annotation w input_dir output_dir i va) <> Ok tt
         /\ touched (fst (via2labelme_annotation w input_dir output_dir i va)) = [])
  /\ (name rg = "polygon" ->
      via2labelme_region rg = ([Print mismatch_error], Ret 1))
  /\ (forall i pre post,
         regions va = pre ++ rg :: post ->
         Forall (fun r => exists sh, via2labelme_region r = ([], Ok sh)) pre ->
         name rg = "polygon" ->
         is_Some (imread w (os_path_join input_dir (filename va))) ->
         via2labelme_annotation w input_dir output_dir i va
         = ([Print mismatch_error], Ret 1)).
Proof.
  intros Hglob Hva Hrg Hlen.
  split.
  { unfold via2labelme. rewrite Hglob.
    apply (for_each_from_not_ok _ _ va Hva).
    intros i. apply (via2labelme_annotation_mismatch w input_dir output_dir i va rg Hrg Hlen). }
  split.
  { intros i.
    destruct (via2labelme_annotation_mismatch w input_dir output_dir i va rg Hrg Hlen)
      as [Hr Ht].
    split; [apply Hr | exact Ht]. }
  split.
  - intros Hname. apply via2labelme_region_mismatch; assumption.
  - intros i pre post Hsplit Hpre Hname [[h wd] Him].
    unfold via2labelme_annotation. rewrite Him, bind_lift_ok, Hsplit.
    rewrite (for_collect_stop via2labelme_region pre rg post
               [Print mismatch_error] 1 Hpre
               (via2labelme_region_mismatch rg Hname Hlen)).
    reflexivity.
Qed.

End ShapeKinds.

(** *** The label table *)

Section LabelTable.

Context {A : Type}.

Lemma compare_not_Gt_trans (s1 s2 s3 : string) :
  String.compare s1 s2 <> Gt -> String.compare s2 s3 <> Gt ->
  String.compare s1 s3 <> Gt.
Proof.
  revert s2 s3. induction s1 as [| c1 s1 IH]; intros [| c2 s2] [| c3 s3];
    simpl; try congruence.
  unfold Ascii.compare.
  destruct (N.compare_spec (N_of_ascii c1) (N_of_ascii c2)) as [E12 | L12 | G12];
    destruct (N.compare_spec (N_of_ascii c2) (N_of_ascii c3)) as [E23 | L23 | G23];
    destruct (N.compare_spec (N_of_ascii c1) (N_of_ascii c3)) as [E13 | L13 | G13];
    try congruence; try lia.
  apply IH.
Qed.

#[local] Instance str_le_trans : Transitive str_le.
Proof.
  intros s1 s2 s3. unfold str_le, String.leb. intros H12 H23.
  pose proof (compare_not_Gt_trans s1 s2 s3) as Ht.
  destruct (String.compare s1 s2); try discriminate;
    destruct (String.compare s2 s3); try discriminate;
    destruct (String.compare s1 s3); try reflexivity;
    exfalso; apply Ht; congruence.
Qed.

#[local] Instance str_le_antisym : AntiSymm (=) str_le.
Proof. intros s1 s2. unfold str_le. apply String.leb_antisym. Qed.

#[local] Instance str_le_total : Total str_le.
Proof. intros s1 s2. unfold str_le. apply String.leb_total. Qed.

Lemma contains_In (x : string) (l : list string) : contains x l = true <-> In x l.
Proof.
  unfold contains. rewrite existsb_exists. split.
  - intros (y & Hy & Heq). apply String.eqb_eq in Heq. subst. exact Hy.
  - intros Hx. exists x. split; [exact Hx | apply String.eqb_refl].
Qed.

Lemma collect_labels_spec (shs : list (@shape A)) (acc : list string) :
  NoDup acc ->
  NoDup (collect_labels acc shs)
  /\ forall x, In x (collect_labels acc shs) <-> In x acc \/ In x (map label shs).
Proof.
  revert acc. induction shs as [| sh shs IH]; intros acc Hnd; simpl.
  - split; [exact Hnd | intros x; tauto].
  - destruct (contains (label sh) acc) eqn:Hc.
    + destruct (IH acc Hnd) as [Hnd' Hin]. split; [exact Hnd' |].
      intros x. rewrite Hin. apply contains_In in Hc.
      split; [tauto |]. intros [Hx | [<- | Hx]]; tauto.
    + assert (Hnot : ~ In (label sh) acc).
      { intros Hx. apply contains_In in Hx. congruence. }
      assert (Hnd1 : NoDup (acc ++ [label sh])).
      { apply NoDup_app. split; [exact Hnd |]. split.
        - intros x Hx Hx'. apply list_elem_of_In in Hx, Hx'.
          destruct Hx' as [<- | []]. contradiction.
        - apply NoDup_singleton. }
      destruct (IH _ Hnd1) as [Hnd' Hin]. split; [exact Hnd' |].
      intros x. rewrite Hin, in_app_iff. simpl. tauto.
Qed.

(** The labels before they are sorted. *)
Lemma all_labels_spec (load : string -> @labelme_file A) (files acc : list string) :
  NoDup acc ->
  let labels :=
    fold_left (fun label_list poly_file =>
                 collect_labels label_list (shapes (load poly_file))) files acc in
  NoDup labels
  /\ forall x, In x labels <->
               In x acc
               \/ exists p sh, In p files /\ In sh (shapes (load p)) /\ label sh = x.
Proof.
  revert acc. induction files as [| p files IH]; intros acc Hnd; simpl.
  - split; [exact Hnd |]. intros x. split; [tauto |].
    intros [Hx | (p & sh & [] & _)]. exact Hx.
  - destruct (collect_labels_spec (shapes (load p)) acc Hnd) as [Hnd1 Hin1].
    destruct (IH _ Hnd1) as [Hnd2 Hin2]. split; [exact Hnd2 |].
    intros x. rewrite Hin2, Hin1. rewrite in_map_iff. split.
    + intros [[Hx | (sh & Hl & Hsh)] | (q & sh & Hq & Hsh & Hl)].
      * left. exact Hx.
      * right. exists p, sh. tauto.
      * right. exists q, sh. tauto.
    + intros [Hx | (q & sh & [<- | Hq] & Hsh & Hl)].
      * tauto.
      * left. right. exists sh. tauto.
      * right. exists q, sh. tauto.
Qed.

(** C4. The label table does not depend on the order in which the
    directory lists the files nor on the order of the shapes in a file.
    Its labels are the labels of the shapes of the JSON files of the
    directory, each once, in ascending order, and its ids are 0 to N-1
    in that order. *)
Theorem extract_labelme_labels_order_independent (w1 w2 : @world A)
  (labelme_input_directory : string) :
  Permutation (listdir w1) (listdir w2) ->
  (forall p, Permutation (shapes (load_labelme w1 p)) (shapes (load_labelme w2 p))) ->
  extract_labelme_labels w1 labelme_input_directory
  = extract_labelme_labels w2 labelme_input_directory
  /\ Sorted str_le (fst (extract_labelme_labels w1 labelme_input_directory))
  /\ NoDup (fst (extract_labelme_labels w1 labelme_input_directory))
  /\ (forall l,
         In l (fst (extract_labelme_labels w1 labelme_input_directory))
         <-> exists p sh,
             In p (glob_glob (listdir w1) (labelme_input_directory +:+ "*.json"))
             /\ In sh (shapes (load_labelme w1 p)) /\ label sh = l)
  /\ snd (extract_labelme_labels w1 labelme_input_directory)
     = map Z.of_nat
         (seq 0 (length (fst (extract_labelme_labels w1 labelme_input_directory)))).
Proof.
  intros Hfiles Hshapes.
  unfold extract_labelme_labels. cbn [fst snd].
  set (pat := labelme_input_directory +:+ "*.json").
  destruct (all_labels_spec (load_labelme w1) (glob_glob (listdir w1) pat) []
              (NoDup_nil_2)) as [Hnd1 Hin1].
  destruct (all_labels_spec (load_labelme w2) (glob_glob (listdir w2) pat) []
              (NoDup_nil_2)) as [Hnd2 Hin2].
  cbv zeta in Hnd1, Hin1, Hnd2, Hin2.
  set (l1 := fold_left _ (glob_glob (listdir w1) pat) []) in *.
  set (l2 := fold_left _ (glob_glob (listdir w2) pat) []) in *.
  assert (Hperm : Permutation l1 l2).
  { apply NoDup_Permutation; [exact Hnd1 | exact Hnd2 |].
    intros x. rewrite !list_elem_of_In, Hin1, Hin2. simpl.
    split; intros [[] | (p & sh & Hp & Hsh & Hl)]; right.
    - apply (Permutation_in _ (Hshapes p)) in Hsh.
      exists p, sh. split; [| tauto].
      unfold glob_glob in *. apply filter_In in Hp. apply filter_In.
      split; [apply (Permutation_in _ Hfiles); tauto | tauto].
    - apply (Permutation_in _ (Permutation_sym (Hshapes p))) in Hsh.
      exists p, sh. split; [| tauto].
      unfold glob_glob in *. apply filter_In in Hp. apply filter_In.
      split; [apply (Permutation_in _ (Permutation_sym Hfiles)); tauto | tauto]. }
  assert (Hsort : sort l1 = sort l2).
  { unfold sort. apply (Sorted_unique str_le).
    - apply Sorted_merge_sort; apply _.
    - apply Sorted_merge_sort; apply _.
    - rewrite !merge_sort_Permutation. exact Hperm. }
  split; [rewrite Hsort; reflexivity |].
  split; [unfold sort; apply Sorted_merge_sort; apply _ |].
  split.
  { unfold sort. rewrite merge_sort_Permutation. exact Hnd1. }
  split; [| reflexivity].
  intros l. unfold sort.
  assert (Hm : In l (merge_sort str_le l1) <-> In l l1).
  { split; apply Permutation_in;
      [apply merge_sort_Permutation | symmetry; apply merge_sort_Permutation]. }
  rewrite Hm, Hin1. simpl. tauto.
Qed.

End LabelTable.

(** *** Geometry, in exact arithmetic *)

Section Geometry.

Local Open Scope Q_scope.

Lemma Qltb_true (x y : Q) : Qltb x y = true <-> x < y.
Proof.
  unfold Qltb. rewrite negb_true_iff. split.
  - intros Hb. apply Qnot_le_lt. intros Hle.
    apply Qle_bool_iff in Hle. congruence.
  - intros Hlt. destruct (Qle_bool y x) eqn:Hb; [| reflexivity].
    apply Qle_bool_iff in Hb. exfalso. apply (Qlt_not_le _ _ Hlt Hb).
Qed.

Lemma Qltb_false (x y : Q) : Qltb x y = false <-> y <= x.
Proof.
  unfold Qltb. rewrite negb_false_iff. apply Qle_bool_iff.
Qed.

(** [min] returns an item of the column that is below all of them. *)
Lemma py_min_spec (l : list Q) (x : Q) :
  In (py_min x l) (x :: l) /\ forall y, In y (x :: l) -> py_min x l <= y.
Proof.
  revert x. induction l as [| a l IH]; intros x; simpl.
  - split; [left; reflexivity |]. intros y [<- | []]. apply Qle_refl.
  - unfold py_min in *. simpl.
    destruct (Qltb a x) eqn:Hlt.
    + apply Qltb_true in Hlt. destruct (IH a) as [Hin Hle]. split.
      * destruct Hin as [Hin | Hin]; [right; left; exact Hin | right; right; exact Hin].
      * intros y [<- | [<- | Hy]].
        -- eapply Qle_trans; [apply Hle; left; reflexivity |].
           apply Qlt_le_weak. exact Hlt.
        -- apply Hle. left. reflexivity.
        -- apply Hle. right. exact Hy.
    + apply Qltb_false in Hlt. destruct (IH x) as [Hin Hle]. split.
      * destruct Hin as [Hin | Hin]; [left; exact Hin | right; right; exact Hin].
      * intros y [<- | [<- | Hy]].
        -- apply Hle. left. reflexivity.
        -- eapply Qle_trans; [apply Hle; left; reflexivity | exact Hlt].
        -- apply Hle. right. exact Hy.
Qed.

(** [max] returns an item of the column that is above all of them. *)
Lemma py_max_spec (l : list Q) (x : Q) :
  In (py_max x l) (x :: l) /\ forall y, In y (x :: l) -> y <= py_max x l.
Proof.
  revert x. induction l as [| a l IH]; intros x; simpl.
  - split; [left; reflexivity |]. intros y [<- | []]. apply Qle_refl.
  - unfold py_max in *. simpl.
    destruct (Qltb x a) eqn:Hlt.
    + apply Qltb_true in Hlt. destruct (IH a) as [Hin Hle]. split.
      * destruct Hin as [Hin | Hin]; [right; left; exact Hin | right; right; exact Hin].
      * intros y [<- | [<- | Hy]].
        -- eapply Qle_trans; [| apply Hle; left; reflexivity].
           apply Qlt_le_weak. exact Hlt.
        -- apply Hle. left. reflexivity.
        -- apply Hle. right. exact Hy.
    + apply Qltb_false in Hlt. destruct (IH x) as [Hin Hle]. split.
      * destruct Hin as [Hin | Hin]; [left; exact Hin | right; right; exact Hin].
      * intros y [<- | [<- | Hy]].
        -- apply Hle. left. reflexivity.
        -- eapply Qle_trans; [exact Hlt | apply Hle; left; reflexivity].
        -- apply Hle. right. exact Hy.
Qed.

Lemma half_span_low (lo hi : Q) : lo + (hi - lo) / 2 - (hi - lo) / 2 == lo.
Proof. field. Qed.

Lemma half_span_high (lo hi : Q) : lo + (hi - lo) / 2 + (hi - lo) / 2 == hi.
Proof. field. Qed.

(** C2. In exact arithmetic, for a polygon with at least one point, so
    for every polygon with three or more, [poly_box] returns a box,
    with no error: its
    width and height are the spans between the least and the greatest x
    and y among the points, and its centre is the least value plus half
    the span.  The box, from the centre minus half the size to the
    centre plus half the size on each axis, contains every point, and
    every axis-aligned box that contains every point contains it.  The
    width is 0 when all points have the same x and the height is 0 when
    all have the same y; the division by the image size that follows
    returns the four numbers of the line. *)
Theorem poly_box_bounding (shape_points : list (Q * Q)) :
  (1 <= length shape_points)%nat ->
  exists cx cy bw bh,
    poly_box shape_points = Ok (cx, cy, bw, bh)
    /\ (exists min_x max_x min_y max_y,
           In min_x (map fst shape_points) /\ In max_x (map fst shape_points)
           /\ In min_y (map snd shape_points) /\ In max_y (map snd shape_points)
           /\ (forall p, In p shape_points ->
                         min_x <= fst p <= max_x /\ min_y <= snd p <= max_y)
           /\ bw = max_x - min_x /\ bh = max_y - min_y
           /\ cx = min_x + bw / 2 /\ cy = min_y + bh / 2)
    /\ (forall p, In p shape_points ->
                  cx - bw / 2 <= fst p <= cx + bw / 2
                  /\ cy - bh / 2 <= snd p <= cy + bh / 2)
    /\ (forall a b c d,
           (forall p, In p shape_points -> a <= fst p <= b /\ c <= snd p <= d) ->
           a <= cx - bw / 2 /\ cx + bw / 2 <= b
           /\ c <= cy - bh / 2 /\ cy + bh / 2 <= d)
    /\ 0 <= bw /\ 0 <= bh
    /\ ((forall p q, In p shape_points -> In q shape_points -> fst p == fst q) ->
        bw == 0)
    /\ ((forall p q, In p shape_points -> In q shape_points -> snd p == snd q) ->
        bh == 0)
    /\ (forall img_dims,
           poly_box_yolo shape_points img_dims
           = Ok [cx / fst img_dims; cy / snd img_dims;
                 bw / fst img_dims; bh / snd img_dims]).
Proof.
  intros Hlen. destruct shape_points as [| p0 ps]; [simpl in Hlen; lia |].
  destruct (py_min_spec (map fst ps) (fst p0)) as [Hminx_in Hminx].
  destruct (py_max_spec (map fst ps) (fst p0)) as [Hmaxx_in Hmaxx].
  destruct (py_min_spec (map snd ps) (snd p0)) as [Hminy_in Hminy].
  destruct (py_max_spec (map snd ps) (snd p0)) as [Hmaxy_in Hmaxy].
  set (min_x := py_min (fst p0) (map fst ps)) in *.
  set (max_x := py_max (fst p0) (map fst ps)) in *.
  set (min_y := py_min (snd p0) (map snd ps)) in *.
  set (max_y := py_max (snd p0) (map snd ps)) in *.
  assert (Hbox : forall p, In p (p0 :: ps) ->
                           min_x <= fst p <= max_x /\ min_y <= snd p <= max_y).
  { intros p Hp.
    assert (Hx : In (fst p) (fst p0 :: map fst ps))
      by (change (In (fst p) (map fst (p0 :: ps))); apply in_map; exact Hp).
    assert (Hy : In (snd p) (snd p0 :: map snd ps))
      by (change (In (snd p) (map snd (p0 :: ps))); apply in_map; exact Hp).
    repeat split; auto. }
  exists (min_x + (max_x - min_x) / 2), (min_y + (max_y - min_y) / 2),
    (max_x - min_x), (max_y - min_y).
  split; [reflexivity |].
  split.
  { exists min_x, max_x, min_y, max_y. repeat split; try assumption; apply Hbox; assumption. }
  split.
  { intros p Hp. destruct (Hbox p Hp) as [[Hx1 Hx2] [Hy1 Hy2]].
    rewrite !half_span_low, !half_span_high. repeat split; assumption. }
  split.
  { intros a b c d Hall. rewrite !half_span_low, !half_span_high.
    assert (Hex : forall (f : Q * Q -> Q) v,
               In v (f p0 :: map f ps) -> exists p, In p (p0 :: ps) /\ v = f p).
    { intros f v Hv. change (In v (map f (p0 :: ps))) in Hv.
      apply in_map_iff in Hv. destruct Hv as (p & <- & Hp). exists p. tauto. }
    destruct (Hex fst _ Hminx_in) as (q1 & Hq1 & ->).
    destruct (Hex fst _ Hmaxx_in) as (q2 & Hq2 & ->).
    destruct (Hex snd _ Hminy_in) as (q3 & Hq3 & ->).
    destruct (Hex snd _ Hmaxy_in) as (q4 & Hq4 & ->).
    repeat split; [apply (Hall q1 Hq1) | apply (Hall q2 Hq2)
                   | apply (Hall q3 Hq3) | apply (Hall q4 Hq4)]. }
  assert (Hxspan : min_x <= max_x).
  { destruct (Hbox p0 (or_introl eq_refl)) as [[H1 H2] _].
    eapply Qle_trans; eassumption. }
  assert (Hyspan : min_y <= max_y).
  { destruct (Hbox p0 (or_introl eq_refl)) as [_ [H1 H2]].
    eapply Qle_trans; eassumption. }
  split; [lra |]. split; [lra |].
  assert (Hex : forall (f : Q * Q -> Q) v,
             In v (f p0 :: map f ps) -> exists p, In p (p0 :: ps) /\ v = f p).
  { intros f v Hv. change (In v (map f (p0 :: ps))) in Hv.
    apply in_map_iff in Hv. destruct Hv as (p & <- & Hp). exists p. tauto. }
  split.
  { intros Hsame.
    destruct (Hex fst _ Hminx_in) as (q1 & Hq1 & E1).
    destruct (Hex fst _ Hmaxx_in) as (q2 & Hq2 & E2).
    rewrite E1, E2, (Hsame q2 q1 Hq2 Hq1). ring. }
  split.
  { intros Hsame.
    destruct (Hex snd _ Hminy_in) as (q1 & Hq1 & E1).
    destruct (Hex snd _ Hmaxy_in) as (q2 & Hq2 & E2).
    rewrite E1, E2, (Hsame q2 q1 Hq2 Hq1). ring. }
  intros img_dims. reflexivity.
Qed.

(** C10, as the code has it, in exact arithmetic.  The four numbers
    [labelmerect2yolo] writes for a rectangle do not depend on which
    corner comes first.  The centre on the line is the midpoint of the
    two corners divided by the image size, and the size on the line is
    the absolute difference of their coordinates divided by the image
    size (by its absolute value, which for a positive image size is the
    image size). *)
Theorem rect_box_yolo_corner_order (p0 p1 : Q * Q) (img_dims : Q * Q)
  (rest rest' : list (Q * Q)) :
  exists cx cy bw bh cx' cy' bw' bh',
    rect_box_yolo (p0 :: p1 :: rest) img_dims = Ok [cx; cy; bw; bh]
    /\ rect_box_yolo (p1 :: p0 :: rest') img_dims = Ok [cx'; cy'; bw'; bh']
    /\ cx == cx' /\ cy == cy' /\ bw == bw' /\ bh == bh'
    /\ cx == (fst p0 + fst p1) / 2 / fst img_dims
    /\ cy == (snd p0 + snd p1) / 2 / snd img_dims
    /\ bw == Qabs (fst p1 - fst p0) / Qabs (fst img_dims)
    /\ bh == Qabs (snd p0 - snd p1) / Qabs (snd img_dims)
    /\ (0 < fst img_dims -> bw == Qabs (fst p1 - fst p0) / fst img_dims)
    /\ (0 < snd img_dims -> bh == Qabs (snd p0 - snd p1) / snd img_dims).
Proof.
  destruct p0 as [x0 y0], p1 as [x1 y1], img_dims as [W H].
  do 8 eexists. split; [reflexivity |]. split; [reflexivity |].
  cbn [fst snd num_add num_sub num_div num_abs Q_Number two num_of_Z].
  assert (Hmid : forall a b : Q, a + (b - a) / inject_Z 2 == (a + b) / 2)
    by (intros a b; change (inject_Z 2) with (2 # 1); field).
  assert (Hmid' : forall a b : Q, b + (a - b) / inject_Z 2 == (a + b) / 2)
    by (intros a b; change (inject_Z 2) with (2 # 1); field).
  assert (Habs : forall a b c : Q, Qabs ((a - b) / c) == Qabs (b - a) / Qabs c).
  { intros a b c. unfold Qdiv. rewrite Qabs_Qmult, Qabs_Qinv.
    rewrite (Qabs_Qminus a b). reflexivity. }
  assert (Habs' : forall a b c : Q, Qabs ((a - b) / c) == Qabs (a - b) / Qabs c).
  { intros a b c. unfold Qdiv. rewrite Qabs_Qmult, Qabs_Qinv. reflexivity. }
  repeat split.
  - rewrite Hmid, Hmid'. reflexivity.
  - rewrite Hmid, Hmid'. reflexivity.
  - rewrite Habs, Habs'. reflexivity.
  - rewrite Habs, Habs'. reflexivity.
  - rewrite Hmid. reflexivity.
  - rewrite Hmid'. reflexivity.
  - apply Habs'.
  - apply Habs'.
  - intros HW. rewrite Habs'. rewrite (Qabs_pos W); [reflexivity | lra].
  - intros HH. rewrite Habs'. rewrite (Qabs_pos H); [reflexivity | lra].
Qed.

End Geometry.

(** *** The round trip through VIA *)

Section RoundTrip.

Context {A : Type} `{NumA : Number A}.

Lemma detect_image_format_of (f : @labelme_file A) :
  detect_image_format f
  = (fst (detect_image_format f) : list (event (@content A)), Ok (image_format_of f)).
Proof.
  unfold detect_image_format, image_format_of.
  destruct (imagePath f) as [[| b | z | s] |]; reflexivity.
Qed.

Lemma truncate_int (v : jnum A) z : py_int v = Ok z -> truncate v = JInt z.
Proof. intros Hv. unfold truncate. rewrite Hv. reflexivity. Qed.

Lemma ints_ok (l : list (jnum A)) :
  (forall v, In v l -> exists z, py_int v = Ok z) ->
  ints l = ([] : list (event (@content A)), Ok (map truncate l)).
Proof.
  intros Hl. unfold ints. apply for_collect_ok.
  induction l as [| v l IH]; simpl; constructor.
  - destruct (Hl v (or_introl eq_refl)) as [z Hz].
    rewrite (truncate_int v z Hz), Hz. reflexivity.
  - apply IH. intros v' Hv'. apply Hl. right. exact Hv'.
Qed.

Lemma labelme2via_shape_ok (sh : @shape A) :
  shape_type sh = "polygon" -> has_ints sh ->
  labelme2via_shape sh = ([], Ok (region_of_shape sh)).
Proof.
  intros Hk Hi. unfold labelme2via_shape. rewrite Hk. simpl negb. cbv iota.
  rewrite (ints_ok (map fst (points sh))).
  2: { intros v Hv. apply in_map_iff in Hv. destruct Hv as (pt & <- & Hpt).
       apply (Hi pt Hpt). }
  rewrite bind_nil_ok.
  rewrite (ints_ok (map snd (points sh))).
  2: { intros v Hv. apply in_map_iff in Hv. destruct Hv as (pt & <- & Hpt).
       apply (Hi pt Hpt). }
  rewrite bind_nil_ok. reflexivity.
Qed.

Lemma for_collect_map_ok {C X Y} (body : X -> io C Y) (f : X -> Y) (l : list X) :
  (forall x, In x l -> body x = ([], Ok (f x))) ->
  for_collect body l = ([], Ok (map f l)).
Proof.
  intros Hb. apply for_collect_ok.
  induction l as [| x l IH]; simpl; constructor.
  - apply Hb. left. reflexivity.
  - apply IH. intros x' Hx'. apply Hb. right. exact Hx'.
Qed.



Lemma written_labelme_app (t1 t2 : list (event (@content A))) :
  written_labelme (t1 ++ t2) = written_labelme t1 ++ written_labelme t2.
Proof. unfold written_labelme. apply omap_app. Qed.

Lemma written_via_app (t1 t2 : list (event (@content A))) :
  written_via (t1 ++ t2) = written_via t1 ++ written_via t2.
Proof. unfold written_via. apply omap_app. Qed.

End RoundTrip.

(** ** The statements on the scenarios *)

Section Witnesses.

Import Scenario.

Local Open Scope Q_scope.

(** Three coincident points have a box of width and height 0. *)
Lemma poly_box_bounding_witness :
  (1 <= length coincident_points)%nat
  /\ exists cx cy bw bh,
      poly_box coincident_points = Ok (cx, cy, bw, bh)
      /\ bw == 0 /\ bh == 0
      /\ forall p, In p coincident_points ->
                   cx - bw / 2 <= fst p <= cx + bw / 2
                   /\ cy - bh / 2 <= snd p <= cy + bh / 2.
Proof.
  split; [simpl; lia |].
  destruct (poly_box_bounding coincident_points) as
    (cx & cy & bw & bh & Hbox & _ & Hin & _ & _ & _ & Hw & Hh & _).
  - simpl. lia.
  - exists cx, cy, bw, bh. split; [exact Hbox |].
    split; [| split; [| exact Hin]].
    + apply Hw. intros p q Hp Hq. simpl in Hp, Hq.
      destruct Hp as [<- | [<- | [<- | []]]], Hq as [<- | [<- | [<- | []]]];
        reflexivity.
    + apply Hh. intros p q Hp Hq. simpl in Hp, Hq.
      destruct Hp as [<- | [<- | [<- | []]]], Hq as [<- | [<- | [<- | []]]];
        reflexivity.
Defined.

Local Close Scope Q_scope.

(** The same directory, listed and stored in two orders, has one label
    table. *)
Lemma extract_labelme_labels_order_independent_witness :
  Permutation (listdir mixed_world) (listdir mixed_world_permuted)
  /\ extract_labelme_labels mixed_world "in/"
     = extract_labelme_labels mixed_world_permuted "in/"
  /\ extract_labelme_labels mixed_world "in/" = (["cat"; "dog"], [0; 1]).
Proof.
  assert (Hfiles : Permutation (listdir mixed_world) (listdir mixed_world_permuted))
    by apply perm_swap.
  assert (Hshapes : forall p, Permutation (shapes (load_labelme mixed_world p))
                                (shapes (load_labelme mixed_world_permuted p)))
    by (intros p; apply perm_swap).
  split; [exact Hfiles |].
  split.
  - apply (extract_labelme_labels_order_independent mixed_world mixed_world_permuted
             "in/" Hfiles Hshapes).
  - vm_compute. reflexivity.
Defined.

(** The rectangle of the scenario ends [labelme2via]. *)
Lemma labelme2via_aborts_yolo_skips_witness :
  In "in/img.json" (glob_glob (listdir mixed_world) ("in/" +:+ "*.json"))
  /\ In cat_shape (shapes (load_labelme mixed_world "in/img.json"))
  /\ labelme2via_shape cat_shape = ([Print via_error], Ret 1)
  /\ snd (labelme2via mixed_world "in/" "out/") <> Ok tt
  /\ written_via (fst (labelme2via mixed_world "in/" "out/")) = [].
Proof.
  assert (Hfile : In "in/img.json" (glob_glob (listdir mixed_world) ("in/" +:+ "*.json")))
    by (vm_compute; left; reflexivity).
  assert (Hin : In cat_shape (shapes (load_labelme mixed_world "in/img.json")))
    by (simpl; right; left; reflexivity).
  assert (Hk : shape_type cat_shape <> "polygon") by (simpl; discriminate).
  destruct (labelme2via_aborts_yolo_skips mixed_world "in/" "out/" "in/img.json"
              cat_shape Hfile Hin Hk) as (H1 & H2 & _ & H4 & _).
  repeat split; assumption.
Defined.

(** The region of the scenario ends [via2labelme]. *)
Lemma via2labelme_points_mismatch_witness :
  glob_glob (listdir mismatch_world) ("via/" +:+ "*.json") = ["via/via_annotations.json"]
  /\ length (all_points_x bad_region) <> length (all_points_y bad_region)
  /\ snd (via2labelme mismatch_world "via/" "out/") <> Ok tt
  /\ via2labelme_annotation mismatch_world "via/" "out/" 0 bad_annotation
     = ([Print mismatch_error], Ret 1).
Proof.
  assert (Hglob : glob_glob (listdir mismatch_world) ("via/" +:+ "*.json")
                  = ["via/via_annotations.json"]) by reflexivity.
  assert (Hva : In bad_annotation
                  (map snd (load_via mismatch_world "via/via_annotations.json")))
    by (simpl; left; reflexivity).
  assert (Hrg : In bad_region (regions bad_annotation))
    by (simpl; left; reflexivity).
  assert (Hlen : length (all_points_x bad_region) <> length (all_points_y bad_region))
    by (simpl; lia).
  destruct (via2labelme_points_mismatch mismatch_world "via/" "out/"
              "via/via_annotations.json" bad_annotation bad_region
              Hglob Hva Hrg Hlen) as (H1 & _ & _ & H4).
  split; [exact Hglob |]. split; [exact Hlen |]. split; [exact H1 |].
  apply (H4 0%nat [] []).
  - reflexivity.
  - constructor.
  - reflexivity.
  - simpl. eexists. reflexivity.
Defined.

Lemma Q_has_ints (sh : @shape Q) : has_ints sh.
Proof.
  intros pt _. split.
  - destruct (fst pt) as [z | x]; simpl; eexists; reflexivity.
  - destruct (snd pt) as [z | x]; simpl; eexists; reflexivity.
Qed.


(** Different images can get the same key too: the names and sizes
    [a.c.c], 123 and [a.c.c1], 23 are joined to the same text. *)
Lemma key_clash_distinct_images :
  glob_glob (listdir clash2_world) ("in/" +:+ "*.json")
  = ["in/a.json.json"; "in/a.c.json"]
  /\ map (image_name_of clash2_world)
       (glob_glob (listdir clash2_world) ("in/" +:+ "*.json"))
     = ["a.c.c"; "a.c.c1"]
  /\ map (key_of clash2_world) (glob_glob (listdir clash2_world) ("in/" +:+ "*.json"))
     = ["a.c.c123"; "a.c.c123"]
  /\ snd (labelme2via clash2_world "in/" "via/") = Ok tt
  /\ map (map (fun kv => (fst kv, map region_label (regions (snd kv)))))
       (written_via (fst (labelme2via clash2_world "in/" "via/")))
     = [[("a.c.c123", ["dog"])]].
Proof. vm_compute. repeat split. Qed.

(** C10, as stated, fails on the rectangle of the scenario: the centre
    on the line is (3/10, 1/4), not the midpoint (30, 25) of the
    corners, and the size on the line is (2/5, 3/10), not the absolute
    differences (40, 30): the line holds them divided by the image
    size. *)
Lemma emitted_box_is_normalised :
  exists cx cy bw bh,
    rect_box_yolo cat_corners cat_dims = Ok [cx; cy; bw; bh]
    /\ Qeq_bool cx (3 # 10) = true /\ Qeq_bool cy (1 # 4) = true
    /\ Qeq_bool bw (2 # 5) = true /\ Qeq_bool bh (3 # 10) = true
    /\ Qeq_bool cx ((10 + 50) / 2) = false
    /\ Qeq_bool cy ((10 + 40) / 2) = false
    /\ Qeq_bool bw (Qabs (50 - 10)) = false
    /\ Qeq_bool bh (Qabs (10 - 40)) = false.
Proof. do 4 eexists. split; [reflexivity |]. vm_compute. repeat split. Qed.

(** In binary64 the two orders of the corners agree up to rounding
    only: here the second number of the line differs in its last
    digit. *)
Lemma binary64_corner_order_last_digit :
  option_map (map float_repr)
    (match rect_box_yolo [corner_a; corner_b] (float_of_Z 100, float_of_Z 100) with
     | Ok box => Some box
     | _ => None
     end)
  = Some ["44.44443999999999"; "0.017380952380952382"; "64.19754";
          "0.028095238095238093"]
  /\ option_map (map float_repr)
       (match rect_box_yolo [corner_b; corner_a] (float_of_Z 100, float_of_Z 100) with
        | Ok box => Some box
        | _ => None
        end)
     = Some ["44.44443999999999"; "0.01738095238095238"; "64.19754";
             "0.028095238095238093"].
Proof. vm_compute. split; reflexivity. Qed.

End Witnesses.

(** ** Further properties of the code *)

(** *** The label table and the lookup of a label *)

Section LabelLookup.

Context {A : Type}.

Lemma index_In (x : string) (l : list string) :
  In x l ->
  exists i, index x l = Ok i
            /\ 0 <= i < Z.of_nat (length l)
            /\ nth (Z.to_nat i) l EmptyString = x.
Proof.
  induction l as [| y l IH]; intros Hin; [destruct Hin |].
  simpl index. destruct (String.eqb_spec y x) as [-> | Hne].
  - exists 0. split; [reflexivity |]. split; [simpl length; lia | reflexivity].
  - destruct Hin as [Heq | Hin]; [contradiction |].
    destruct (IH Hin) as (i & Hi & Hrange & Hnth).
    exists (i + 1). rewrite Hi. split; [reflexivity |].
    split; [simpl length; lia |].
    replace (Z.to_nat (i + 1)) with (S (Z.to_nat i)) by lia. exact Hnth.
Qed.

Lemma index_not_In (x : string) (l : list string) :
  ~ In x l -> index x l = Exc ValueError.
Proof.
  induction l as [| y l IH]; intros Hnot; [reflexivity |].
  simpl. destruct (String.eqb_spec y x) as [-> | Hne].
  - exfalso. apply Hnot. left. reflexivity.
  - rewrite IH; [reflexivity |]. intros Hin. apply Hnot. right. exact Hin.
Qed.

Lemma index_nth (l : list string) (j : nat) :
  NoDup l -> (j < length l)%nat ->
  index (nth j l EmptyString) l = Ok (Z.of_nat j).
Proof.
  intros Hnd. revert j. induction Hnd as [| y l Hy Hnd IH]; intros j Hj.
  - simpl in Hj. lia.
  - destruct j as [| j]; simpl.
    + rewrite String.eqb_refl. reflexivity.
    + simpl in Hj.
      destruct (String.eqb_spec y (nth j l EmptyString)) as [Heq | Hne].
      * exfalso. apply Hy. rewrite Heq. apply list_elem_of_In.
        apply nth_In. lia.
      * rewrite IH by lia. f_equal. lia.
Qed.

Lemma table_labels (w : @world A) (labelme_input_directory : string) :
  NoDup (fst (extract_labelme_labels w labelme_input_directory))
  /\ forall l,
      In l (fst (extract_labelme_labels w labelme_input_directory))
      <-> exists p sh,
          In p (glob_glob (listdir w) (labelme_input_directory +:+ "*.json"))
          /\ In sh (shapes (load_labelme w p)) /\ label sh = l.
Proof.
  unfold extract_labelme_labels. cbn [fst].
  destruct (all_labels_spec (load_labelme w)
              (glob_glob (listdir w) (labelme_input_directory +:+ "*.json")) []
              NoDup_nil_2) as [Hnd Hin].
  cbv zeta in Hnd, Hin. unfold sort. split.
  - rewrite merge_sort_Permutation. exact Hnd.
  - intros l.
    match goal with
    | |- In l (merge_sort str_le ?l1) <-> _ =>
        assert (Hm : In l (merge_sort str_le l1) <-> In l l1)
    end.
    { split; apply Permutation_in;
        [apply merge_sort_Permutation | symmetry; apply merge_sort_Permutation]. }
    rewrite Hm, Hin. simpl. tauto.
Qed.

(** X1. With the label table built from a directory, the lookup of the
    label of any shape of any JSON file of that directory succeeds: it
    returns the position of the label in the sorted list, which is also
    the id stored at that position.  And the table is one to one: the
    lookup of the label at position [j] returns [j]. *)
Theorem table_lookup (w : @world A) (labelme_input_directory : string)
  (poly_file : string) (sh : @shape A) :
  In poly_file (glob_glob (listdir w) (labelme_input_directory +:+ "*.json")) ->
  In sh (shapes (load_labelme w poly_file)) ->
  let label_list := extract_labelme_labels w labelme_input_directory in
  (exists i,
      index (label sh) (fst label_list) = Ok i
      /\ 0 <= i < Z.of_nat (length (fst label_list))
      /\ nth (Z.to_nat i) (fst label_list) EmptyString = label sh
      /\ nth (Z.to_nat i) (snd label_list) (-1) = i)
  /\ (forall j, (j < length (fst label_list))%nat ->
                index (nth j (fst label_list) EmptyString) (fst label_list)
                = Ok (Z.of_nat j)).
Proof.
  intros Hfile Hsh label_list.
  destruct (table_labels w labelme_input_directory) as [Hnd Hin].
  fold label_list in Hnd, Hin. split.
  - assert (Hl : In (label sh) (fst label_list)).
    { apply Hin. exists poly_file, sh. tauto. }
    destruct (index_In _ _ Hl) as (i & Hi & Hrange & Hnth).
    exists i. repeat split; try assumption; try lia.
    unfold label_list, extract_labelme_labels. cbn [snd].
    match goal with
    | |- nth _ (map Z.of_nat (seq 0 (length ?l))) _ = _ =>
        assert (Hlen : 0 <= i < Z.of_nat (length l)) by exact Hrange;
        set (n := length l) in *
    end.
    rewrite (nth_indep _ (-1) (Z.of_nat 0)) by (rewrite length_map, length_seq; lia).
    rewrite map_nth, seq_nth by lia. lia.
  - intros j Hj. apply index_nth; assumption.
Qed.

End LabelLookup.

(** *** Geometry of the two YOLO converters, in exact arithmetic *)

Section MoreGeometry.

Local Open Scope Q_scope.

Lemma Qdiv_le_1 (a c : Q) : 0 < c -> a <= c -> a / c <= 1.
Proof. intros Hc Ha. apply Qle_shift_div_r; [exact Hc | lra]. Qed.

Lemma Qdiv_nonneg (a c : Q) : 0 < c -> 0 <= a -> 0 <= a / c.
Proof. intros Hc Ha. apply Qle_shift_div_l; [exact Hc | lra]. Qed.

Lemma poly_extremes (p0 : Q * Q) (ps : list (Q * Q)) :
  let min_x := py_min (fst p0) (map fst ps) in
  let max_x := py_max (fst p0) (map fst ps) in
  let min_y := py_min (snd p0) (map snd ps) in
  let max_y := py_max (snd p0) (map snd ps) in
  (exists q, In q (p0 :: ps) /\ min_x = fst q)
  /\ (exists q, In q (p0 :: ps) /\ max_x = fst q)
  /\ (exists q, In q (p0 :: ps) /\ min_y = snd q)
  /\ (exists q, In q (p0 :: ps) /\ max_y = snd q)
  /\ forall p, In p (p0 :: ps) ->
               min_x <= fst p <= max_x /\ min_y <= snd p <= max_y.
Proof.
  intros min_x max_x min_y max_y.
  destruct (py_min_spec (map fst ps) (fst p0)) as [Hminx_in Hminx].
  destruct (py_max_spec (map fst ps) (fst p0)) as [Hmaxx_in Hmaxx].
  destruct (py_min_spec (map snd ps) (snd p0)) as [Hminy_in Hminy].
  destruct (py_max_spec (map snd ps) (snd p0)) as [Hmaxy_in Hmaxy].
  assert (Hex : forall (f : Q * Q -> Q) v,
             In v (f p0 :: map f ps) -> exists q, In q (p0 :: ps) /\ v = f q).
  { intros f v Hv. change (In v (map f (p0 :: ps))) in Hv.
    apply in_map_iff in Hv. destruct Hv as (q & <- & Hq). exists q. tauto. }
  split; [apply (Hex fst); exact Hminx_in |].
  split; [apply (Hex fst); exact Hmaxx_in |].
  split; [apply (Hex snd); exact Hminy_in |].
  split; [apply (Hex snd); exact Hmaxy_in |].
  intros p Hp.
  assert (Hx : In (fst p) (fst p0 :: map fst ps))
    by (change (In (fst p) (map fst (p0 :: ps))); apply in_map; exact Hp).
  assert (Hy : In (snd p) (snd p0 :: map snd ps))
    by (change (In (snd p) (map snd (p0 :: ps))); apply in_map; exact Hp).
  repeat split; auto.
Qed.

(** X2. For a polygon whose points all lie in the image, of positive
    width and height, the four numbers [labelmepoly2yolo] writes are
    fractions of the image: width and height are between 0 and 1, and
    the box, from the centre minus half the size to the centre plus
    half the size, lies between 0 and 1 on both axes (so the centre
    does too). *)
Theorem poly_box_yolo_in_unit_square (shape_points : list (Q * Q)) (img_dims : Q * Q) :
  (1 <= length shape_points)%nat ->
  0 < fst img_dims -> 0 < snd img_dims ->
  (forall p, In p shape_points ->
             0 <= fst p <= fst img_dims /\ 0 <= snd p <= snd img_dims) ->
  exists cx cy bw bh,
    poly_box_yolo shape_points img_dims = Ok [cx; cy; bw; bh]
    /\ 0 <= bw <= 1 /\ 0 <= bh <= 1
    /\ 0 <= cx - bw / 2 /\ cx + bw / 2 <= 1
    /\ 0 <= cy - bh / 2 /\ cy + bh / 2 <= 1
    /\ 0 <= cx <= 1 /\ 0 <= cy <= 1.
Proof.
  intros Hlen HW HH Hin. destruct img_dims as [W H]. cbn [fst snd] in *.
  destruct shape_points as [| p0 ps]; [simpl in Hlen; lia |].
  destruct (poly_extremes p0 ps)
    as ((q1 & Hq1 & E1) & (q2 & Hq2 & E2) & (q3 & Hq3 & E3) & (q4 & Hq4 & E4) & Hbox).
  cbv zeta in *.
  unfold poly_box_yolo, poly_box. cbn [fst snd num_add num_sub num_div Q_Number two num_of_Z].
  set (min_x := py_min (fst p0) (map fst ps)) in *.
  set (max_x := py_max (fst p0) (map fst ps)) in *.
  set (min_y := py_min (snd p0) (map snd ps)) in *.
  set (max_y := py_max (snd p0) (map snd ps)) in *.
  assert (Hx : 0 <= min_x /\ min_x <= max_x /\ max_x <= W).
  { destruct (Hbox p0 (or_introl eq_refl)) as [[H1 H2] _].
    destruct (Hin q1 Hq1) as [[Ha _] _]. destruct (Hin q2 Hq2) as [[_ Hb] _].
    rewrite <- E1 in Ha. rewrite <- E2 in Hb.
    repeat split; [exact Ha | eapply Qle_trans; eassumption | exact Hb]. }
  assert (Hy : 0 <= min_y /\ min_y <= max_y /\ max_y <= H).
  { destruct (Hbox p0 (or_introl eq_refl)) as [_ [H1 H2]].
    destruct (Hin q3 Hq3) as [_ [Ha _]]. destruct (Hin q4 Hq4) as [_ [_ Hb]].
    rewrite <- E3 in Ha. rewrite <- E4 in Hb.
    repeat split; [exact Ha | eapply Qle_trans; eassumption | exact Hb]. }
  clearbody min_x max_x min_y max_y.
  change (inject_Z 2) with (2 # 1).
  do 4 eexists. split; [reflexivity |].
  assert (Elow : forall lo hi c, ~ c == 0 ->
             (lo + (hi - lo) / 2) / c - (hi - lo) / c / 2 == lo / c)
    by (intros; field; assumption).
  assert (Ehigh : forall lo hi c, ~ c == 0 ->
             (lo + (hi - lo) / 2) / c + (hi - lo) / c / 2 == hi / c)
    by (intros; field; assumption).
  assert (Hhalf : forall lo hi, lo <= hi ->
             lo <= lo + (hi - lo) / 2 /\ lo + (hi - lo) / 2 <= hi).
  { intros lo hi Hle.
    assert (H0 : 0 <= (hi - lo) / 2) by (apply Qle_shift_div_l; lra).
    assert (H1 : (hi - lo) / 2 <= hi - lo) by (apply Qle_shift_div_r; lra).
    split; lra. }
  destruct (Hhalf min_x max_x) as [Hcx1 Hcx2]; [tauto |].
  destruct (Hhalf min_y max_y) as [Hcy1 Hcy2]; [tauto |].
  assert (HW0 : ~ W == 0) by lra. assert (HH0 : ~ H == 0) by lra.
  repeat split.
  - apply Qdiv_nonneg; lra.
  - apply Qdiv_le_1; lra.
  - apply Qdiv_nonneg; lra.
  - apply Qdiv_le_1; lra.
  - rewrite (Elow _ _ _ HW0). apply Qdiv_nonneg; lra.
  - rewrite (Ehigh _ _ _ HW0). apply Qdiv_le_1; lra.
  - rewrite (Elow _ _ _ HH0). apply Qdiv_nonneg; lra.
  - rewrite (Ehigh _ _ _ HH0). apply Qdiv_le_1; lra.
  - apply Qdiv_nonneg; lra.
  - apply Qdiv_le_1; lra.
  - apply Qdiv_nonneg; lra.
  - apply Qdiv_le_1; lra.
Qed.

End MoreGeometry.

Section RectGeometry.

Local Open Scope Q_scope.

(** The numbers of the line of a rectangle, from the least and greatest
    coordinates of its two corners. *)
Lemma rect_box_yolo_extremes (x0 y0 x1 y1 W H : Q) (rest : list (Q * Q)) :
  0 < W -> 0 < H ->
  exists cx cy bw bh,
    rect_box_yolo ((x0, y0) :: (x1, y1) :: rest) (W, H) = Ok [cx; cy; bw; bh]
    /\ cx == (Qmin x0 x1 + (Qmax x0 x1 - Qmin x0 x1) / 2) / W
    /\ cy == (Qmin y0 y1 + (Qmax y0 y1 - Qmin y0 y1) / 2) / H
    /\ bw == (Qmax x0 x1 - Qmin x0 x1) / W
    /\ bh == (Qmax y0 y1 - Qmin y0 y1) / H.
Proof.
  intros HW HH. do 4 eexists. split; [reflexivity |].
  cbn [fst snd num_add num_sub num_div num_abs Q_Number two num_of_Z].
  change (inject_Z 2) with (2 # 1).
  assert (HW0 : ~ W == 0) by lra. assert (HH0 : ~ H == 0) by lra.
  assert (Habs : forall a c : Q, 0 < c -> Qabs (a / c) == Qabs a / c).
  { intros a c Hc. unfold Qdiv. rewrite Qabs_Qmult, Qabs_Qinv.
    rewrite (Qabs_pos c) by lra. reflexivity. }
  assert (Hmm : forall a b : Q,
             (Qmin a b == a /\ Qmax a b == b /\ a <= b)
             \/ (Qmin a b == b /\ Qmax a b == a /\ b <= a)).
  { intros a b. destruct (Qlt_le_dec b a) as [Hlt | Hle].
    - right. split; [apply Q.min_r; lra |]. split; [apply Q.max_l; lra | lra].
    - left. split; [apply Q.min_l; lra |]. split; [apply Q.max_r; lra | lra]. }
  repeat split.
  - destruct (Hmm x0 x1) as [(-> & -> & _) | (-> & -> & _)]; field; assumption.
  - destruct (Hmm y0 y1) as [(-> & -> & _) | (-> & -> & _)]; field; assumption.
  - rewrite (Habs _ _ HW).
    destruct (Hmm x0 x1) as [(-> & -> & Hle) | (-> & -> & Hle)].
    + rewrite Qabs_pos by lra. reflexivity.
    + rewrite Qabs_neg by lra. field. assumption.
  - rewrite (Habs _ _ HH).
    destruct (Hmm y0 y1) as [(-> & -> & Hle) | (-> & -> & Hle)].
    + rewrite Qabs_neg by lra. field. assumption.
    + rewrite Qabs_pos by lra. reflexivity.
Qed.

Lemma py_min_two (a b : Q) : py_min a [b] == Qmin a b.
Proof.
  unfold py_min. simpl. change (num_ltb b a) with (Qltb b a).
  destruct (Qltb b a) eqn:Hlt.
  - apply Qltb_true in Hlt. symmetry. apply Q.min_r. lra.
  - apply Qltb_false in Hlt. symmetry. apply Q.min_l. exact Hlt.
Qed.

Lemma py_max_two (a b : Q) : py_max a [b] == Qmax a b.
Proof.
  unfold py_max. simpl. change (num_ltb a b) with (Qltb a b).
  destruct (Qltb a b) eqn:Hlt.
  - apply Qltb_true in Hlt. symmetry. apply Q.max_r. lra.
  - apply Qltb_false in Hlt. symmetry. apply Q.max_l. exact Hlt.
Qed.

(** X3. In exact arithmetic and for an image of positive size, the two
    YOLO converters agree on a rectangle: the numbers
    [labelmerect2yolo] computes from two corners are the numbers
    [labelmepoly2yolo] computes from the polygon made of the same two
    points. *)
Theorem rect_box_is_poly_box (p0 p1 : Q * Q) (img_dims : Q * Q) :
  0 < fst img_dims -> 0 < snd img_dims ->
  exists cx cy bw bh cx' cy' bw' bh',
    rect_box_yolo [p0; p1] img_dims = Ok [cx; cy; bw; bh]
    /\ poly_box_yolo [p0; p1] img_dims = Ok [cx'; cy'; bw'; bh']
    /\ cx == cx' /\ cy == cy' /\ bw == bw' /\ bh == bh'.
Proof.
  destruct p0 as [x0 y0], p1 as [x1 y1], img_dims as [W H]. cbn [fst snd].
  intros HW HH.
  destruct (rect_box_yolo_extremes x0 y0 x1 y1 W H [] HW HH)
    as (cx & cy & bw & bh & Hrect & Ecx & Ecy & Ebw & Ebh).
  exists cx, cy, bw, bh. do 4 eexists. split; [exact Hrect |].
  split; [reflexivity |].
  cbn [fst snd map num_add num_sub num_div Q_Number two num_of_Z].
  change (inject_Z 2) with (2 # 1).
  rewrite !py_min_two, !py_max_two.
  repeat split; assumption.
Qed.

(** X4. For a rectangle whose two corners lie in the image, of positive
    width and height, the four numbers [labelmerect2yolo] writes are
    fractions of the image, whichever corner comes first: width and
    height are between 0 and 1, and the box around the centre lies
    between 0 and 1 on both axes. *)
Theorem rect_box_yolo_in_unit_square (p0 p1 : Q * Q) (img_dims : Q * Q)
  (rest : list (Q * Q)) :
  0 < fst img_dims -> 0 < snd img_dims ->
  0 <= fst p0 <= fst img_dims -> 0 <= snd p0 <= snd img_dims ->
  0 <= fst p1 <= fst img_dims -> 0 <= snd p1 <= snd img_dims ->
  exists cx cy bw bh,
    rect_box_yolo (p0 :: p1 :: rest) img_dims = Ok [cx; cy; bw; bh]
    /\ 0 <= bw <= 1 /\ 0 <= bh <= 1
    /\ 0 <= cx - bw / 2 /\ cx + bw / 2 <= 1
    /\ 0 <= cy - bh / 2 /\ cy + bh / 2 <= 1.
Proof.
  destruct p0 as [x0 y0], p1 as [x1 y1], img_dims as [W H]. cbn [fst snd].
  intros HW HH [Hx0 Hx0'] [Hy0 Hy0'] [Hx1 Hx1'] [Hy1 Hy1'].
  destruct (rect_box_yolo_extremes x0 y0 x1 y1 W H rest HW HH)
    as (cx & cy & bw & bh & Hrect & Ecx & Ecy & Ebw & Ebh).
  exists cx, cy, bw, bh. split; [exact Hrect |].
  assert (HW0 : ~ W == 0) by lra. assert (HH0 : ~ H == 0) by lra.
  assert (Elow : forall lo hi c, ~ c == 0 ->
             (lo + (hi - lo) / 2) / c - (hi - lo) / c / 2 == lo / c)
    by (intros; field; assumption).
  assert (Ehigh : forall lo hi c, ~ c == 0 ->
             (lo + (hi - lo) / 2) / c + (hi - lo) / c / 2 == hi / c)
    by (intros; field; assumption).
  assert (Hx : 0 <= Qmin x0 x1 /\ Qmin x0 x1 <= Qmax x0 x1 /\ Qmax x0 x1 <= W).
  { split; [apply Q.min_glb; assumption |].
    split; [| apply Q.max_lub; assumption].
    eapply Qle_trans; [apply Q.le_min_l | apply Q.le_max_l]. }
  assert (Hy : 0 <= Qmin y0 y1 /\ Qmin y0 y1 <= Qmax y0 y1 /\ Qmax y0 y1 <= H).
  { split; [apply Q.min_glb; assumption |].
    split; [| apply Q.max_lub; assumption].
    eapply Qle_trans; [apply Q.le_min_l | apply Q.le_max_l]. }
  rewrite Ecx, Ecy, Ebw, Ebh.
  set (ax := Qmin x0 x1) in *. set (bx := Qmax x0 x1) in *.
  set (ay := Qmin y0 y1) in *. set (by_ := Qmax y0 y1) in *.
  clearbody ax bx ay by_.
  repeat split.
  - apply Qdiv_nonneg; lra.
  - apply Qdiv_le_1; lra.
  - apply Qdiv_nonneg; lra.
  - apply Qdiv_le_1; lra.
  - rewrite (Elow _ _ _ HW0). apply Qdiv_nonneg; lra.
  - rewrite (Ehigh _ _ _ HW0). apply Qdiv_le_1; lra.
  - rewrite (Elow _ _ _ HH0). apply Qdiv_nonneg; lra.
  - rewrite (Ehigh _ _ _ HH0). apply Qdiv_le_1; lra.
Qed.

(** The least and the greatest item do not depend on the order. *)
Lemma py_min_perm (x x' : Q) (l l' : list Q) :
  Permutation (x :: l) (x' :: l') -> py_min x l == py_min x' l'.
Proof.
  intros Hp.
  destruct (py_min_spec l x) as [Hin Hle].
  destruct (py_min_spec l' x') as [Hin' Hle'].
  apply Qle_antisym.
  - apply Hle. apply (Permutation_in _ (Permutation_sym Hp)). exact Hin'.
  - apply Hle'. apply (Permutation_in _ Hp). exact Hin.
Qed.

Lemma py_max_perm (x x' : Q) (l l' : list Q) :
  Permutation (x :: l) (x' :: l') -> py_max x l == py_max x' l'.
Proof.
  intros Hp.
  destruct (py_max_spec l x) as [Hin Hle].
  destruct (py_max_spec l' x') as [Hin' Hle'].
  apply Qle_antisym.
  - apply Hle'. apply (Permutation_in _ Hp). exact Hin.
  - apply Hle. apply (Permutation_in _ (Permutation_sym Hp)). exact Hin'.
Qed.

(** X5. In exact arithmetic the box [labelmepoly2yolo] computes for a
    polygon does not depend on the order of its points, nor on the
    point the list starts with. *)
Theorem poly_box_point_order (shape_points shape_points' : list (Q * Q)) :
  (1 <= length shape_points)%nat ->
  Permutation shape_points shape_points' ->
  exists cx cy bw bh cx' cy' bw' bh',
    poly_box shape_points = Ok (cx, cy, bw, bh)
    /\ poly_box shape_points' = Ok (cx', cy', bw', bh')
    /\ cx == cx' /\ cy == cy' /\ bw == bw' /\ bh == bh'.
Proof.
  intros Hlen Hp.
  destruct shape_points as [| p0 ps]; [simpl in Hlen; lia |].
  destruct shape_points' as [| q0 qs].
  { apply Permutation_length in Hp. discriminate. }
  do 8 eexists. split; [reflexivity |]. split; [reflexivity |].
  cbn [fst snd num_add num_sub num_div Q_Number two num_of_Z].
  assert (Hx : Permutation (fst p0 :: map fst ps) (fst q0 :: map fst qs))
    by (apply (Permutation_map fst) in Hp; exact Hp).
  assert (Hy : Permutation (snd p0 :: map snd ps) (snd q0 :: map snd qs))
    by (apply (Permutation_map snd) in Hp; exact Hp).
  rewrite (py_min_perm _ _ _ _ Hx), (py_max_perm _ _ _ _ Hx).
  rewrite (py_min_perm _ _ _ _ Hy), (py_max_perm _ _ _ _ Hy).
  repeat split; reflexivity.
Qed.

End RectGeometry.

(** *** The loops of the YOLO converters *)

Section YoloLoops.

Context {A : Type} `{NumA : Number A} `{ReprA : Repr A}.

Lemma append_assoc (s1 s2 s3 : string) : (s1 +:+ s2) +:+ s3 = s1 +:+ (s2 +:+ s3).
Proof.
  induction s1 as [| c s1 IH]; [reflexivity |].
  change (String c ((s1 +:+ s2) +:+ s3) = String c (s1 +:+ s2 +:+ s3)).
  f_equal. exact IH.
Qed.

Lemma append_nil_r (s : string) : s +:+ EmptyString = s.
Proof.
  induction s as [| c s IH]; [reflexivity |].
  change (String c (s +:+ EmptyString) = String c s). f_equal. exact IH.
Qed.

Lemma concat_cons (x : string) (l : list string) :
  String.concat EmptyString (x :: l) = x +:+ String.concat EmptyString l.
Proof. destruct l; [cbn [String.concat]; rewrite append_nil_r |]; reflexivity. Qed.


Lemma for_each_not_ok {C X} (body : X -> io C unit) l x :
  In x l -> (forall u, snd (body x) <> Ok u) ->
  forall u, snd (for_each body l) <> Ok u.
Proof.
  intros Hin Hx. induction l as [| x' l IH]; [destruct Hin |].
  simpl. destruct Hin as [-> | Hin].
  - apply bind_snd_not_ok_l. exact Hx.
  - apply bind_snd_not_ok_r. intros _. apply IH. exact Hin.
Qed.

Lemma file_text_opened (path : string) (t : list (event (@content A))) :
  file_text path (Open path W :: Open path Py.A :: t)
  = fold_left (file_text_step path) t (Some EmptyString).
Proof.
  unfold file_text. simpl. rewrite String.eqb_refl. reflexivity.
Qed.

(** The loop over the shapes, for a body that prints a warning for a
    shape of another kind and writes a line and a line feed for a shape
    of its kind. *)
Lemma shape_loop_lines (body : @shape A -> io (@content A) unit)
  (kind warning : string) (line : @shape A -> string) (yolo_outfile : string)
  (poly_shapes : list (@shape A)) :
  (forall sh, In sh poly_shapes ->
              if is_kind kind sh
              then exists a, body sh = ([Write yolo_outfile (Text a);
                                         Write yolo_outfile (Text nl)], Ok tt)
                             /\ line sh = a +:+ nl
              else body sh = ([Print warning], Ok tt)) ->
  snd (for_each body poly_shapes) = Ok tt
  /\ (forall c,
         fold_left (file_text_step yolo_outfile) (fst (for_each body poly_shapes))
           (Some c)
         = Some (c +:+ String.concat EmptyString
                         (map line (List.filter (is_kind kind) poly_shapes))))
  /\ List.filter is_print (fst (for_each body poly_shapes))
     = map (fun _ => Print warning)
         (List.filter (fun sh => negb (is_kind kind sh)) poly_shapes).
Proof.
  induction poly_shapes as [| sh shs IH]; intros Hall.
  - simpl. split; [reflexivity |]. split; [| reflexivity].
    intros c. rewrite append_nil_r. reflexivity.
  - destruct IH as (Hr & Ht & Hp).
    { intros sh' Hsh'. apply Hall. right. exact Hsh'. }
    specialize (Hall sh (or_introl eq_refl)).
    simpl for_each. simpl List.filter.
    destruct (for_each body shs) as [t r] eqn:Hloop. cbn [fst snd] in *. subst r.
    destruct (is_kind kind sh) eqn:Hk; cbn [negb].
    + destruct Hall as (a & -> & Hline). cbn [bind fst snd app].
      split; [reflexivity |]. split.
      * intros c. cbn [fold_left file_text_step].
        rewrite !(String.eqb_refl yolo_outfile). cbn [option_map].
        rewrite Ht. cbn [map]. rewrite concat_cons, Hline.
        rewrite !append_assoc. reflexivity.
      * cbn [List.filter is_print negb]. exact Hp.
    + rewrite Hall. cbn [bind fst snd app].
      split; [reflexivity |]. split.
      * intros c. cbn [fold_left file_text_step]. apply Ht.
      * cbn [List.filter is_print negb map]. rewrite Hp. reflexivity.
Qed.

Lemma np_array_two (pts : list (jnum A * jnum A)) (img_dims : A * A) :
  (2 <= length pts)%nat ->
  exists box, rect_box_yolo (np_array pts) img_dims = Ok box.
Proof.
  intros Hlen. destruct pts as [| p0 [| p1 pts]]; simpl in Hlen; try lia.
  eexists. reflexivity.
Qed.

Lemma np_array_one (pts : list (jnum A * jnum A)) (img_dims : A * A) :
  (1 <= length pts)%nat ->
  exists box, poly_box_yolo (np_array pts) img_dims = Ok box.
Proof.
  intros Hlen. destruct pts as [| p0 pts]; simpl in Hlen; try lia.
  eexists. reflexivity.
Qed.

(** X6. When every rectangle of a file has its label in the table and
    at least two points, the loop over the shapes of
    [labelmerect2yolo] runs to its end; the text file it writes to,
    once opened, holds one line per rectangle, in the order of the
    shapes, and nothing else (so it is empty without a rectangle); and
    it prints one warning per shape of another kind. *)
Theorem labelmerect2yolo_lines (label_list : list string * list Z)
  (img_dims : A * A) (yolo_outfile : string) (poly_shapes : list (@shape A)) :
  (forall sh, In sh poly_shapes -> shape_type sh = "rectangle" ->
              In (label sh) (fst label_list) /\ (2 <= length (points sh))%nat) ->
  let loop := for_each (labelmerect2yolo_shape label_list img_dims yolo_outfile)
                poly_shapes in
  snd loop = Ok tt
  /\ file_text yolo_outfile (Open yolo_outfile W :: Open yolo_outfile Py.A :: fst loop)
     = Some (String.concat EmptyString
               (map (rect_line label_list img_dims)
                  (List.filter (is_kind "rectangle") poly_shapes)))
  /\ List.filter is_print (fst loop)
     = map (fun _ => Print rect_warning)
         (List.filter (fun sh => negb (is_kind "rectangle" sh)) poly_shapes).
Proof.
  intros Hall loop.
  destruct (shape_loop_lines (labelmerect2yolo_shape label_list img_dims yolo_outfile)
              "rectangle" rect_warning (rect_line label_list img_dims)
              yolo_outfile poly_shapes) as (Hr & Ht & Hp).
  { intros sh Hsh. unfold is_kind, labelmerect2yolo_shape, rect_line.
    destruct (String.eqb_spec (shape_type sh) "rectangle") as [Hk | Hk]; cbn [negb].
    - destruct (Hall sh Hsh Hk) as [Hl Hn].
      destruct (index_In _ _ Hl) as (i & Hi & _).
      destruct (np_array_two (points sh) img_dims Hn) as [box Hbox].
      rewrite Hi, Hbox. eexists. split; reflexivity.
    - reflexivity. }
  split; [exact Hr |]. split; [| exact Hp].
  rewrite file_text_opened. rewrite Ht. reflexivity.
Qed.

(** X7. When every polygon of a file has its label in the table and at
    least one point, the loop over the shapes of [labelmepoly2yolo]
    runs to its end; the text file it writes to, once opened, holds one
    line per polygon, in the order of the shapes, and nothing else; and
    it prints one warning per shape of another kind. *)
Theorem labelmepoly2yolo_lines (label_list : list string * list Z)
  (img_dims : A * A) (yolo_outfile : string) (poly_shapes : list (@shape A)) :
  (forall sh, In sh poly_shapes -> shape_type sh = "polygon" ->
              In (label sh) (fst label_list) /\ (1 <= length (points sh))%nat) ->
  let loop := for_each (labelmepoly2yolo_shape label_list img_dims yolo_outfile)
                poly_shapes in
  snd loop = Ok tt
  /\ file_text yolo_outfile (Open yolo_outfile W :: Open yolo_outfile Py.A :: fst loop)
     = Some (String.concat EmptyString
               (map (poly_line label_list img_dims)
                  (List.filter (is_kind "polygon") poly_shapes)))
  /\ List.filter is_print (fst loop)
     = map (fun _ => Print poly_warning)
         (List.filter (fun sh => negb (is_kind "polygon" sh)) poly_shapes).
Proof.
  intros Hall loop.
  destruct (shape_loop_lines (labelmepoly2yolo_shape label_list img_dims yolo_outfile)
              "polygon" poly_warning (poly_line label_list img_dims)
              yolo_outfile poly_shapes) as (Hr & Ht & Hp).
  { intros sh Hsh. unfold is_kind, labelmepoly2yolo_shape, poly_line.
    destruct (String.eqb_spec (shape_type sh) "polygon") as [Hk | Hk]; cbn [negb].
    - destruct (Hall sh Hsh Hk) as [Hl Hn].
      destruct (index_In _ _ Hl) as (i & Hi & _).
      destruct (np_array_one (points sh) img_dims Hn) as [box Hbox].
      rewrite Hi, Hbox. eexists. split; reflexivity.
    - reflexivity. }
  split; [exact Hr |]. split; [| exact Hp].
  rewrite file_text_opened. rewrite Ht. reflexivity.
Qed.

End YoloLoops.

Section YoloRuns.

Context {A : Type} `{NumA : Number A} `{ReprA : Repr A}.

Lemma labelmerect2yolo_file_not_ok (w : @world A) output_dir label_list poly_file sh :
  In sh (shapes (load_labelme w poly_file)) ->
  (forall img_dims yolo_outfile u,
      snd (labelmerect2yolo_shape label_list img_dims yolo_outfile sh) <> Ok u) ->
  forall u, snd (labelmerect2yolo_file w output_dir label_list poly_file) <> Ok u.
Proof.
  intros Hin Hsh. unfold labelmerect2yolo_file.
  apply bind_snd_not_ok_r. intros fmt.
  apply bind_snd_not_ok_r. intros _.
  apply bind_snd_not_ok_r. intros _.
  apply bind_snd_not_ok_l.
  apply (for_each_not_ok _ _ sh Hin). apply Hsh.
Qed.

Lemma labelmepoly2yolo_file_not_ok (w : @world A) output_dir label_list poly_file sh :
  In sh (shapes (load_labelme w poly_file)) ->
  (forall img_dims yolo_outfile u,
      snd (labelmepoly2yolo_shape label_list img_dims yolo_outfile sh) <> Ok u) ->
  forall u, snd (labelmepoly2yolo_file w output_dir label_list poly_file) <> Ok u.
Proof.
  intros Hin Hsh. unfold labelmepoly2yolo_file.
  apply bind_snd_not_ok_r. intros fmt.
  apply bind_snd_not_ok_r. intros _.
  apply bind_snd_not_ok_r. intros _.
  apply bind_snd_not_ok_l.
  apply (for_each_not_ok _ _ sh Hin). apply Hsh.
Qed.

(** X8. A rectangle whose label is not in the table makes the body of
    the shape loop of [labelmerect2yolo] raise [ValueError], and one
    whose label is there but that has fewer than two points makes it
    raise [IndexError], in both cases before anything is written for
    the shape; the conversion of a directory with such a rectangle in
    one of its JSON files does not run to its end. *)
Theorem labelmerect2yolo_malformed_rectangle (w : @world A)
  (input_dir output_dir : string) (label_list : list string * list Z)
  (poly_file : string) (sh : @shape A) :
  In poly_file (glob_glob (listdir w) (input_dir +:+ "*.json")) ->
  In sh (shapes (load_labelme w poly_file)) ->
  shape_type sh = "rectangle" ->
  ~ In (label sh) (fst label_list) \/ (length (points sh) < 2)%nat ->
  snd (labelmerect2yolo w input_dir output_dir label_list) <> Ok tt
  /\ (forall img_dims yolo_outfile,
         ~ In (label sh) (fst label_list) ->
         labelmerect2yolo_shape label_list img_dims yolo_outfile sh
         = ([], Exc ValueError))
  /\ (forall img_dims yolo_outfile,
         In (label sh) (fst label_list) -> (length (points sh) < 2)%nat ->
         labelmerect2yolo_shape label_list img_dims yolo_outfile sh
         = ([], Exc IndexError)).
Proof.
  intros Hfile Hin Hk Hbad.
  assert (Hvalue : forall img_dims yolo_outfile,
             ~ In (label sh) (fst label_list) ->
             labelmerect2yolo_shape label_list img_dims yolo_outfile sh
             = ([], Exc ValueError)).
  { intros img_dims yolo_outfile Hl. unfold labelmerect2yolo_shape.
    rewrite Hk, (index_not_In _ _ Hl). reflexivity. }
  assert (Hindex : forall img_dims yolo_outfile,
             In (label sh) (fst label_list) -> (length (points sh) < 2)%nat ->
             labelmerect2yolo_shape label_list img_dims yolo_outfile sh
             = ([], Exc IndexError)).
  { intros img_dims yolo_outfile Hl Hn. unfold labelmerect2yolo_shape.
    destruct (index_In _ _ Hl) as (i & Hi & _). rewrite Hk, Hi.
    destruct (points sh) as [| p0 [| p1 pts]]; simpl in Hn; try lia; reflexivity. }
  split; [| split; assumption].
  unfold labelmerect2yolo. apply bind_snd_not_ok_l.
  apply (for_each_not_ok _ _ poly_file Hfile).
  apply (labelmerect2yolo_file_not_ok w output_dir label_list poly_file sh Hin).
  intros img_dims yolo_outfile u.
  destruct (in_dec string_dec (label sh) (fst label_list)) as [Hl | Hl].
  - destruct Hbad as [Hnot | Hn]; [contradiction |].
    rewrite (Hindex img_dims yolo_outfile Hl Hn). discriminate.
  - rewrite (Hvalue img_dims yolo_outfile Hl). discriminate.
Qed.

(** X9. A polygon whose label is not in the table makes the body of the
    shape loop of [labelmepoly2yolo] raise [ValueError], and one whose
    label is there but that has no point makes it raise [IndexError],
    in both cases before anything is written for the shape; the
    conversion of a directory with such a polygon in one of its JSON
    files does not run to its end. *)
Theorem labelmepoly2yolo_malformed_polygon (w : @world A)
  (input_dir output_dir : string) (label_list : list string * list Z)
  (poly_file : string) (sh : @shape A) :
  In poly_file (glob_glob (listdir w) (input_dir +:+ "*.json")) ->
  In sh (shapes (load_labelme w poly_file)) ->
  shape_type sh = "polygon" ->
  ~ In (label sh) (fst label_list) \/ points sh = [] ->
  snd (labelmepoly2yolo w input_dir output_dir label_list) <> Ok tt
  /\ (forall img_dims yolo_outfile,
         ~ In (label sh) (fst label_list) ->
         labelmepoly2yolo_shape label_list img_dims yolo_outfile sh
         = ([], Exc ValueError))
  /\ (forall img_dims yolo_outfile,
         In (label sh) (fst label_list) -> points sh = [] ->
         labelmepoly2yolo_shape label_list img_dims yolo_outfile sh
         = ([], Exc IndexError)).
Proof.
  intros Hfile Hin Hk Hbad.
  assert (Hvalue : forall img_dims yolo_outfile,
             ~ In (label sh) (fst label_list) ->
             labelmepoly2yolo_shape label_list img_dims yolo_outfile sh
             = ([], Exc ValueError)).
  { intros img_dims yolo_outfile Hl. unfold labelmepoly2yolo_shape.
    rewrite Hk, (index_not_In _ _ Hl). reflexivity. }
  assert (Hindex : forall img_dims yolo_outfile,
             In (label sh) (fst label_list) -> points sh = [] ->
             labelmepoly2yolo_shape label_list img_dims yolo_outfile sh
             = ([], Exc IndexError)).
  { intros img_dims yolo_outfile Hl Hn. unfold labelmepoly2yolo_shape.
    destruct (index_In _ _ Hl) as (i & Hi & _). rewrite Hk, Hi, Hn. reflexivity. }
  split; [| split; assumption].
  unfold labelmepoly2yolo. apply bind_snd_not_ok_l.
  apply (for_each_not_ok _ _ poly_file Hfile).
  apply (labelmepoly2yolo_file_not_ok w output_dir label_list poly_file sh Hin).
  intros img_dims yolo_outfile u.
  destruct (in_dec string_dec (label sh) (fst label_list)) as [Hl | Hl].
  - destruct Hbad as [Hnot | Hn]; [contradiction |].
    rewrite (Hindex img_dims yolo_outfile Hl Hn). discriminate.
  - rewrite (Hvalue img_dims yolo_outfile Hl). discriminate.
Qed.

Lemma classes_loop (classes_path : string)
  (body : string * Z -> io (@content A) unit) (pairs : list (string * Z)) :
  (forall l i, body (l, i)
               = ([Write classes_path (Text (repr_int i +:+ " " +:+ l));
                   Write classes_path (Text nl)], Ok tt)) ->
  snd (for_each body pairs) = Ok tt
  /\ forall c,
      fold_left (file_text_step classes_path) (fst (for_each body pairs)) (Some c)
      = Some (c +:+ String.concat EmptyString
                      (map (fun '(l, i) => repr_int i +:+ " " +:+ l +:+ nl) pairs)).
Proof.
  intros Hbody. induction pairs as [| [l i] pairs [IHr IHt]].
  - split; [reflexivity |]. intros c. simpl. rewrite append_nil_r. reflexivity.
  - cbn [for_each]. rewrite Hbody.
    destruct (for_each body pairs) as [t r]. cbn [fst snd] in *.
    subst r. cbn [bind fst snd app]. split; [reflexivity |].
    intros c. cbn [fold_left file_text_step].
    rewrite !(String.eqb_refl classes_path). cbn [option_map].
    rewrite IHt. cbn [map]. rewrite concat_cons, !append_assoc. reflexivity.
Qed.

(** The class list, whatever came before in the trace. *)
Lemma write_classes_text (classes_path : string) (label_list : list string * list Z)
  (t0 : list (event (@content A))) :
  snd (@write_classes A classes_path label_list) = Ok tt ->
  file_text classes_path (t0 ++ fst (@write_classes A classes_path label_list))
  = Some (class_lines label_list).
Proof.
  unfold write_classes, class_lines.
  destruct (Nat.eqb (length (fst label_list)) (length (snd label_list)));
    [| discriminate].
  intros _.
  match goal with
  | |- context [ for_each ?b (zip (fst label_list) (snd label_list)) ] =>
      destruct (classes_loop classes_path b (zip (fst label_list) (snd label_list)))
        as [Hr Ht]; [intros l i; reflexivity |];
      destruct (for_each b (zip (fst label_list) (snd label_list))) as [t r]
  end.
  cbn [fst snd] in *. subst r. cbn [bind emit ret fst snd app].
  unfold file_text. rewrite fold_left_app. cbn [fold_left file_text_step].
  rewrite !(String.eqb_refl classes_path). cbn [default]. apply Ht.
Qed.

(** X10. When [labelmerect2yolo] or [labelmepoly2yolo] runs to its end,
    the file [classes.txt] of the output directory holds exactly the
    label table, one line [id label] per label, in the order of the
    table, whatever was written before under that name. *)
Theorem classes_txt_is_the_table (w : @world A) (input_dir output_dir : string)
  (label_list : list string * list Z) :
  (snd (labelmerect2yolo w input_dir output_dir label_list) = Ok tt ->
   file_text (output_dir +:+ "classes.txt")
     (fst (labelmerect2yolo w input_dir output_dir label_list))
   = Some (class_lines label_list))
  /\ (snd (labelmepoly2yolo w input_dir output_dir label_list) = Ok tt ->
      file_text (os_path_join output_dir "classes.txt")
        (fst (labelmepoly2yolo w input_dir output_dir label_list))
      = Some (class_lines label_list)).
Proof.
  split.
  - unfold labelmerect2yolo.
    destruct (for_each (labelmerect2yolo_file w output_dir label_list) _)
      as [t [[] | v | e]]; cbn [bind]; try discriminate.
    destruct (@write_classes A (output_dir +:+ "classes.txt") label_list)
      as [t' r'] eqn:Hw. cbn [fst snd]. intros ->.
    pose proof (write_classes_text (output_dir +:+ "classes.txt") label_list t) as Ht.
    rewrite Hw in Ht. apply Ht. reflexivity.
  - unfold labelmepoly2yolo.
    destruct (for_each (labelmepoly2yolo_file w output_dir label_list) _)
      as [t [[] | v | e]]; cbn [bind]; try discriminate.
    destruct (@write_classes A (os_path_join output_dir "classes.txt") label_list)
      as [t' r'] eqn:Hw. cbn [fst snd]. intros ->.
    pose proof (write_classes_text (os_path_join output_dir "classes.txt")
                  label_list t) as Ht.
    rewrite Hw in Ht. apply Ht. reflexivity.
Qed.

End YoloRuns.

Section YoloPaths.

Context {A : Type} `{NumA : Number A} `{ReprA : Repr A}.




End YoloPaths.

(** *** The VIA document *)

Section ViaDocument.

Context {A : Type} `{NumA : Number A}.

Lemma bind_ok_inv {C X Y} (m : io C X) (k : X -> io C Y) (b : Y) :
  snd (bind m k) = Ok b ->
  exists t a, m = (t, Ok a) /\ snd (k a) = Ok b.
Proof.
  destruct m as [t [a | v | e]]; simpl; try discriminate.
  intros Hk. exists t, a. split; [reflexivity |]. destruct (k a). exact Hk.
Qed.

Lemma for_collect_ok_inv {C X Y} (body : X -> io C Y) (l : list X) (ys : list Y) :
  snd (for_collect body l) = Ok ys ->
  Forall2 (fun x y => snd (body x) = Ok y) l ys.
Proof.
  revert ys. induction l as [| x l IH]; intros ys; simpl.
  - intros [= <-]. constructor.
  - intros Hr. apply bind_ok_inv in Hr. destruct Hr as (t & y & Hx & Hr).
    apply bind_ok_inv in Hr. destruct Hr as (t' & ys' & Hl & Hr).
    simpl in Hr. injection Hr as <-.
    constructor; [rewrite Hx; reflexivity |]. apply IH. rewrite Hl. reflexivity.
Qed.

Lemma Forall2_In_right {X Y} (P : X -> Y -> Prop) (l : list X) (l' : list Y) (y : Y) :
  Forall2 P l l' -> In y l' -> exists x, In x l /\ P x y.
Proof.
  induction 1 as [| x y' l l' Hxy _ IH]; simpl; [intros [] |].
  intros [<- | Hy]; [exists x; split; [left; reflexivity | exact Hxy] |].
  destruct (IH Hy) as (x' & Hx' & Hp). exists x'. split; [right; exact Hx' | exact Hp].
Qed.

Lemma for_fold_invariant {C X St} (I : nat -> St -> Prop) (body : St -> X -> io C St)
  (l : list X) :
  (forall n s x s', I n s -> snd (body s x) = Ok s' -> I (S n) s') ->
  forall n s s', I n s -> snd (for_fold body l s) = Ok s' -> I (n + length l)%nat s'.
Proof.
  intros Hstep. induction l as [| x l IH]; intros n s s' Hs; simpl.
  - intros [= <-]. rewrite Nat.add_0_r. exact Hs.
  - intros Hr. apply bind_ok_inv in Hr. destruct Hr as (t & s1 & Hx & Hr).
    replace (n + S (length l))%nat with (S n + length l)%nat by lia.
    apply (IH (S n) s1 s'); [| exact Hr].
    apply (Hstep n s x s1 Hs). rewrite Hx. reflexivity.
Qed.

Lemma dict_set_keys {V} (k : string) (v : V) (d : list (string * V)) :
  forall k', In k' (map fst (dict_set k v d)) <-> k' = k \/ In k' (map fst d).
Proof.
  induction d as [| [k0 v0] d IH]; intros k'; simpl.
  - split; [intros [<- | []]; tauto | intros [-> | []]; tauto].
  - destruct (String.eqb_spec k0 k) as [-> | Hne]; simpl.
    + split; [tauto | intros [-> | H]; tauto].
    + rewrite IH. split; [tauto | intros [-> | [H | H]]; tauto].
Qed.

Lemma dict_set_NoDup {V} (k : string) (v : V) (d : list (string * V)) :
  List.NoDup (map fst d) -> List.NoDup (map fst (dict_set k v d)).
Proof.
  induction d as [| [k0 v0] d IH]; simpl; intros Hnd.
  - constructor; [intros [] | constructor].
  - apply List.NoDup_cons_iff in Hnd as [Hk0 Hnd].
    destruct (String.eqb_spec k0 k) as [-> | Hne]; simpl.
    + constructor; assumption.
    + constructor; [| apply IH; exact Hnd].
      rewrite dict_set_keys. intros [Heq | Hin]; [congruence | contradiction].
Qed.

Lemma dict_set_length {V} (k : string) (v : V) (d : list (string * V)) :
  (length (dict_set k v d) <= S (length d))%nat.
Proof.
  induction d as [| [k0 v0] d IH]; simpl; [lia |].
  destruct (String.eqb k0 k); simpl; lia.
Qed.

Lemma dict_set_In {V} (k : string) (v : V) (d : list (string * V)) kv :
  In kv (dict_set k v d) -> kv = (k, v) \/ In kv d.
Proof.
  induction d as [| [k0 v0] d IH]; simpl.
  - intros [<- | []]. left. reflexivity.
  - destruct (String.eqb_spec k0 k) as [-> | Hne]; simpl.
    + intros [<- | H]; [left; reflexivity | right; right; exact H].
    + intros [<- | H]; [right; left; reflexivity |].
      destruct (IH H) as [-> | H']; [left; reflexivity | right; right; exact H'].
Qed.

Lemma ints_are_ints (l zs : list (jnum A)) :
  snd (ints l : io (@content A) _) = Ok zs ->
  length zs = length l /\ Forall is_int zs.
Proof.
  intros Hr. unfold ints in Hr. apply for_collect_ok_inv in Hr.
  induction Hr as [| v z l zs Hv _ [IHl IHf]]; [split; [reflexivity | constructor] |].
  split; [simpl; lia |]. constructor; [| exact IHf].
  destruct (py_int v); simpl in Hv; try discriminate.
  injection Hv as <-. exact I.
Qed.

Lemma is_int_has_int (zs : list (jnum A)) :
  Forall is_int zs -> forall v, In v zs -> exists z, py_int v = Ok z.
Proof.
  intros Hz v Hv. rewrite Forall_forall in Hz.
  specialize (Hz v (proj2 (list_elem_of_In _ _) Hv)).
  destruct v as [z | x]; [exists z; reflexivity | destruct Hz].
Qed.

(** The region of a shape, when there is one, passes the checks of
    [via2labelme]. *)
Lemma labelme2via_shape_region (sh : @shape A) (rg : @region A) :
  snd (labelme2via_shape sh) = Ok rg ->
  region_ok rg
  /\ Forall is_int (all_points_x rg) /\ Forall is_int (all_points_y rg)
  /\ region_label rg = label sh
  /\ length (all_points_x rg) = length (points sh).
Proof.
  unfold labelme2via_shape.
  destruct (negb (String.eqb (shape_type sh) "polygon")); [discriminate |].
  intros Hr. apply bind_ok_inv in Hr. destruct Hr as (t & xs & Hx & Hr).
  apply bind_ok_inv in Hr. destruct Hr as (t' & ys & Hy & Hr).
  simpl in Hr. injection Hr as <-.
  destruct (ints_are_ints (map fst (points sh)) xs) as [Hlx Hfx];
    [rewrite Hx; reflexivity |].
  destruct (ints_are_ints (map snd (points sh)) ys) as [Hly Hfy];
    [rewrite Hy; reflexivity |].
  rewrite length_map in Hlx, Hly.
  cbn [name all_points_x all_points_y region_label].
  split; [| repeat split; assumption].
  split; [reflexivity |]. split; [cbn [all_points_x all_points_y]; lia |].
  cbn [all_points_x all_points_y]. apply is_int_has_int.
  apply Forall_app. split; assumption.
Qed.

Lemma labelme2via_file_inv (w : @world A) input_dir output_dir annotations poly_file d :
  snd (labelme2via_file w input_dir output_dir annotations poly_file) = Ok d ->
  exists n rs,
    d = dict_set (image_name_of w poly_file +:+ repr_int n)
          {| filename := image_name_of w poly_file; regions := rs; size := n |}
          annotations
    /\ st_size w (image_path_of w poly_file) = Some n
    /\ Forall2 (fun sh rg => snd (labelme2via_shape sh) = Ok rg)
         (shapes (load_labelme w poly_file)) rs.
Proof.
  unfold labelme2via_file.
  rewrite (detect_image_format_of (load_labelme w poly_file)).
  rewrite bind_pair_ok. cbn [snd].
  change (replace ".json" (image_format_of (load_labelme w poly_file)) poly_file)
    with (image_path_of w poly_file).
  change (replace ".json" (image_format_of (load_labelme w poly_file))
            (last_part (split "/" poly_file)))
    with (image_name_of w poly_file).
  destruct (st_size w (image_path_of w poly_file)) as [n |]; [| discriminate].
  rewrite bind_lift_ok. intros Hr.
  apply bind_ok_inv in Hr. destruct Hr as (t & rs & Hrs & Hr).
  apply bind_ok_inv in Hr. destruct Hr as (t' & u & _ & Hr).
  simpl in Hr. injection Hr as <-.
  exists n, rs. split; [reflexivity |]. split; [reflexivity |].
  apply for_collect_ok_inv. rewrite Hrs. reflexivity.
Qed.

Lemma labelme2via_annotations_document (w : @world A) input_dir output_dir doc :
  snd (labelme2via_annotations w input_dir output_dir) = Ok doc ->
  document_ok (length (glob_glob (listdir w) (input_dir +:+ "*.json"))) doc.
Proof.
  unfold labelme2via_annotations. intros Hr.
  apply (for_fold_invariant document_ok
           (labelme2via_file w input_dir output_dir)
           (glob_glob (listdir w) (input_dir +:+ "*.json"))) with (n := 0%nat) (s := [])
    (s' := doc); [| | exact Hr].
  - clear Hr. intros n s p s' (Hnd & Hlen & Hall) Hr.
    apply labelme2via_file_inv in Hr. destruct Hr as (sz & rs & -> & _ & Hrs).
    split; [apply dict_set_NoDup; exact Hnd |].
    split; [pose proof (dict_set_length
                          (image_name_of w p +:+ repr_int sz)
                          {| filename := image_name_of w p; regions := rs; size := sz |}
                          s); lia |].
    intros k va Hin. apply dict_set_In in Hin. destruct Hin as [Heq | Hin].
    + injection Heq as -> ->. cbn [filename size regions].
      split; [reflexivity |]. intros rg Hrg.
      apply (Forall2_In_right _ _ _ _ Hrs) in Hrg.
      destruct Hrg as (sh & _ & Hsh).
      destruct (labelme2via_shape_region sh rg Hsh) as (H1 & H2 & H3 & _).
      split; [exact H1 | split; [exact H2 | exact H3]].
    + apply Hall. exact Hin.
  - split; [constructor |]. split; [simpl; lia |]. intros k va [].
Qed.

(** X12. Whatever the directory holds, a document [labelme2via] writes
    is the only one it writes and the run ends normally; the keys of
    the document are distinct, there are at most as many as there are
    JSON files, each key is the file name of its annotation followed by
    its size, and every region is a polygon with as many x as y
    coordinates, all of them integers: a region [via2labelme]
    converts. *)
Theorem labelme2via_document (w : @world A) (input_dir output_dir : string)
  (doc : list (string * @via_annotation A)) :
  In doc (written_via (fst (labelme2via w input_dir output_dir))) ->
  snd (labelme2via w input_dir output_dir) = Ok tt
  /\ written_via (fst (labelme2via w input_dir output_dir)) = [doc]
  /\ document_ok (length (glob_glob (listdir w) (input_dir +:+ "*.json"))) doc.
Proof.
  pose proof (labelme2via_annotations_quiet w input_dir output_dir) as Hq.
  pose proof (labelme2via_annotations_document w input_dir output_dir) as Hd.
  unfold labelme2via.
  destruct (labelme2via_annotations w input_dir output_dir) as [t [d | v | e]];
    cbn [fst snd] in *.
  - unfold bind. cbn [fst snd emit app].
    rewrite written_via_app, (quiet_written_via t Hq).
    cbn [written_via omap app]. intros [<- | []].
    split; [reflexivity |]. split; [reflexivity |]. apply Hd. reflexivity.
  - cbn [bind fst]. rewrite (quiet_written_via t Hq). intros [].
  - cbn [bind fst]. rewrite (quiet_written_via t Hq). intros [].
Qed.

End ViaDocument.

(** *** Runs of labelme2via *)

Section ViaRuns.

Context {A : Type} `{NumA : Number A}.

Lemma touched_app (t1 t2 : list (event (@content A))) :
  touched (t1 ++ t2) = touched t1 ++ touched t2.
Proof. unfold touched. apply omap_app. Qed.

Lemma detect_image_format_touches_nothing (f : @labelme_file A) :
  touched (fst (detect_image_format f) : list (event (@content A))) = []
  /\ written_via (fst (detect_image_format f) : list (event (@content A))) = [].
Proof.
  split.
  - destruct (detect_image_format_total f) as (t & fmt & Heq & Hp).
    rewrite Heq. apply prints_touch_nothing. exact Hp.
  - apply quiet_written_via. apply detect_image_format_quiet.
Qed.

(** A copy goes through exactly when it is ready. *)
Lemma copyfile_ok (w : @world A) (src dst : string) :
  copy_ready w src dst -> copyfile w src dst = ([Copy src dst], Ok tt).
Proof.
  intros ([n Hn] & Hsame & Hcopy). unfold copyfile.
  rewrite Hn, Hsame, Hcopy. reflexivity.
Qed.

Lemma copyfile_ok_inv (w : @world A) (src dst : string) (u : unit) :
  snd (copyfile w src dst) = Ok u -> copy_ready w src dst.
Proof.
  unfold copyfile, copy_ready.
  destruct (st_size w src) as [n |]; [| discriminate].
  destruct (same_file w src dst); [discriminate |].
  destruct (copy_error w dst) as [e |]; [discriminate |].
  intros _. split; [exists n; reflexivity |]. split; reflexivity.
Qed.

Lemma for_fold_ok_inv {C X St} (P : X -> Prop) (body : St -> X -> io C St)
  (l : list X) :
  (forall s x s', snd (body s x) = Ok s' -> P x) ->
  forall s s', snd (for_fold body l s) = Ok s' -> forall x, In x l -> P x.
Proof.
  intros Hbody. induction l as [| x l IH]; intros s s' Hr x' Hx'; [destruct Hx' |].
  cbn [for_fold] in Hr. apply bind_ok_inv in Hr. destruct Hr as (t & s1 & Hx & Hr).
  destruct Hx' as [<- | Hx'].
  - apply (Hbody s x s1). rewrite Hx. reflexivity.
  - apply (IH s1 s' Hr x' Hx').
Qed.

Lemma ints_ok_inv (l zs : list (jnum A)) :
  snd (ints l : io (@content A) _) = Ok zs ->
  forall v, In v l -> exists z, py_int v = Ok z.
Proof.
  intros Hr. unfold ints in Hr. apply for_collect_ok_inv in Hr.
  induction Hr as [| v z l zs Hv _ IH]; intros v' Hv'; [destruct Hv' |].
  destruct Hv' as [<- | Hv']; [| apply IH; exact Hv'].
  destruct (py_int v) as [z' | r | e]; simpl in Hv; try discriminate.
  exists z'. reflexivity.
Qed.

Lemma labelme2via_shape_ok_inv (sh : @shape A) (rg : @region A) :
  snd (labelme2via_shape sh) = Ok rg -> shape_type sh = "polygon" /\ has_ints sh.
Proof.
  unfold labelme2via_shape.
  destruct (String.eqb_spec (shape_type sh) "polygon") as [Hk | Hk]; cbn [negb];
    [| discriminate].
  intros Hr. apply bind_ok_inv in Hr. destruct Hr as (t & xs & Hx & Hr).
  apply bind_ok_inv in Hr. destruct Hr as (t' & ys & Hy & _).
  split; [exact Hk |]. intros pt Hpt. split.
  - apply (ints_ok_inv (map fst (points sh)) xs); [rewrite Hx; reflexivity |].
    apply in_map. exact Hpt.
  - apply (ints_ok_inv (map snd (points sh)) ys); [rewrite Hy; reflexivity |].
    apply in_map. exact Hpt.
Qed.

(** One file that is ready: its image is copied and the dict gets its
    annotation. *)
Lemma labelme2via_file_run (w : @world A) input_dir output_dir annotations poly_file :
  file_ready w input_dir output_dir poly_file ->
  exists t,
    labelme2via_file w input_dir output_dir annotations poly_file
    = (t, Ok (dict_set (key_of w poly_file) (via_annotation_of w poly_file) annotations))
    /\ touched t = [os_path_join output_dir (image_name_of w poly_file)]
    /\ written_via t = [].
Proof.
  intros (Hshapes & [n Hn] & Hcopy).
  destruct (detect_image_format_touches_nothing (load_labelme w poly_file)) as [Ht Hv].
  exists (fst (detect_image_format (load_labelme w poly_file))
            ++ [Copy (os_path_join input_dir (image_name_of w poly_file))
                  (os_path_join output_dir (image_name_of w poly_file))]).
  split.
  - unfold labelme2via_file.
    rewrite (detect_image_format_of (load_labelme w poly_file)).
    rewrite bind_pair_ok. cbv beta.
    change (replace ".json" (image_format_of (load_labelme w poly_file)) poly_file)
      with (image_path_of w poly_file).
    change (replace ".json" (image_format_of (load_labelme w poly_file))
              (last_part (split "/" poly_file)))
      with (image_name_of w poly_file).
    rewrite Hn. rewrite bind_lift_ok.
    rewrite (for_collect_map_ok labelme2via_shape region_of_shape).
    2: { intros sh Hsh. destruct (Hshapes sh Hsh) as [Hk Hi].
         apply labelme2via_shape_ok; assumption. }
    rewrite bind_nil_ok.
    rewrite (copyfile_ok w _ _ Hcopy). rewrite bind_pair_ok.
    cbn [ret fst snd app].
    unfold key_of, via_annotation_of. rewrite Hn. reflexivity.
  - rewrite touched_app, written_via_app, Ht, Hv. split; reflexivity.
Qed.

(** A file the body of the loop gets through is ready. *)
Lemma labelme2via_file_ok_inv (w : @world A) input_dir output_dir annotations
  poly_file d :
  snd (labelme2via_file w input_dir output_dir annotations poly_file) = Ok d ->
  file_ready w input_dir output_dir poly_file.
Proof.
  unfold labelme2via_file, file_ready.
  rewrite (detect_image_format_of (load_labelme w poly_file)).
  rewrite bind_pair_ok. cbn [snd].
  change (replace ".json" (image_format_of (load_labelme w poly_file)) poly_file)
    with (image_path_of w poly_file).
  change (replace ".json" (image_format_of (load_labelme w poly_file))
            (last_part (split "/" poly_file)))
    with (image_name_of w poly_file).
  destruct (st_size w (image_path_of w poly_file)) as [n |]; [| discriminate].
  rewrite bind_lift_ok. intros Hr.
  apply bind_ok_inv in Hr. destruct Hr as (t & rs & Hrs & Hr).
  apply bind_ok_inv in Hr. destruct Hr as (t' & u & Hcopy & _).
  split; [| split; [exists n; reflexivity |]].
  - intros sh Hsh.
    assert (Hall : Forall2 (fun sh rg => snd (labelme2via_shape sh) = Ok rg)
                     (shapes (load_labelme w poly_file)) rs)
      by (apply for_collect_ok_inv; rewrite Hrs; reflexivity).
    clear - Hall Hsh. induction Hall as [| sh' rg l l' Hone _ IH]; [destruct Hsh |].
    destruct Hsh as [<- | Hsh]; [| apply IH; exact Hsh].
    apply (labelme2via_shape_ok_inv sh' rg Hone).
  - apply (copyfile_ok_inv w _ _ u). rewrite Hcopy. reflexivity.
Qed.

(** One file whose image is not there, under the path the size is taken
    from or under the path it is copied from. *)
Lemma labelme2via_file_missing (w : @world A) input_dir output_dir annotations poly_file :
  st_size w (image_path_of w poly_file) = None
  \/ ((forall sh, In sh (shapes (load_labelme w poly_file)) ->
                  shape_type sh = "polygon" /\ has_ints sh)
      /\ st_size w (os_path_join input_dir (image_name_of w poly_file)) = None) ->
  exists t,
    labelme2via_file w input_dir output_dir annotations poly_file
    = (t, Exc FileNotFoundError)
    /\ touched t = [] /\ written_via t = [].
Proof.
  intros Hcase.
  destruct (detect_image_format_touches_nothing (load_labelme w poly_file)) as [Ht Hv].
  exists (fst (detect_image_format (load_labelme w poly_file))).
  split; [| split; assumption].
  unfold labelme2via_file.
  rewrite (detect_image_format_of (load_labelme w poly_file)).
  rewrite bind_pair_ok. cbv beta.
  change (replace ".json" (image_format_of (load_labelme w poly_file)) poly_file)
    with (image_path_of w poly_file).
  change (replace ".json" (image_format_of (load_labelme w poly_file))
            (last_part (split "/" poly_file)))
    with (image_name_of w poly_file).
  destruct (st_size w (image_path_of w poly_file)) as [n |] eqn:Hn.
  - destruct Hcase as [Hnone | [Hshapes Hm]]; [discriminate |].
    rewrite bind_lift_ok.
    rewrite (for_collect_map_ok labelme2via_shape region_of_shape).
    2: { intros sh Hsh. destruct (Hshapes sh Hsh) as [Hk Hi].
         apply labelme2via_shape_ok; assumption. }
    rewrite bind_nil_ok.
    unfold copyfile. rewrite Hm. cbn [bind raise fst snd].
    rewrite app_nil_r. reflexivity.
  - cbn [bind lift fst snd]. rewrite app_nil_r. reflexivity.
Qed.

Lemma labelme2via_files_run (w : @world A) input_dir output_dir files annotations :
  (forall p, In p files -> file_ready w input_dir output_dir p) ->
  exists t,
    for_fold (labelme2via_file w input_dir output_dir) files annotations
    = (t, Ok (fold_left (fun d p => dict_set (key_of w p) (via_annotation_of w p) d)
                files annotations))
    /\ touched t = map (fun p => os_path_join output_dir (image_name_of w p)) files
    /\ written_via t = [].
Proof.
  revert annotations. induction files as [| p files IH]; intros annotations Hready.
  - exists []. repeat split.
  - destruct (labelme2via_file_run w input_dir output_dir annotations p
                (Hready p (or_introl eq_refl))) as (t1 & Hfile & Ht1 & Hv1).
    destruct (IH (dict_set (key_of w p) (via_annotation_of w p) annotations))
      as (t2 & Hrest & Ht2 & Hv2).
    { intros q Hq. apply Hready. right. exact Hq. }
    exists (t1 ++ t2). split; [| split].
    + cbn [for_fold fold_left]. rewrite Hfile. unfold bind. rewrite Hrest. reflexivity.
    + rewrite touched_app, Ht1, Ht2. reflexivity.
    + rewrite written_via_app, Hv1, Hv2. reflexivity.
Qed.

Lemma labelme2via_files_stop (w : @world A) input_dir output_dir pre p post annotations :
  (forall q, In q pre -> file_ready w input_dir output_dir q) ->
  (st_size w (image_path_of w p) = None
   \/ ((forall sh, In sh (shapes (load_labelme w p)) ->
                   shape_type sh = "polygon" /\ has_ints sh)
       /\ st_size w (os_path_join input_dir (image_name_of w p)) = None)) ->
  exists t,
    for_fold (labelme2via_file w input_dir output_dir) (pre ++ p :: post) annotations
    = (t, Exc FileNotFoundError)
    /\ touched t = map (fun q => os_path_join output_dir (image_name_of w q)) pre
    /\ written_via t = [].
Proof.
  intros Hready Hp. revert annotations Hready.
  induction pre as [| q pre IH]; intros annotations Hready.
  - destruct (labelme2via_file_missing w input_dir output_dir annotations p Hp)
      as (t & Hfile & Ht & Hv).
    exists t. split; [| split; assumption].
    cbn [app for_fold]. rewrite Hfile. reflexivity.
  - destruct (labelme2via_file_run w input_dir output_dir annotations q
                (Hready q (or_introl eq_refl))) as (t1 & Hfile & Ht1 & Hv1).
    destruct (IH (dict_set (key_of w q) (via_annotation_of w q) annotations))
      as (t2 & Hrest & Ht2 & Hv2).
    { intros q' Hq'. apply Hready. right. exact Hq'. }
    exists (t1 ++ t2). split; [| split].
    + cbn [app for_fold]. rewrite Hfile. unfold bind. rewrite Hrest. reflexivity.
    + rewrite touched_app, Ht1, Ht2. reflexivity.
    + rewrite written_via_app, Hv1, Hv2. reflexivity.
Qed.

(** A run that gets to its end found every file ready. *)
Lemma labelme2via_ok_inv (w : @world A) input_dir output_dir :
  snd (labelme2via w input_dir output_dir) = Ok tt ->
  forall p, In p (glob_glob (listdir w) (input_dir +:+ "*.json")) ->
            file_ready w input_dir output_dir p.
Proof.
  unfold labelme2via. intros Hr.
  apply bind_ok_inv in Hr. destruct Hr as (t & d & Hann & _).
  unfold labelme2via_annotations in Hann.
  apply (for_fold_ok_inv (file_ready w input_dir output_dir)
           (labelme2via_file w input_dir output_dir)
           (glob_glob (listdir w) (input_dir +:+ "*.json"))) with (s := []) (s' := d).
  - intros s x s'. apply labelme2via_file_ok_inv.
  - rewrite Hann. reflexivity.
Qed.

(** What a run over ready files does. *)
Lemma labelme2via_run (w : @world A) input_dir output_dir :
  (forall p, In p (glob_glob (listdir w) (input_dir +:+ "*.json")) ->
             file_ready w input_dir output_dir p) ->
  snd (labelme2via w input_dir output_dir) = Ok tt
  /\ written_via (fst (labelme2via w input_dir output_dir))
     = [fold_left (fun d p => dict_set (key_of w p) (via_annotation_of w p) d)
          (glob_glob (listdir w) (input_dir +:+ "*.json")) []]
  /\ touched (fst (labelme2via w input_dir output_dir))
     = map (fun p => os_path_join output_dir (image_name_of w p))
         (glob_glob (listdir w) (input_dir +:+ "*.json"))
       ++ [via_annotations_json output_dir; via_annotations_json output_dir].
Proof.
  intros Hready.
  destruct (labelme2via_files_run w input_dir output_dir _ [] Hready)
    as (t & Hrun & Ht & Hv).
  unfold labelme2via, labelme2via_annotations. rewrite Hrun.
  unfold bind. cbn [emit fst snd app].
  rewrite written_via_app, touched_app, Ht, Hv.
  split; [reflexivity |]. split; reflexivity.
Qed.

(** X13. When [labelme2via] runs to its end, every JSON file of the
    directory held polygons only, with coordinates that have an [int],
    its image was there and was copied to the output directory, to
    another file than itself; the run has written one document, the
    dict that results from setting, file after file in the order of the
    directory, the key of the file to its annotation (a later file with
    the key of an earlier one takes its place); and the files it has
    created or changed are the copies of the images, in that order, and
    then [via_annotations.json] of the output directory. *)
Theorem labelme2via_converts (w : @world A) (input_dir output_dir : string) :
  snd (labelme2via w input_dir output_dir) = Ok tt ->
  (forall p, In p (glob_glob (listdir w) (input_dir +:+ "*.json")) ->
             file_ready w input_dir output_dir p)
  /\ written_via (fst (labelme2via w input_dir output_dir))
     = [fold_left (fun d p => dict_set (key_of w p) (via_annotation_of w p) d)
          (glob_glob (listdir w) (input_dir +:+ "*.json")) []]
  /\ touched (fst (labelme2via w input_dir output_dir))
     = map (fun p => os_path_join output_dir (image_name_of w p))
         (glob_glob (listdir w) (input_dir +:+ "*.json"))
       ++ [via_annotations_json output_dir; via_annotations_json output_dir].
Proof.
  intros Hr.
  pose proof (labelme2via_ok_inv w input_dir output_dir Hr) as Hready.
  split; [exact Hready |].
  apply (labelme2via_run w input_dir output_dir Hready).
Qed.

(** X14. A JSON file whose image is missing, under the path the size is
    taken from or, the shapes being convertible polygons, under the
    path the image is copied from, ends [labelme2via] with
    [FileNotFoundError]: when the files before it are converted, their
    images are already copied to the output directory, nothing else is
    created there, and no VIA document is written. *)
Theorem labelme2via_missing_image (w : @world A) (input_dir output_dir : string)
  (pre : list string) (p : string) (post : list string) :
  glob_glob (listdir w) (input_dir +:+ "*.json") = pre ++ p :: post ->
  (forall q, In q pre -> file_ready w input_dir output_dir q) ->
  (st_size w (image_path_of w p) = None
   \/ ((forall sh, In sh (shapes (load_labelme w p)) ->
                   shape_type sh = "polygon" /\ has_ints sh)
       /\ st_size w (os_path_join input_dir (image_name_of w p)) = None)) ->
  snd (labelme2via w input_dir output_dir) = Exc FileNotFoundError
  /\ written_via (fst (labelme2via w input_dir output_dir)) = []
  /\ touched (fst (labelme2via w input_dir output_dir))
     = map (fun q => os_path_join output_dir (image_name_of w q)) pre.
Proof.
  intros Hglob Hready Hp.
  destruct (labelme2via_files_stop w input_dir output_dir pre p post [] Hready Hp)
    as (t & Hrun & Ht & Hv).
  unfold labelme2via, labelme2via_annotations. rewrite Hglob, Hrun.
  cbn [bind fst snd]. split; [reflexivity |]. split; assumption.
Qed.

End ViaRuns.

(** *** Runs of via2labelme *)

Section LabelmeRuns.

Context {A : Type} `{NumA : Number A}.

Lemma zip_In {X Y} (xs : list X) (ys : list Y) (x : X) (y : Y) :
  In (x, y) (zip xs ys) -> In x xs /\ In y ys.
Proof.
  revert ys. induction xs as [| x0 xs IH]; intros [| y0 ys]; simpl; try tauto.
  intros [Heq | Hin].
  - injection Heq as -> ->. split; left; reflexivity.
  - destruct (IH ys Hin). split; right; assumption.
Qed.

Lemma zip_In_l {X Y} (xs : list X) (ys : list Y) (x : X) :
  length xs = length ys -> In x xs -> exists y, In (x, y) (zip xs ys).
Proof.
  revert ys. induction xs as [| x0 xs IH]; intros [| y0 ys] Hlen Hx;
    simpl in *; try discriminate; [destruct Hx |].
  destruct Hx as [<- | Hx]; [exists y0; left; reflexivity |].
  destruct (IH ys (eq_add_S _ _ Hlen) Hx) as [y Hy]. exists y. right. exact Hy.
Qed.

Lemma zip_In_r {X Y} (xs : list X) (ys : list Y) (y : Y) :
  length xs = length ys -> In y ys -> exists x, In (x, y) (zip xs ys).
Proof.
  revert ys. induction xs as [| x0 xs IH]; intros [| y0 ys] Hlen Hy;
    simpl in *; try discriminate; [destruct Hy |].
  destruct Hy as [<- | Hy]; [exists x0; left; reflexivity |].
  destruct (IH ys (eq_add_S _ _ Hlen) Hy) as [x Hx]. exists x. right. exact Hx.
Qed.

(** The shape of a region that is a polygon with as many x as y
    coordinates. *)
Lemma via2labelme_region_run (rg : @region A) :
  region_ok rg -> via2labelme_region rg = ([], Ok (shape_of_region rg)).
Proof.
  intros (Hname & Hlen & Hints).
  unfold via2labelme_region. rewrite Hname. simpl negb at 1. cbv iota.
  rewrite Hlen, Nat.eqb_refl. simpl negb. cbv iota.
  rewrite (for_collect_map_ok _ truncate_point).
  - rewrite bind_nil_ok. unfold shape_of_region. rewrite Hname. reflexivity.
  - intros [x y] Hxy. apply zip_In in Hxy. destruct Hxy as [Hx Hy].
    destruct (Hints x) as [x' Hx']; [apply in_or_app; left; exact Hx |].
    destruct (Hints y) as [y' Hy']; [apply in_or_app; right; exact Hy |].
    unfold truncate_point. cbn [fst snd].
    rewrite (truncate_int x x' Hx'), (truncate_int y y' Hy'), Hx', Hy'.
    reflexivity.
Qed.

(** A region the body of the region loop gets through is convertible. *)
Lemma via2labelme_region_ok_inv (rg : @region A) (sh : @shape A) :
  snd (via2labelme_region rg) = Ok sh -> region_ok rg.
Proof.
  unfold via2labelme_region, region_ok.
  destruct (String.eqb_spec (name rg) "polygon") as [Hname | Hname]; cbn [negb];
    [| discriminate].
  destruct (Nat.eqb_spec (length (all_points_x rg)) (length (all_points_y rg)))
    as [Hlen | Hlen]; cbn [negb]; [| discriminate].
  intros Hr. apply bind_ok_inv in Hr. destruct Hr as (t & pts & Hpts & _).
  split; [exact Hname |]. split; [exact Hlen |].
  assert (Hall : forall xy, In xy (zip (all_points_x rg) (all_points_y rg)) ->
                            (exists x', py_int (fst xy) = Ok x')
                            /\ (exists y', py_int (snd xy) = Ok y')).
  { assert (H2 : Forall2
                   (fun (xy : jnum A * jnum A) (pt : jnum A * jnum A) =>
                      snd ((let '(x, y) := xy in
                            bind (lift (py_int x))
                              (fun x' => bind (lift (py_int y))
                                           (fun y' => ret (JInt x', JInt y'))))
                           : io (@content A) _) = Ok pt)
                   (zip (all_points_x rg) (all_points_y rg)) pts)
      by (apply for_collect_ok_inv; rewrite Hpts; reflexivity).
    clear - H2. induction H2 as [| [x y] pt l l' Hone _ IH]; intros xy Hxy;
      [destruct Hxy |].
    destruct Hxy as [<- | Hxy]; [| apply IH; exact Hxy].
    cbn [fst snd].
    destruct (py_int x) as [x' | r | e]; simpl in Hone; try discriminate.
    destruct (py_int y) as [y' | r | e]; simpl in Hone; try discriminate.
    split; eexists; reflexivity. }
  intros v Hv. apply in_app_or in Hv. destruct Hv as [Hv | Hv].
  - destruct (zip_In_l _ _ v Hlen Hv) as [y Hxy].
    apply (Hall (v, y) Hxy).
  - destruct (zip_In_r _ _ v Hlen Hv) as [x Hxy].
    apply (Hall (x, v) Hxy).
Qed.

Lemma via2labelme_region_other (rg : @region A) :
  name rg <> "polygon" ->
  via2labelme_region rg = ([Print via2labelme_error], Ret 1).
Proof.
  intros Hname. unfold via2labelme_region.
  destruct (String.eqb_spec (name rg) "polygon") as [Heq | _]; [contradiction |].
  reflexivity.
Qed.

Lemma via2labelme_annotation_run (w : @world A) input_dir output_dir i va :
  annotation_ready w input_dir output_dir va ->
  via2labelme_annotation w input_dir output_dir i va
  = (annotation_events w input_dir output_dir i va, Ok tt).
Proof.
  intros [[[[h wd] Him] Hcopy] Hregions].
  unfold via2labelme_annotation, annotation_events, labelme_ann_of, lme_ann_name.
  rewrite Him. rewrite bind_lift_ok.
  rewrite (for_collect_map_ok via2labelme_region shape_of_region).
  2: { intros rg Hrg. apply via2labelme_region_run. apply Hregions. exact Hrg. }
  rewrite bind_nil_ok.
  rewrite (copyfile_ok w _ _ Hcopy). reflexivity.
Qed.

(** An annotation the body of the loop gets through is ready. *)
Lemma via2labelme_annotation_ok_inv (w : @world A) input_dir output_dir i va :
  snd (via2labelme_annotation w input_dir output_dir i va) = Ok tt ->
  annotation_ready w input_dir output_dir va.
Proof.
  unfold via2labelme_annotation, annotation_ready, image_ready.
  destruct (imread w (os_path_join input_dir (filename va))) as [[h wd] |];
    [| discriminate].
  rewrite bind_lift_ok. intros Hr.
  apply bind_ok_inv in Hr. destruct Hr as (t & shs & Hshs & Hr).
  apply bind_ok_inv in Hr. destruct Hr as (t1 & u1 & _ & Hr).
  apply bind_ok_inv in Hr. destruct Hr as (t2 & u2 & _ & Hr).
  split; [split; [exists (h, wd); reflexivity |] |].
  - apply (copyfile_ok_inv w _ _ tt). exact Hr.
  - intros rg Hrg.
    assert (Hall : Forall2 (fun rg sh => snd (via2labelme_region rg) = Ok sh)
                     (regions va) shs)
      by (apply for_collect_ok_inv; rewrite Hshs; reflexivity).
    clear - Hall Hrg. induction Hall as [| rg' sh l l' Hone _ IH]; [destruct Hrg |].
    destruct Hrg as [<- | Hrg]; [| apply IH; exact Hrg].
    apply (via2labelme_region_ok_inv rg' sh Hone).
Qed.

Lemma via2labelme_annotations_run (w : @world A) input_dir output_dir vas i :
  (forall va, In va vas -> annotation_ready w input_dir output_dir va) ->
  for_each_from (via2labelme_annotation w input_dir output_dir) i vas
  = (concat (zip_with (annotation_events w input_dir output_dir)
               (seq i (length vas)) vas), Ok tt).
Proof.
  revert i. induction vas as [| va vas IH]; intros i Hready; [reflexivity |].
  cbn [for_each_from length seq zip_with concat].
  rewrite (via2labelme_annotation_run w input_dir output_dir i va
             (Hready va (or_introl eq_refl))).
  rewrite bind_pair_ok.
  rewrite IH; [reflexivity |]. intros va' Hva'. apply Hready. right. exact Hva'.
Qed.

Lemma for_each_from_ok_inv {C X} (P : X -> Prop) (body : nat -> X -> io C unit)
  (l : list X) :
  (forall i x, snd (body i x) = Ok tt -> P x) ->
  forall i, snd (for_each_from body i l) = Ok tt -> forall x, In x l -> P x.
Proof.
  intros Hbody. induction l as [| x l IH]; intros i Hr x' Hx'; [destruct Hx' |].
  cbn [for_each_from] in Hr. apply bind_ok_inv in Hr.
  destruct Hr as (t & [] & Hx & Hr).
  destruct Hx' as [<- | Hx'].
  - apply (Hbody i x). rewrite Hx. reflexivity.
  - apply (IH (S i) Hr x' Hx').
Qed.

Lemma via2labelme_annotations_stop (w : @world A) input_dir output_dir pre va post i t r :
  (forall va', In va' pre -> annotation_ready w input_dir output_dir va') ->
  via2labelme_annotation w input_dir output_dir (i + length pre) va = (t, r) ->
  (forall u, r <> Ok u) ->
  for_each_from (via2labelme_annotation w input_dir output_dir) i (pre ++ va :: post)
  = (concat (zip_with (annotation_events w input_dir output_dir)
               (seq i (length pre)) pre) ++ t, r).
Proof.
  revert i. induction pre as [| va' pre IH]; intros i Hready Hva Hr.
  - cbn [app for_each_from length seq zip_with concat].
    rewrite Nat.add_0_r in Hva. rewrite Hva.
    destruct r as [u | v | e]; [exfalso; apply (Hr u); reflexivity | |]; reflexivity.
  - cbn [app for_each_from length seq zip_with concat].
    rewrite (via2labelme_annotation_run w input_dir output_dir i va'
               (Hready va' (or_introl eq_refl))).
    rewrite bind_pair_ok.
    rewrite (IH (S i)).
    + cbn [fst snd]. rewrite <- app_assoc. reflexivity.
    + intros va'' Hva''. apply Hready. right. exact Hva''.
    + replace (S i + length pre)%nat with (i + length (va' :: pre))%nat
        by (simpl; lia). exact Hva.
    + exact Hr.
Qed.

Lemma written_labelme_events (w : @world A) input_dir output_dir vas i :
  written_labelme
    (concat (zip_with (annotation_events w input_dir output_dir)
               (seq i (length vas)) vas))
  = zip_with (labelme_ann_of w input_dir) (seq i (length vas)) vas.
Proof.
  revert i. induction vas as [| va vas IH]; intros i; [reflexivity |].
  cbn [length seq zip_with concat].
  rewrite written_labelme_app, IH. reflexivity.
Qed.

(** A run that gets to its end found one document and every annotation
    of it ready, and is the run of the events of the annotations. *)
Lemma via2labelme_ok_inv (w : @world A) input_dir output_dir :
  snd (via2labelme w input_dir output_dir) = Ok tt ->
  exists poly_file,
    glob_glob (listdir w) (input_dir +:+ "*.json") = [poly_file]
    /\ (forall va, In va (map snd (load_via w poly_file)) ->
                   annotation_ready w input_dir output_dir va)
    /\ via2labelme w input_dir output_dir
       = (concat (zip_with (annotation_events w input_dir output_dir)
                    (seq 0 (length (load_via w poly_file)))
                    (map snd (load_via w poly_file))), Ok tt).
Proof.
  unfold via2labelme.
  destruct (glob_glob (listdir w) (input_dir +:+ "*.json")) as [| poly_file [| ? ?]];
    [discriminate | | discriminate].
  intros Hr. exists poly_file. split; [reflexivity |].
  assert (Hready : forall va, In va (map snd (load_via w poly_file)) ->
                              annotation_ready w input_dir output_dir va).
  { apply (for_each_from_ok_inv (annotation_ready w input_dir output_dir)
             (via2labelme_annotation w input_dir output_dir)
             (map snd (load_via w poly_file))) with (i := 0%nat); [| exact Hr].
    intros i va. apply via2labelme_annotation_ok_inv. }
  split; [exact Hready |].
  rewrite (via2labelme_annotations_run w input_dir output_dir _ 0 Hready).
  rewrite length_map. reflexivity.
Qed.

(** X15. When [via2labelme] runs to its end, the input directory held
    one JSON document and, for every annotation of it, the image was
    read and was copied to the output directory, to another file than
    itself, and the regions were polygons with as many x as y
    coordinates that have an [int]; the run has done, annotation after
    annotation, three things and nothing else: it has created the
    Labelme file, written the Labelme dict to it and copied the image.
    The dict of the annotation number [i] has the file name of the
    annotation as its image path, the height and the width of the image
    that was read, the draws number [2 i] and [2 i + 1] as its colours,
    and one shape for each region, in order, with the name and the
    label of the region and its coordinates after [int]. *)
Theorem via2labelme_converts (w : @world A) (input_dir output_dir : string) :
  snd (via2labelme w input_dir output_dir) = Ok tt ->
  exists poly_file,
    glob_glob (listdir w) (input_dir +:+ "*.json") = [poly_file]
    /\ (forall va, In va (map snd (load_via w poly_file)) ->
                   annotation_ready w input_dir output_dir va)
    /\ via2labelme w input_dir output_dir
       = (concat (zip_with (annotation_events w input_dir output_dir)
                    (seq 0 (length (load_via w poly_file)))
                    (map snd (load_via w poly_file))), Ok tt)
    /\ written_labelme (fst (via2labelme w input_dir output_dir))
       = zip_with (labelme_ann_of w input_dir)
           (seq 0 (length (load_via w poly_file)))
           (map snd (load_via w poly_file)).
Proof.
  intros Hr.
  destruct (via2labelme_ok_inv w input_dir output_dir Hr)
    as (poly_file & Hglob & Hready & Hrun).
  exists poly_file. split; [exact Hglob |]. split; [exact Hready |].
  split; [exact Hrun |].
  rewrite Hrun. cbn [fst].
  rewrite <- (length_map snd (load_via w poly_file)).
  apply written_labelme_events.
Qed.

(** X16. A region that is not a polygon stops [via2labelme] where it
    stands: when the annotations before its annotation are converted,
    the image of its annotation can be read and the regions before it
    are convertible, the run is the three events of each earlier
    annotation, then the message that only polygons are supported, and
    it returns 1.  The files of the earlier annotations stay; nothing
    is created for the annotation of the region or for those after
    it. *)
Theorem via2labelme_other_shape (w : @world A) (input_dir output_dir : string)
  (poly_file : string) (pre : list (@via_annotation A)) (va : @via_annotation A)
  (post : list (@via_annotation A)) (rpre : list (@region A)) (rg : @region A)
  (rpost : list (@region A)) :
  glob_glob (listdir w) (input_dir +:+ "*.json") = [poly_file] ->
  map snd (load_via w poly_file) = pre ++ va :: post ->
  (forall va', In va' pre -> annotation_ready w input_dir output_dir va') ->
  is_Some (imread w (os_path_join input_dir (filename va))) ->
  regions va = rpre ++ rg :: rpost ->
  (forall rg', In rg' rpre -> region_ok rg') ->
  name rg <> "polygon" ->
  via2labelme w input_dir output_dir
  = (concat (zip_with (annotation_events w input_dir output_dir)
               (seq 0 (length pre)) pre)
       ++ [Print via2labelme_error], Ret 1).
Proof.
  intros Hglob Hvas Hready [[h wd] Him] Hregions Hrpre Hname.
  unfold via2labelme. rewrite Hglob, Hvas.
  apply via2labelme_annotations_stop; [exact Hready | | discriminate].
  unfold via2labelme_annotation. rewrite Him, bind_lift_ok, Hregions.
  rewrite (for_collect_stop via2labelme_region rpre rg rpost
             [Print via2labelme_error] 1).
  - reflexivity.
  - apply Forall_forall. intros rg' Hrg'. exists (shape_of_region rg').
    apply via2labelme_region_run. apply Hrpre.
    apply list_elem_of_In. exact Hrg'.
  - apply via2labelme_region_other. exact Hname.
Qed.

(** X17. An image that cannot be read ends [via2labelme] with
    [AttributeError] (the shape of [None] is asked for): when the
    annotations before it are converted, the run is their events and
    nothing more, so that no Labelme file is created for the annotation
    of that image, whatever its regions are. *)
Theorem via2labelme_unreadable_image (w : @world A) (input_dir output_dir : string)
  (poly_file : string) (pre : list (@via_annotation A)) (va : @via_annotation A)
  (post : list (@via_annotation A)) :
  glob_glob (listdir w) (input_dir +:+ "*.json") = [poly_file] ->
  map snd (load_via w poly_file) = pre ++ va :: post ->
  (forall va', In va' pre -> annotation_ready w input_dir output_dir va') ->
  imread w (os_path_join input_dir (filename va)) = None ->
  via2labelme w input_dir output_dir
  = (concat (zip_with (annotation_events w input_dir output_dir)
               (seq 0 (length pre)) pre), Exc AttributeError).
Proof.
  intros Hglob Hvas Hready Him.
  unfold via2labelme. rewrite Hglob, Hvas.
  rewrite (via2labelme_annotations_stop w input_dir output_dir pre va post 0
             [] (Exc AttributeError) Hready).
  - rewrite app_nil_r. reflexivity.
  - unfold via2labelme_annotation. rewrite Him. reflexivity.
  - discriminate.
Qed.

End LabelmeRuns.

(** *** The round trip through VIA, file by file *)

Section RoundTripFiles.

Context {A : Type} `{NumA : Number A}.









End RoundTripFiles.

(** *** When the converters to YOLO run to their end *)

Section YoloCompletes.

Context {A : Type} `{NumA : Number A} `{ReprA : Repr A}.

Lemma snd_bind_ok_iff {C X Y} (m : io C X) (k : X -> io C Y) (b : Y) :
  snd (bind m k) = Ok b <-> exists a, snd m = Ok a /\ snd (k a) = Ok b.
Proof.
  destruct m as [t [a | v | e]]; simpl.
  - destruct (k a) as [t' r] eqn:Hk. simpl. split.
    + intros ->. exists a. rewrite Hk. split; reflexivity.
    + intros (a' & [= <-] & Hr). rewrite Hk in Hr. exact Hr.
  - split; [discriminate | intros (a & Ha & _); discriminate].
  - split; [discriminate | intros (a & Ha & _); discriminate].
Qed.

Lemma snd_seq_ok_iff {C Y} (m : io C unit) (k : io C Y) (b : Y) :
  snd (bind m (fun _ => k)) = Ok b <-> snd m = Ok tt /\ snd k = Ok b.
Proof.
  rewrite snd_bind_ok_iff. split.
  - intros ([] & Hm & Hk). split; assumption.
  - intros [Hm Hk]. exists tt. split; assumption.
Qed.

Lemma for_each_ok_iff {C X} (body : X -> io C unit) (l : list X) :
  snd (for_each body l) = Ok tt <-> forall x, In x l -> snd (body x) = Ok tt.
Proof.
  induction l as [| x l IH]; cbn [for_each].
  - split; [intros _ x [] | reflexivity].
  - rewrite snd_seq_ok_iff, IH. split.
    + intros [Hx Hl] x' [<- | Hx']; [exact Hx | apply Hl; exact Hx'].
    + intros Hall. split; [apply Hall; left; reflexivity |].
      intros x' Hx'. apply Hall. right. exact Hx'.
Qed.

Lemma index_ok_iff (x : string) (l : list string) :
  (exists i, index x l = Ok i) <-> In x l.
Proof.
  split.
  - intros [i Hi]. destruct (in_dec string_dec x l) as [Hin | Hnot]; [exact Hin |].
    rewrite (index_not_In x l Hnot) in Hi. discriminate.
  - intros Hin. destruct (index_In x l Hin) as (i & Hi & _). exists i. exact Hi.
Qed.

Lemma rect_box_yolo_ok_iff (pts : list (jnum A * jnum A)) (img_dims : A * A) :
  (exists box, rect_box_yolo (np_array pts) img_dims = Ok box)
  <-> (2 <= length pts)%nat.
Proof.
  destruct pts as [| p0 [| p1 pts]]; simpl; split;
    try (intros [box Hb]; discriminate); try lia;
    intros _; eexists; reflexivity.
Qed.

Lemma poly_box_yolo_ok_iff (pts : list (jnum A * jnum A)) (img_dims : A * A) :
  (exists box, poly_box_yolo (np_array pts) img_dims = Ok box)
  <-> (1 <= length pts)%nat.
Proof.
  destruct pts as [| p0 pts]; simpl; split;
    try (intros [box Hb]; discriminate); try lia;
    intros _; eexists; reflexivity.
Qed.

Lemma labelmerect2yolo_shape_ok_iff (label_list : list string * list Z)
  (img_dims : A * A) (yolo_outfile : string) (sh : @shape A) :
  snd (labelmerect2yolo_shape label_list img_dims yolo_outfile sh) = Ok tt
  <-> (shape_type sh = "rectangle" ->
       In (label sh) (fst label_list) /\ (2 <= length (points sh))%nat).
Proof.
  unfold labelmerect2yolo_shape.
  destruct (String.eqb_spec (shape_type sh) "rectangle") as [Hk | Hk]; cbn [negb].
  - rewrite <- index_ok_iff, <- (rect_box_yolo_ok_iff (points sh) img_dims).
    destruct (index (label sh) (fst label_list)) as [i | v | e];
      destruct (rect_box_yolo (np_array (points sh)) img_dims) as [box | v' | e'];
      cbn; split;
      try discriminate;
      try (intros _ _; split; eexists; reflexivity);
      try reflexivity;
      intros H; destruct (H Hk) as [[? ?] [? ?]]; discriminate.
  - split; [intros _ Hk'; contradiction | reflexivity].
Qed.

Lemma labelmepoly2yolo_shape_ok_iff (label_list : list string * list Z)
  (img_dims : A * A) (yolo_outfile : string) (sh : @shape A) :
  snd (labelmepoly2yolo_shape label_list img_dims yolo_outfile sh) = Ok tt
  <-> (shape_type sh = "polygon" ->
       In (label sh) (fst label_list) /\ (1 <= length (points sh))%nat).
Proof.
  unfold labelmepoly2yolo_shape.
  destruct (String.eqb_spec (shape_type sh) "polygon") as [Hk | Hk]; cbn [negb].
  - rewrite <- index_ok_iff, <- (poly_box_yolo_ok_iff (points sh) img_dims).
    destruct (index (label sh) (fst label_list)) as [i | v | e];
      destruct (poly_box_yolo (np_array (points sh)) img_dims) as [box | v' | e'];
      cbn; split;
      try discriminate;
      try (intros _ _; split; eexists; reflexivity);
      try reflexivity;
      intros H; destruct (H Hk) as [[? ?] [? ?]]; discriminate.
  - split; [intros _ Hk'; contradiction | reflexivity].
Qed.

Lemma copyfile_ok_iff (w : @world A) (src dst : string) :
  snd (copyfile w src dst) = Ok tt <-> copy_ready w src dst.
Proof.
  split.
  - apply copyfile_ok_inv.
  - intros Hc. rewrite (copyfile_ok w src dst Hc). reflexivity.
Qed.

(** The body of the loop over the files gets to its end exactly on a
    file that is ready. *)
Lemma labelmerect2yolo_file_ok_iff (w : @world A) output_dir label_list poly_file :
  snd (labelmerect2yolo_file w output_dir label_list poly_file) = Ok tt
  <-> yolo_ready w output_dir label_list "rectangle" 2 poly_file.
Proof.
  unfold labelmerect2yolo_file, yolo_ready.
  rewrite (detect_image_format_of (load_labelme w poly_file)).
  rewrite bind_pair_ok. cbn [snd].
  rewrite !snd_seq_ok_iff, for_each_ok_iff, copyfile_ok_iff.
  change (replace ".json" (image_format_of (load_labelme w poly_file)) poly_file)
    with (image_path_of w poly_file).
  change (output_dir
            +:+ replace ".txt" (image_format_of (load_labelme w poly_file))
                  (replace ".json" ".txt" (last_part (split "/" poly_file))))
    with (yolo_image_of w output_dir poly_file).
  split.
  - intros (_ & _ & Hshapes & Him). split; [| exact Him].
    intros sh Hsh. eapply labelmerect2yolo_shape_ok_iff.
    apply Hshapes. exact Hsh.
  - intros [Hshapes Him]. split; [reflexivity |]. split; [reflexivity |].
    split; [| exact Him].
    intros sh Hsh. apply labelmerect2yolo_shape_ok_iff. apply Hshapes. exact Hsh.
Qed.

Lemma labelmepoly2yolo_file_ok_iff (w : @world A) output_dir label_list poly_file :
  snd (labelmepoly2yolo_file w output_dir label_list poly_file) = Ok tt
  <-> yolo_ready w output_dir label_list "polygon" 1 poly_file.
Proof.
  unfold labelmepoly2yolo_file, yolo_ready.
  rewrite (detect_image_format_of (load_labelme w poly_file)).
  rewrite bind_pair_ok. cbn [snd].
  rewrite !snd_seq_ok_iff, for_each_ok_iff, copyfile_ok_iff.
  change (replace ".json" (image_format_of (load_labelme w poly_file)) poly_file)
    with (image_path_of w poly_file).
  change (output_dir
            +:+ replace ".txt" (image_format_of (load_labelme w poly_file))
                  (replace ".json" ".txt" (last_part (split "/" poly_file))))
    with (yolo_image_of w output_dir poly_file).
  split.
  - intros (_ & _ & Hshapes & Him). split; [| exact Him].
    intros sh Hsh. eapply labelmepoly2yolo_shape_ok_iff.
    apply Hshapes. exact Hsh.
  - intros [Hshapes Him]. split; [reflexivity |]. split; [reflexivity |].
    split; [| exact Him].
    intros sh Hsh. apply labelmepoly2yolo_shape_ok_iff. apply Hshapes. exact Hsh.
Qed.

Lemma write_classes_ok_iff (classes_path : string) (label_list : list string * list Z) :
  snd (@write_classes A classes_path label_list) = Ok tt
  <-> length (fst label_list) = length (snd label_list).
Proof.
  unfold write_classes.
  rewrite !snd_seq_ok_iff, for_each_ok_iff.
  destruct (Nat.eqb_spec (length (fst label_list)) (length (snd label_list)))
    as [Heq | Hne]; split.
  - intros _. exact Heq.
  - intros _. split; [reflexivity |]. split; [reflexivity |].
    split; [reflexivity |]. intros [l i] _. reflexivity.
  - intros (_ & _ & Hr & _). discriminate.
  - intros Heq. contradiction.
Qed.

Lemma labelmerect2yolo_ok_iff (w : @world A) input_dir output_dir label_list :
  snd (labelmerect2yolo w input_dir output_dir label_list) = Ok tt
  <-> (forall p, In p (glob_glob (listdir w) (input_dir +:+ "*.json")) ->
                 yolo_ready w output_dir label_list "rectangle" 2 p)
      /\ length (fst label_list) = length (snd label_list).
Proof.
  unfold labelmerect2yolo.
  rewrite snd_seq_ok_iff, for_each_ok_iff, write_classes_ok_iff.
  split; intros [Hfiles Hlen]; (split; [| exact Hlen]); intros p Hp;
    apply (labelmerect2yolo_file_ok_iff w output_dir label_list p);
    apply Hfiles; exact Hp.
Qed.

Lemma labelmepoly2yolo_ok_iff (w : @world A) input_dir output_dir label_list :
  snd (labelmepoly2yolo w input_dir output_dir label_list) = Ok tt
  <-> (forall p, In p (glob_glob (listdir w) (input_dir +:+ "*.json")) ->
                 yolo_ready w output_dir label_list "polygon" 1 p)
      /\ length (fst label_list) = length (snd label_list).
Proof.
  unfold labelmepoly2yolo.
  rewrite snd_seq_ok_iff, for_each_ok_iff, write_classes_ok_iff.
  split; intros [Hfiles Hlen]; (split; [| exact Hlen]); intros p Hp;
    apply (labelmepoly2yolo_file_ok_iff w output_dir label_list p);
    apply Hfiles; exact Hp.
Qed.

(** The loop over the shapes gets to its end exactly when every shape
    of the kind has its label in the table and enough points. *)
Lemma labelmerect2yolo_loop_ok_iff (label_list : list string * list Z)
  (img_dims : A * A) (yolo_outfile : string) (poly_shapes : list (@shape A)) :
  snd (for_each (labelmerect2yolo_shape label_list img_dims yolo_outfile) poly_shapes)
  = Ok tt
  <-> forall sh, In sh poly_shapes -> shape_type sh = "rectangle" ->
                 In (label sh) (fst label_list) /\ (2 <= length (points sh))%nat.
Proof.
  rewrite for_each_ok_iff. split; intros Hall sh Hsh.
  - apply labelmerect2yolo_shape_ok_iff with (img_dims := img_dims)
      (yolo_outfile := yolo_outfile). apply Hall. exact Hsh.
  - apply labelmerect2yolo_shape_ok_iff. apply Hall. exact Hsh.
Qed.

Lemma labelmepoly2yolo_loop_ok_iff (label_list : list string * list Z)
  (img_dims : A * A) (yolo_outfile : string) (poly_shapes : list (@shape A)) :
  snd (for_each (labelmepoly2yolo_shape label_list img_dims yolo_outfile) poly_shapes)
  = Ok tt
  <-> forall sh, In sh poly_shapes -> shape_type sh = "polygon" ->
                 In (label sh) (fst label_list) /\ (1 <= length (points sh))%nat.
Proof.
  rewrite for_each_ok_iff. split; intros Hall sh Hsh.
  - apply labelmepoly2yolo_shape_ok_iff with (img_dims := img_dims)
      (yolo_outfile := yolo_outfile). apply Hall. exact Hsh.
  - apply labelmepoly2yolo_shape_ok_iff. apply Hall. exact Hsh.
Qed.

(** X18. The loop over the shapes of [labelmerect2yolo] gets to its end
    exactly when every rectangle has its label in the table and at
    least two points, and the loop of [labelmepoly2yolo] exactly when
    every polygon has its label in the table and at least one point:
    shapes of another kind never stop it.  When [labelmerect2yolo]
    runs to its end, the two lists of the table have the same length
    and, for every JSON file of the directory, the loop was such a
    loop, the image was there and it was copied to the output
    directory, to another file than itself; and so for
    [labelmepoly2yolo]. *)
Theorem yolo_run_to_the_end (w : @world A) (input_dir output_dir : string)
  (label_list : list string * list Z) :
  (forall img_dims yolo_outfile poly_shapes,
      snd (for_each (labelmerect2yolo_shape label_list img_dims yolo_outfile)
             poly_shapes) = Ok tt
      <-> forall sh, In sh poly_shapes -> shape_type sh = "rectangle" ->
                     In (label sh) (fst label_list)
                     /\ (2 <= length (points sh))%nat)
  /\ (forall img_dims yolo_outfile poly_shapes,
         snd (for_each (labelmepoly2yolo_shape label_list img_dims yolo_outfile)
                poly_shapes) = Ok tt
         <-> forall sh, In sh poly_shapes -> shape_type sh = "polygon" ->
                        In (label sh) (fst label_list)
                        /\ (1 <= length (points sh))%nat)
  /\ (snd (labelmerect2yolo w input_dir output_dir label_list) = Ok tt ->
      (forall p, In p (glob_glob (listdir w) (input_dir +:+ "*.json")) ->
                 yolo_ready w output_dir label_list "rectangle" 2 p)
      /\ length (fst label_list) = length (snd label_list))
  /\ (snd (labelmepoly2yolo w input_dir output_dir label_list) = Ok tt ->
      (forall p, In p (glob_glob (listdir w) (input_dir +:+ "*.json")) ->
                 yolo_ready w output_dir label_list "polygon" 1 p)
      /\ length (fst label_list) = length (snd label_list)).
Proof.
  split; [intros; apply labelmerect2yolo_loop_ok_iff |].
  split; [intros; apply labelmepoly2yolo_loop_ok_iff |].
  split; [apply labelmerect2yolo_ok_iff | apply labelmepoly2yolo_ok_iff].
Qed.

End YoloCompletes.

(** *** The command line *)

Section CommandLine.

Context {A : Type} `{NumA : Number A} `{ReprA : Repr A}.

Variable labelmepoly2yolov4c :
  @world A -> string -> string -> list string * list Z -> io (@content A) unit.

Lemma main_prefix (w : @world A) (input_dir : string) (k : io (@content A) unit) :
  bind (match glob_glob (listdir w) (input_dir +:+ "*.json") with
        | [] => print (no_json_warning input_dir)
        | _ => ret tt
        end) (fun _ => k)
  = (json_warning w input_dir ++ fst k, snd k).
Proof.
  unfold json_warning.
  destruct (glob_glob (listdir w) (input_dir +:+ "*.json")); destruct k; reflexivity.
Qed.

Lemma call_statement_fst {C} (m : io C unit) : fst (call_statement m) = fst m.
Proof. destruct m as [t [[] | v | e]]; reflexivity. Qed.

Lemma call_statement_snd {C} (m : io C unit) :
  snd (call_statement m) = Ok tt \/ exists e, snd (call_statement m) = Exc e.
Proof.
  destruct m as [t [[] | v | e]]; simpl;
    [left; reflexivity | left; reflexivity | right; exists e; reflexivity].
Qed.

Lemma call_statement_ok_iff {C} (m : io C unit) :
  snd (call_statement m) = Ok tt <-> snd m = Ok tt \/ exists v, snd m = Ret v.
Proof.
  destruct m as [t [[] | v | e]]; simpl; split.
  - intros _. left. reflexivity.
  - reflexivity.
  - intros _. right. exists v. reflexivity.
  - reflexivity.
  - discriminate.
  - intros [Hm | [v Hm]]; discriminate.
Qed.

(** The converters to YOLO have no [return]. *)
Lemma snd_bind_not_ret {C X Y} (m : io C X) (k : X -> io C Y) :
  (forall v, snd m <> Ret v) -> (forall a v, snd (k a) <> Ret v) ->
  forall v, snd (bind m k) <> Ret v.
Proof.
  destruct m as [t [a | v | e]]; simpl; intros Hm Hk v'.
  - specialize (Hk a v'). destruct (k a). exact Hk.
  - exfalso. apply (Hm v). reflexivity.
  - discriminate.
Qed.

Lemma for_each_not_ret {C X} (body : X -> io C unit) (l : list X) :
  (forall x v, snd (body x) <> Ret v) -> forall v, snd (for_each body l) <> Ret v.
Proof.
  intros Hb. induction l as [| x l IH]; cbn [for_each]; [discriminate |].
  apply snd_bind_not_ret; [apply Hb | intros _; exact IH].
Qed.

Lemma index_not_ret (x : string) (l : list string) (v : Z) : index x l <> Ret v.
Proof.
  revert v. induction l as [| y l IH]; intros v; simpl; [discriminate |].
  destruct (String.eqb y x); [discriminate |].
  specialize (IH v). destruct (index x l); [discriminate | | discriminate].
  intros [= <-]. apply (IH eq_refl).
Qed.

Lemma copyfile_not_ret (w : @world A) src dst v : snd (copyfile w src dst) <> Ret v.
Proof.
  unfold copyfile. destruct (st_size w src); [| discriminate].
  destruct (same_file w src dst); [discriminate |].
  destruct (copy_error w dst); discriminate.
Qed.

Lemma write_classes_not_ret (classes_path : string)
  (label_list : list string * list Z) v :
  snd (@write_classes A classes_path label_list) <> Ret v.
Proof.
  revert v. unfold write_classes.
  apply snd_bind_not_ret; [discriminate | intros _].
  apply snd_bind_not_ret; [discriminate | intros _].
  apply snd_bind_not_ret;
    [destruct (Nat.eqb _ _); discriminate | intros _].
  apply for_each_not_ret. intros [l i] v. discriminate.
Qed.

Lemma labelmerect2yolo_not_ret (w : @world A) input_dir output_dir label_list v :
  snd (labelmerect2yolo w input_dir output_dir label_list) <> Ret v.
Proof.
  revert v. unfold labelmerect2yolo.
  apply snd_bind_not_ret; [| intros _ v; apply write_classes_not_ret].
  apply for_each_not_ret. intros p. unfold labelmerect2yolo_file.
  rewrite (detect_image_format_of (load_labelme w p)).
  apply snd_bind_not_ret; [discriminate | intros fmt].
  apply snd_bind_not_ret; [discriminate | intros _].
  apply snd_bind_not_ret; [discriminate | intros _].
  apply snd_bind_not_ret; [| intros _ v; apply copyfile_not_ret].
  apply for_each_not_ret. intros sh. unfold labelmerect2yolo_shape.
  destruct (negb _); [discriminate |].
  apply snd_bind_not_ret; [intros v; apply index_not_ret | intros i].
  apply snd_bind_not_ret; [| intros box v; discriminate].
  intros v. unfold rect_box_yolo.
  destruct (np_array (points sh)) as [| p0 [| p1 ?]]; discriminate.
Qed.

Lemma labelmepoly2yolo_not_ret (w : @world A) input_dir output_dir label_list v :
  snd (labelmepoly2yolo w input_dir output_dir label_list) <> Ret v.
Proof.
  revert v. unfold labelmepoly2yolo.
  apply snd_bind_not_ret; [| intros _ v; apply write_classes_not_ret].
  apply for_each_not_ret. intros p. unfold labelmepoly2yolo_file.
  rewrite (detect_image_format_of (load_labelme w p)).
  apply snd_bind_not_ret; [discriminate | intros fmt].
  apply snd_bind_not_ret; [discriminate | intros _].
  apply snd_bind_not_ret; [discriminate | intros _].
  apply snd_bind_not_ret; [| intros _ v; apply copyfile_not_ret].
  apply for_each_not_ret. intros sh. unfold labelmepoly2yolo_shape.
  destruct (negb _); [discriminate |].
  apply snd_bind_not_ret; [intros v; apply index_not_ret | intros i].
  apply snd_bind_not_ret; [| intros box v; discriminate].
  intros v. unfold poly_box_yolo, poly_box.
  destruct (np_array (points sh)) as [| p0 ?]; discriminate.
Qed.

(** With the table of the directory itself, the labels are in the table
    and the two lists of the table are as long. *)
Lemma own_table_label (w : @world A) (input_dir : string) (p : string)
  (sh : @shape A) :
  In p (glob_glob (listdir w) (input_dir +:+ "*.json")) ->
  In sh (shapes (load_labelme w p)) ->
  In (label sh) (fst (extract_labelme_labels w input_dir)).
Proof.
  intros Hp Hsh. apply (table_labels w input_dir). exists p, sh.
  split; [exact Hp |]. split; [exact Hsh | reflexivity].
Qed.

Lemma own_table_lengths (w : @world A) (input_dir : string) :
  length (fst (extract_labelme_labels w input_dir))
  = length (snd (extract_labelme_labels w input_dir)).
Proof.
  unfold extract_labelme_labels. cbn [fst snd].
  rewrite length_map, length_seq. reflexivity.
Qed.

Lemma main_yolo_ok (w : @world A) (input_dir : string)
  (m : io (@content A) unit) :
  (forall v, snd m <> Ret v) ->
  snd (bind (match glob_glob (listdir w) (input_dir +:+ "*.json") with
             | [] => print (no_json_warning input_dir)
             | _ => ret tt
             end) (fun _ => call_statement m)) = Ok tt ->
  snd m = Ok tt.
Proof.
  intros Hret. rewrite main_prefix. cbn [snd]. rewrite call_statement_ok_iff.
  intros [Hm | [v Hv]]; [exact Hm | exfalso; apply (Hret v Hv)].
Qed.

(** X19. Through the command line, where the table is made from the
    directory that is converted, the label of a shape is never missing
    from the table: for every JSON file of the directory, the loop over
    its shapes gets to its end exactly when every rectangle has at
    least two points (every polygon at least one point, for
    [labelmepoly_to_yolo]).  When [labelmerect_to_yolo] ends normally,
    every rectangle of every file had at least two points, and every
    image was there and was copied to the output directory, to another
    file than itself; and so for [labelmepoly_to_yolo] and the polygons
    of at least one point. *)
Theorem main_yolo_run_to_the_end (w : @world A) (input_dir output_dir : string) :
  (forall p img_dims yolo_outfile,
      In p (glob_glob (listdir w) (input_dir +:+ "*.json")) ->
      (snd (for_each
              (labelmerect2yolo_shape (extract_labelme_labels w input_dir)
                 img_dims yolo_outfile)
              (shapes (load_labelme w p))) = Ok tt
       <-> forall sh, In sh (shapes (load_labelme w p)) ->
                      shape_type sh = "rectangle" ->
                      (2 <= length (points sh))%nat)
      /\ (snd (for_each
                 (labelmepoly2yolo_shape (extract_labelme_labels w input_dir)
                    img_dims yolo_outfile)
                 (shapes (load_labelme w p))) = Ok tt
          <-> forall sh, In sh (shapes (load_labelme w p)) ->
                         shape_type sh = "polygon" ->
                         (1 <= length (points sh))%nat))
  /\ (snd (main labelmepoly2yolov4c w "labelmerect_to_yolo" input_dir (Some output_dir))
      = Ok tt ->
      forall p, In p (glob_glob (listdir w) (input_dir +:+ "*.json")) ->
                (forall sh, In sh (shapes (load_labelme w p)) ->
                            shape_type sh = "rectangle" ->
                            (2 <= length (points sh))%nat)
                /\ copy_ready w (image_path_of w p) (yolo_image_of w output_dir p))
  /\ (snd (main labelmepoly2yolov4c w "labelmepoly_to_yolo" input_dir (Some output_dir))
      = Ok tt ->
      forall p, In p (glob_glob (listdir w) (input_dir +:+ "*.json")) ->
                (forall sh, In sh (shapes (load_labelme w p)) ->
                            shape_type sh = "polygon" ->
                            (1 <= length (points sh))%nat)
                /\ copy_ready w (image_path_of w p) (yolo_image_of w output_dir p)).
Proof.
  split; [| split].
  - intros p img_dims yolo_outfile Hp. split.
    + rewrite labelmerect2yolo_loop_ok_iff. split.
      * intros Hall sh Hsh Hk. apply (Hall sh Hsh Hk).
      * intros Hall sh Hsh Hk. split; [| apply (Hall sh Hsh Hk)].
        apply (own_table_label w input_dir p sh Hp Hsh).
    + rewrite labelmepoly2yolo_loop_ok_iff. split.
      * intros Hall sh Hsh Hk. apply (Hall sh Hsh Hk).
      * intros Hall sh Hsh Hk. split; [| apply (Hall sh Hsh Hk)].
        apply (own_table_label w input_dir p sh Hp Hsh).
  - change (main labelmepoly2yolov4c w "labelmerect_to_yolo" input_dir (Some output_dir))
      with (bind (match glob_glob (listdir w) (input_dir +:+ "*.json") with
                  | [] => print (no_json_warning input_dir)
                  | _ => ret tt
                  end)
              (fun _ => call_statement
                          (labelmerect2yolo w input_dir output_dir
                             (extract_labelme_labels w input_dir)))).
    intros Hr. apply main_yolo_ok in Hr; [| intros v; apply labelmerect2yolo_not_ret].
    apply labelmerect2yolo_ok_iff in Hr. destruct Hr as [Hfiles _].
    intros p Hp. destruct (Hfiles p Hp) as [Hshapes Hcopy].
    split; [| exact Hcopy]. intros sh Hsh Hk. apply (Hshapes sh Hsh Hk).
  - change (main labelmepoly2yolov4c w "labelmepoly_to_yolo" input_dir (Some output_dir))
      with (bind (match glob_glob (listdir w) (input_dir +:+ "*.json") with
                  | [] => print (no_json_warning input_dir)
                  | _ => ret tt
                  end)
              (fun _ => call_statement
                          (labelmepoly2yolo w input_dir output_dir
                             (extract_labelme_labels w input_dir)))).
    intros Hr. apply main_yolo_ok in Hr; [| intros v; apply labelmepoly2yolo_not_ret].
    apply labelmepoly2yolo_ok_iff in Hr. destruct Hr as [Hfiles _].
    intros p Hp. destruct (Hfiles p Hp) as [Hshapes Hcopy].
    split; [| exact Hcopy]. intros sh Hsh Hk. apply (Hshapes sh Hsh Hk).
Qed.

(** X20. Without [--output_dir], each of the five commands that convert
    prints that the parameter is required and does nothing else; a
    command that is none of the six prints that it is not recognized,
    whatever [--output_dir] is.  In both cases the run ends normally,
    after the warning about a directory without JSON files if there is
    none. *)
Theorem main_prints_and_stops (w : @world A) (command input_dir : string) :
  (In command converting_commands ->
   main labelmepoly2yolov4c w command input_dir None
   = (json_warning w input_dir ++ [Print output_dir_error], Ok tt))
  /\ (~ In command commands ->
      forall output_dir,
        main labelmepoly2yolov4c w command input_dir output_dir
        = (json_warning w input_dir ++ [Print (not_recognized_error command)], Ok tt)).
Proof.
  split.
  - intros Hc. unfold converting_commands in Hc. cbn [In] in Hc.
    destruct Hc as [<- | [<- | [<- | [<- | [<- | []]]]]];
      unfold main; cbn [String.eqb Ascii.eqb Bool.eqb];
      apply (main_prefix w input_dir (print output_dir_error)).
  - intros Hc output_dir. unfold main.
    repeat match goal with
           | |- context [ String.eqb command ?c ] =>
               destruct (String.eqb_spec command c) as [-> | _];
               [exfalso; apply Hc; unfold commands, converting_commands;
                cbn [app In]; tauto |]
           end.
    apply (main_prefix w input_dir (print (not_recognized_error command))).
Qed.

(** X21. The command line never ends with a returned value: the 1 that
    [labelme2via] and [via2labelme] return after an error message is
    dropped, so that the run ends normally or with an exception.  In
    particular [via_to_labelme] on a directory without a JSON file
    prints the warning and the error and ends normally, and
    [create_empty_txt_yolo] always ends with [TypeError], after the
    warning if there is one. *)
Theorem main_drops_return_values (w : @world A) (command input_dir : string)
  (output_dir : option string) :
  (snd (main labelmepoly2yolov4c w command input_dir output_dir) = Ok tt
   \/ exists e, snd (main labelmepoly2yolov4c w command input_dir output_dir) = Exc e)
  /\ (glob_glob (listdir w) (input_dir +:+ "*.json") = [] ->
      forall o,
        main labelmepoly2yolov4c w "via_to_labelme" input_dir (Some o)
        = ([Print (no_json_warning input_dir); Print no_file_error], Ok tt))
  /\ main labelmepoly2yolov4c w "create_empty_txt_yolo" input_dir output_dir
     = (json_warning w input_dir, Exc TypeError).
Proof.
  split; [| split].
  - unfold main. rewrite main_prefix. cbn [snd].
    repeat match goal with
           | |- context [ if ?b then _ else _ ] => destruct b
           | |- context [ match output_dir with _ => _ end ] => destruct output_dir
           end;
      try apply call_statement_snd; left; reflexivity.
  - intros Hglob o.
    change (main labelmepoly2yolov4c w "via_to_labelme" input_dir (Some o))
      with (bind (match glob_glob (listdir w) (input_dir +:+ "*.json") with
                  | [] => print (no_json_warning input_dir)
                  | _ => ret tt
                  end)
              (fun _ => call_statement (via2labelme w input_dir o))).
    unfold via2labelme. rewrite Hglob. reflexivity.
  - change (main labelmepoly2yolov4c w "create_empty_txt_yolo" input_dir output_dir)
      with (bind (match glob_glob (listdir w) (input_dir +:+ "*.json") with
                  | [] => print (no_json_warning input_dir)
                  | _ => ret tt
                  end)
              (fun _ => call_statement
                          (create_empty_txt_yolo w input_dir default_image_format))).
    rewrite main_prefix, create_empty_txt_yolo_TypeError.
    cbn [call_statement fst snd]. rewrite app_nil_r. reflexivity.
Qed.

End CommandLine.

(** *** The name of the Labelme file *)

Section Names.

Lemma replace_go_skip_all (old new s : string) :
  replace_go old new (String.length s) s = EmptyString.
Proof.
  induction s as [| c s IH]; [reflexivity |]. cbn [String.length replace_go]. exact IH.
Qed.

Lemma prefix_refl (s : string) : String.prefix s s = true.
Proof.
  induction s as [| c s IH]; [reflexivity |].
  cbn [String.prefix]. destruct (ascii_dec c c); [exact IH | contradiction].
Qed.

Lemma replace_whole (new s : string) : replace s new s = new.
Proof.
  destruct s as [| c s]; [reflexivity |].
  unfold replace. cbn [replace_go]. rewrite (prefix_refl (String c s)).
  replace (String.length (String c s) - 1)%nat with (String.length s)
    by (cbn [String.length]; lia).
  rewrite replace_go_skip_all.
  apply append_nil_r.
Qed.

(** X22. A file name without a dot has itself as its last part after a
    split on the dot, and the replacement of that part by [json]
    replaces the whole name: [via2labelme] writes the Labelme dict of
    every such image to the one file [json] of the output directory. *)
Theorem lme_ann_name_without_dot (file_name : string) :
  ~ In "."%char (list_ascii_of_string file_name) ->
  lme_ann_name file_name = "json".
Proof.
  intros Hdot. unfold lme_ann_name.
  rewrite (split_no_sep "." file_name Hdot). unfold last_part. cbn [List.last].
  apply replace_whole.
Qed.

End Names.

(** *** The further properties on the scenarios *)

Section Examples.

Import Scenario Cases Binary64.

(** The cat of the mixed directory is the first label of its table. *)
Lemma table_lookup_witness :
  In "in/img.json" (glob_glob (listdir mixed_world) ("in/" +:+ "*.json"))
  /\ In cat_shape (shapes (load_labelme mixed_world "in/img.json"))
  /\ fst (extract_labelme_labels mixed_world "in/") = ["cat"; "dog"]
  /\ exists i,
      index (label cat_shape) (fst (extract_labelme_labels mixed_world "in/")) = Ok i
      /\ 0 <= i < 2
      /\ nth (Z.to_nat i) (snd (extract_labelme_labels mixed_world "in/")) (-1) = i.
Proof.
  assert (Hfile : In "in/img.json"
                    (glob_glob (listdir mixed_world) ("in/" +:+ "*.json")))
    by (vm_compute; left; reflexivity).
  assert (Hin : In cat_shape (shapes (load_labelme mixed_world "in/img.json")))
    by (simpl; right; left; reflexivity).
  pose proof (table_lookup mixed_world "in/" "in/img.json" cat_shape Hfile Hin) as H.
  cbv zeta in H. destruct H as [(i & Hi & Hr & _ & Hid) _].
  split; [exact Hfile |]. split; [exact Hin |]. split; [vm_compute; reflexivity |].
  exists i. split; [exact Hi |]. split; [exact Hr | exact Hid].
Defined.

Local Open Scope Q_scope.

Lemma poly_box_yolo_in_unit_square_witness :
  (1 <= length inner_points)%nat
  /\ exists cx cy bw bh,
      poly_box_yolo inner_points inner_dims = Ok [cx; cy; bw; bh]
      /\ 0 <= bw <= 1 /\ 0 <= bh <= 1
      /\ 0 <= cx - bw / 2 /\ cx + bw / 2 <= 1
      /\ 0 <= cy - bh / 2 /\ cy + bh / 2 <= 1.
Proof.
  split; [simpl; lia |].
  destruct (poly_box_yolo_in_unit_square inner_points inner_dims)
    as (cx & cy & bw & bh & Hbox & Hw & Hh & Hx0 & Hx1 & Hy0 & Hy1 & _).
  - simpl. lia.
  - reflexivity.
  - reflexivity.
  - intros p Hp. simpl in Hp.
    destruct Hp as [<- | [<- | [<- | []]]]; simpl; unfold Qle; simpl; lia.
  - exists cx, cy, bw, bh. tauto.
Defined.

Lemma rect_box_is_poly_box_witness :
  exists cx cy bw bh cx' cy' bw' bh',
    rect_box_yolo cat_corners cat_dims = Ok [cx; cy; bw; bh]
    /\ poly_box_yolo cat_corners cat_dims = Ok [cx'; cy'; bw'; bh']
    /\ cx == cx' /\ cy == cy' /\ bw == bw' /\ bh == bh'.
Proof.
  apply (rect_box_is_poly_box (10 # 1, 10 # 1) (50 # 1, 40 # 1) cat_dims);
    reflexivity.
Defined.

Lemma rect_box_yolo_in_unit_square_witness :
  exists cx cy bw bh,
    rect_box_yolo cat_corners cat_dims = Ok [cx; cy; bw; bh]
    /\ 0 <= bw <= 1 /\ 0 <= bh <= 1
    /\ 0 <= cx - bw / 2 /\ cx + bw / 2 <= 1
    /\ 0 <= cy - bh / 2 /\ cy + bh / 2 <= 1.
Proof.
  apply (rect_box_yolo_in_unit_square (10 # 1, 10 # 1) (50 # 1, 40 # 1) cat_dims []);
    try reflexivity; simpl; unfold Qle; simpl; lia.
Defined.

Lemma poly_box_point_order_witness :
  Permutation inner_points inner_points_permuted
  /\ exists cx cy bw bh cx' cy' bw' bh',
      poly_box inner_points = Ok (cx, cy, bw, bh)
      /\ poly_box inner_points_permuted = Ok (cx', cy', bw', bh')
      /\ cx == cx' /\ cy == cy' /\ bw == bw' /\ bh == bh'.
Proof.
  assert (Hperm : Permutation inner_points inner_points_permuted).
  { unfold inner_points, inner_points_permuted. symmetry.
    apply (Permutation_cons_app [(7 # 2, 10 # 1); (90 # 1, 5 # 4)] []).
    rewrite app_nil_r. reflexivity. }
  split; [exact Hperm |].
  apply (poly_box_point_order inner_points inner_points_permuted);
    [simpl; lia | exact Hperm].
Defined.

Local Close Scope Q_scope.

(** The polygon and the rectangle of the mixed directory, through the
    shape loop of either converter. *)
Lemma labelmerect2yolo_lines_witness :
  snd (for_each
         (labelmerect2yolo_shape (["cat"; "dog"], [0; 1])
            (float_of_Z 100, float_of_Z 100) "out/img.txt")
         [dog_shape; cat_shape]) = Ok tt
  /\ file_text "out/img.txt"
       (Open "out/img.txt" W :: Open "out/img.txt" Py.A
          :: fst (for_each
                    (labelmerect2yolo_shape (["cat"; "dog"], [0; 1])
                       (float_of_Z 100, float_of_Z 100) "out/img.txt")
                    [dog_shape; cat_shape]))
     = Some ("0 0.3 0.25 0.4 0.3" +:+ nl)
  /\ List.filter is_print
       (fst (for_each
               (labelmerect2yolo_shape (["cat"; "dog"], [0; 1])
                  (float_of_Z 100, float_of_Z 100) "out/img.txt")
               [dog_shape; cat_shape]))
     = [Print rect_warning].
Proof.
  pose proof (labelmerect2yolo_lines (["cat"; "dog"], [0; 1])
                (float_of_Z 100, float_of_Z 100) "out/img.txt"
                [dog_shape; cat_shape]) as H.
  cbv zeta in H. destruct H as (H1 & H2 & H3).
  - intros sh Hsh Hk. simpl in Hsh.
    destruct Hsh as [<- | [<- | []]]; [discriminate Hk |].
    split; [simpl; tauto | simpl; lia].
  - split; [exact H1 |]. split.
    + rewrite H2. vm_compute. reflexivity.
    + rewrite H3. reflexivity.
Defined.

Lemma labelmepoly2yolo_lines_witness :
  snd (for_each
         (labelmepoly2yolo_shape (["cat"; "dog"], [0; 1])
            (float_of_Z 100, float_of_Z 100) "out/img.txt")
         [dog_shape; cat_shape]) = Ok tt
  /\ file_text "out/img.txt"
       (Open "out/img.txt" W :: Open "out/img.txt" Py.A
          :: fst (for_each
                    (labelmepoly2yolo_shape (["cat"; "dog"], [0; 1])
                       (float_of_Z 100, float_of_Z 100) "out/img.txt")
                    [dog_shape; cat_shape]))
     = Some ("1 0.06 0.045 0.06 0.07" +:+ nl)
  /\ List.filter is_print
       (fst (for_each
               (labelmepoly2yolo_shape (["cat"; "dog"], [0; 1])
                  (float_of_Z 100, float_of_Z 100) "out/img.txt")
               [dog_shape; cat_shape]))
     = [Print poly_warning].
Proof.
  pose proof (labelmepoly2yolo_lines (["cat"; "dog"], [0; 1])
                (float_of_Z 100, float_of_Z 100) "out/img.txt"
                [dog_shape; cat_shape]) as H.
  cbv zeta in H. destruct H as (H1 & H2 & H3).
  - intros sh Hsh Hk. simpl in Hsh.
    destruct Hsh as [<- | [<- | []]]; [| discriminate Hk].
    split; [simpl; tauto | simpl; lia].
  - split; [exact H1 |]. split.
    + rewrite H2. vm_compute. reflexivity.
    + rewrite H3. reflexivity.
Defined.

Lemma labelmerect2yolo_malformed_rectangle_witness :
  In "in/img.json" (glob_glob (listdir one_point_world) ("in/" +:+ "*.json"))
  /\ In one_point_rectangle (shapes (load_labelme one_point_world "in/img.json"))
  /\ snd (labelmerect2yolo one_point_world "in/" "out/" (["cat"], [0])) <> Ok tt
  /\ labelmerect2yolo_shape (["cat"], [0]) (float_of_Z 100, float_of_Z 100)
       "out/img.txt" one_point_rectangle
     = ([], Exc IndexError).
Proof.
  assert (Hfile : In "in/img.json"
                    (glob_glob (listdir one_point_world) ("in/" +:+ "*.json")))
    by (vm_compute; left; reflexivity).
  assert (Hin : In one_point_rectangle
                  (shapes (load_labelme one_point_world "in/img.json")))
    by (simpl; left; reflexivity).
  destruct (labelmerect2yolo_malformed_rectangle one_point_world "in/" "out/"
              (["cat"], [0]) "in/img.json" one_point_rectangle Hfile Hin)
    as (H1 & _ & H3).
  - reflexivity.
  - right. simpl. lia.
  - split; [exact Hfile |]. split; [exact Hin |]. split; [exact H1 |].
    apply H3; [simpl; tauto | simpl; lia].
Defined.

Lemma labelmepoly2yolo_malformed_polygon_witness :
  In "in/img.json" (glob_glob (listdir empty_polygon_world) ("in/" +:+ "*.json"))
  /\ In empty_polygon (shapes (load_labelme empty_polygon_world "in/img.json"))
  /\ snd (labelmepoly2yolo empty_polygon_world "in/" "out/" (["dog"], [0])) <> Ok tt
  /\ labelmepoly2yolo_shape (["dog"], [0]) (float_of_Z 100, float_of_Z 100)
       "out/img.txt" empty_polygon
     = ([], Exc IndexError).
Proof.
  assert (Hfile : In "in/img.json"
                    (glob_glob (listdir empty_polygon_world) ("in/" +:+ "*.json")))
    by (vm_compute; left; reflexivity).
  assert (Hin : In empty_polygon
                  (shapes (load_labelme empty_polygon_world "in/img.json")))
    by (simpl; left; reflexivity).
  destruct (labelmepoly2yolo_malformed_polygon empty_polygon_world "in/" "out/"
              (["dog"], [0]) "in/img.json" empty_polygon Hfile Hin)
    as (H1 & _ & H3).
  - reflexivity.
  - right. reflexivity.
  - split; [exact Hfile |]. split; [exact Hin |]. split; [exact H1 |].
    apply H3; [simpl; tauto | reflexivity].
Defined.

(** The document of the directory with the triangle. *)
Lemma labelme2via_document_witness :
  snd (labelme2via polygon_world "in/" "via/") = Ok tt
  /\ written_via (fst (labelme2via polygon_world "in/" "via/"))
     = [written_document polygon_world "in/" "via/"]
  /\ document_ok 1 (written_document polygon_world "in/" "via/")
  /\ map fst (written_document polygon_world "in/" "via/") = ["img.jpg1234"].
Proof.
  destruct (labelme2via_document polygon_world "in/" "via/"
              (written_document polygon_world "in/" "via/"))
    as (H1 & H2 & H3).
  - vm_compute. left. reflexivity.
  - split; [exact H1 |]. split; [exact H2 |]. split; [exact H3 |].
    vm_compute. reflexivity.
Defined.

Lemma labelme2via_converts_witness :
  snd (labelme2via polygon_world "in/" "via/") = Ok tt
  /\ file_ready polygon_world "in/" "via/" "in/img.json"
  /\ touched (fst (labelme2via polygon_world "in/" "via/"))
     = ["via/img.jpg"; "via/via_annotations.json"; "via/via_annotations.json"]
  /\ snd (labelme2via polygon_world "in/" "in/") = Exc SameFileError.
Proof.
  assert (Hr : snd (labelme2via polygon_world "in/" "via/") = Ok tt)
    by (vm_compute; reflexivity).
  destruct (labelme2via_converts polygon_world "in/" "via/" Hr) as (H1 & _ & H3).
  split; [exact Hr |]. split; [| split; [exact H3 | vm_compute; reflexivity]].
  apply H1. vm_compute. left. reflexivity.
Defined.

(** The corpus of two files without its second image: the first image
    is copied, and nothing else is done. *)
Lemma labelme2via_missing_image_witness :
  glob_glob (listdir missing_second_world) ("in/" +:+ "*.json")
  = ["in/a.json"] ++ "in/b.json" :: []
  /\ st_size missing_second_world (image_path_of missing_second_world "in/b.json")
     = None
  /\ snd (labelme2via missing_second_world "in/" "via/") = Exc FileNotFoundError
  /\ written_via (fst (labelme2via missing_second_world "in/" "via/")) = []
  /\ touched (fst (labelme2via missing_second_world "in/" "via/")) = ["via/a.jpg"].
Proof.
  assert (Hglob : glob_glob (listdir missing_second_world) ("in/" +:+ "*.json")
                  = ["in/a.json"] ++ "in/b.json" :: []) by reflexivity.
  destruct (labelme2via_missing_image missing_second_world "in/" "via/"
              ["in/a.json"] "in/b.json" [] Hglob) as (H1 & H2 & H3).
  - intros q [<- | []]. split; [| split].
    + intros sh Hsh. simpl in Hsh. destruct Hsh as [<- | []].
      split; [reflexivity | apply Q_has_ints].
    + simpl. eexists. reflexivity.
    + split; [simpl; eexists; reflexivity | split; reflexivity].
  - left. reflexivity.
  - split; [exact Hglob |]. split; [reflexivity |]. split; [exact H1 |].
    split; [exact H2 | exact H3].
Defined.

Lemma Q_region_ok (rg : @region Q) :
  name rg = "polygon" -> length (all_points_x rg) = length (all_points_y rg) ->
  region_ok rg.
Proof.
  intros Hn Hl. split; [exact Hn |]. split; [exact Hl |].
  intros [z | x] _; simpl; eexists; reflexivity.
Qed.

(** The document of two annotations: three events each, and the
    coordinates after [int]. *)
Lemma via2labelme_converts_witness :
  snd (via2labelme via_world "via/" "out/") = Ok tt
  /\ glob_glob (listdir via_world) ("via/" +:+ "*.json") = ["via/via_annotations.json"]
  /\ touched (fst (via2labelme via_world "via/" "out/"))
     = ["out/a.json"; "out/a.json"; "out/a.jpg";
        "out/b.json"; "out/b.json"; "out/b.png"]
  /\ map (fun a => (ann_imagePath a, ann_imageHeight a, ann_imageWidth a,
                    fillColor a, map points (ann_shapes a)))
       (written_labelme (fst (via2labelme via_world "via/" "out/")))
     = [("a.jpg", 48, 64, [0; 7; 9],
         [[(JInt 3, JInt 1); (JInt 9, JInt (-1)); (JInt 4, JInt 8)]]);
        ("b.png", 30, 40, [2; 7; 9],
         [[(JInt 0, JInt 0); (JInt 4, JInt 0); (JInt 0, JInt 3)];
          [(JInt 3, JInt 1); (JInt 9, JInt (-1)); (JInt 4, JInt 8)]])]
  /\ snd (via2labelme via_world "via/" "via/") = Exc SameFileError.
Proof.
  assert (Hr : snd (via2labelme via_world "via/" "out/") = Ok tt)
    by (vm_compute; reflexivity).
  destruct (via2labelme_converts via_world "via/" "out/" Hr)
    as (poly_file & Hglob & _ & H1 & H2).
  assert (Hfile : poly_file = "via/via_annotations.json").
  { assert (Hg : glob_glob (listdir via_world) ("via/" +:+ "*.json")
                 = ["via/via_annotations.json"]) by reflexivity.
    rewrite Hg in Hglob. injection Hglob as <-. reflexivity. }
  subst poly_file.
  split; [exact Hr |]. split; [exact Hglob |]. rewrite H2, H1. cbn [fst].
  split; [reflexivity |]. split; vm_compute; reflexivity.
Defined.

(** The document with a rectangle in its second annotation: the files
    of the first annotation are made, then the run stops. *)
Lemma via2labelme_other_shape_witness :
  glob_glob (listdir rect_second_via_world) ("via/" +:+ "*.json")
  = ["via/via_annotations.json"]
  /\ snd (via2labelme rect_second_via_world "via/" "out/") = Ret 1
  /\ touched (fst (via2labelme rect_second_via_world "via/" "out/"))
     = ["out/a.json"; "out/a.json"; "out/a.jpg"]
  /\ List.filter is_print (fst (via2labelme rect_second_via_world "via/" "out/"))
     = [Print via2labelme_error].
Proof.
  assert (Hglob : glob_glob (listdir rect_second_via_world) ("via/" +:+ "*.json")
                  = ["via/via_annotations.json"]) by reflexivity.
  split; [exact Hglob |].
  rewrite (via2labelme_other_shape rect_second_via_world "via/" "out/"
             "via/via_annotations.json"
             [{| filename := "a.jpg"; regions := [region_a]; size := 10 |}]
             {| filename := "b.png"; regions := [region_b; rect_region]; size := 20 |}
             [] [region_b] rect_region [] Hglob).
  - split; [reflexivity |]. split; reflexivity.
  - reflexivity.
  - intros va' [<- | []]. split.
    + split; [simpl; eexists; reflexivity |].
      split; [simpl; eexists; reflexivity | split; reflexivity].
    + intros rg Hrg. simpl in Hrg. destruct Hrg as [<- | []].
      apply Q_region_ok; reflexivity.
  - simpl. eexists. reflexivity.
  - reflexivity.
  - intros rg' Hrg'. simpl in Hrg'. destruct Hrg' as [<- | []].
    apply Q_region_ok; reflexivity.
  - simpl. discriminate.
Defined.

(** The document whose second image cannot be read. *)
Lemma via2labelme_unreadable_image_witness :
  glob_glob (listdir unreadable_second_via_world) ("via/" +:+ "*.json")
  = ["via/via_annotations.json"]
  /\ snd (via2labelme unreadable_second_via_world "via/" "out/")
     = Exc AttributeError
  /\ touched (fst (via2labelme unreadable_second_via_world "via/" "out/"))
     = ["out/a.json"; "out/a.json"; "out/a.jpg"].
Proof.
  assert (Hglob : glob_glob (listdir unreadable_second_via_world) ("via/" +:+ "*.json")
                  = ["via/via_annotations.json"]) by reflexivity.
  split; [exact Hglob |].
  rewrite (via2labelme_unreadable_image unreadable_second_via_world "via/" "out/"
             "via/via_annotations.json"
             [{| filename := "a.jpg"; regions := [region_a]; size := 10 |}]
             {| filename := "b.png"; regions := [region_b; region_a]; size := 20 |}
             [] Hglob).
  - split; reflexivity.
  - reflexivity.
  - intros va' [<- | []]. split.
    + split; [simpl; eexists; reflexivity |].
      split; [simpl; eexists; reflexivity | split; reflexivity].
    + intros rg Hrg. simpl in Hrg. destruct Hrg as [<- | []].
      apply Q_region_ok; reflexivity.
  - reflexivity.
Defined.

Lemma lme_ann_name_without_dot_witness :
  lme_ann_name "image" = "json" /\ lme_ann_name "a.jpg" = "a.json".
Proof.
  split; [| reflexivity].
  apply (lme_ann_name_without_dot "image").
  simpl. intros H.
  repeat (destruct H as [H | H]; [discriminate H |]). exact H.
Defined.

(** The directory with the cat, through [labelmerect2yolo] and through
    the command line. *)
Lemma classes_txt_is_the_table_witness :
  snd (labelmerect2yolo cat_world "in/" "out/" (["cat"], [0])) = Ok tt
  /\ file_text "out/classes.txt"
       (fst (labelmerect2yolo cat_world "in/" "out/" (["cat"], [0])))
     = Some ("0 cat" +:+ nl).
Proof.
  destruct (classes_txt_is_the_table cat_world "in/" "out/" (["cat"], [0]))
    as [H _].
  assert (Hr : snd (labelmerect2yolo cat_world "in/" "out/" (["cat"], [0])) = Ok tt)
    by (vm_compute; reflexivity).
  split; [exact Hr |]. exact (H Hr).
Defined.

Lemma yolo_run_to_the_end_witness :
  snd (labelmerect2yolo cat_world "in/" "out/" (["cat"], [0])) = Ok tt
  /\ yolo_ready cat_world "out/" (["cat"], [0]) "rectangle" 2 "in/img.json"
  /\ snd (for_each
            (labelmerect2yolo_shape (["cat"], [0]) (float_of_Z 100, float_of_Z 100)
               "out/img.txt")
            [one_point_rectangle]) <> Ok tt
  /\ snd (labelmerect2yolo cat_world "in/" "in/" (["cat"], [0])) = Exc SameFileError.
Proof.
  destruct (yolo_run_to_the_end cat_world "in/" "out/" (["cat"], [0]))
    as (Hloop & _ & Hrun & _).
  assert (Hr : snd (labelmerect2yolo cat_world "in/" "out/" (["cat"], [0])) = Ok tt)
    by (vm_compute; reflexivity).
  split; [exact Hr |]. split; [| split].
  - destruct (Hrun Hr) as [Hfiles _]. apply Hfiles. vm_compute. left. reflexivity.
  - intros Hl.
    destruct (proj1 (Hloop (float_of_Z 100, float_of_Z 100) "out/img.txt"
                       [one_point_rectangle]) Hl one_point_rectangle) as [_ Hn];
      [left; reflexivity | reflexivity |].
    simpl in Hn. lia.
  - vm_compute. reflexivity.
Defined.

Lemma main_yolo_run_to_the_end_witness :
  snd (main no_v4c cat_world "labelmerect_to_yolo" "in/" (Some "out/")) = Ok tt
  /\ copy_ready cat_world (image_path_of cat_world "in/img.json")
       (yolo_image_of cat_world "out/" "in/img.json")
  /\ snd (for_each
            (labelmepoly2yolo_shape (extract_labelme_labels empty_polygon_world "in/")
               (float_of_Z 100, float_of_Z 100) "out/img.txt")
            (shapes (load_labelme empty_polygon_world "in/img.json"))) <> Ok tt.
Proof.
  assert (Hr : snd (main no_v4c cat_world "labelmerect_to_yolo" "in/" (Some "out/"))
               = Ok tt) by (vm_compute; reflexivity).
  split; [exact Hr |]. split.
  - destruct (main_yolo_run_to_the_end no_v4c cat_world "in/" "out/")
      as (_ & Hrect & _).
    destruct (Hrect Hr "in/img.json") as [_ Hc]; [vm_compute; left; reflexivity |].
    exact Hc.
  - destruct (main_yolo_run_to_the_end no_v4c empty_polygon_world "in/" "out/")
      as (Hloop & _).
    destruct (Hloop "in/img.json" (float_of_Z 100, float_of_Z 100) "out/img.txt")
      as [_ [Hpoly _]]; [vm_compute; left; reflexivity |].
    intros Hl. specialize (Hpoly Hl empty_polygon (or_introl eq_refl) eq_refl).
    simpl in Hpoly. lia.
Defined.

Lemma main_prints_and_stops_witness :
  main no_v4c cat_world "labelme_to_via" "in/" None
  = ([Print output_dir_error], Ok tt)
  /\ main no_v4c cat_world "convert" "in/" (Some "out/")
     = ([Print (not_recognized_error "convert")], Ok tt).
Proof.
  destruct (main_prints_and_stops no_v4c cat_world "labelme_to_via" "in/") as [H1 _].
  destruct (main_prints_and_stops no_v4c cat_world "convert" "in/") as [_ H2].
  split.
  - apply H1. unfold converting_commands. simpl. tauto.
  - apply H2. unfold commands, converting_commands. simpl. intros H.
    repeat (destruct H as [H | H]; [discriminate H |]). exact H.
Defined.

(** A directory without a JSON file. *)
Lemma main_drops_return_values_witness :
  main no_v4c images_only_world "via_to_labelme" "d/" (Some "out/")
  = ([Print (no_json_warning "d/"); Print no_file_error], Ok tt)
  /\ main no_v4c images_only_world "create_empty_txt_yolo" "d/" None
     = ([Print (no_json_warning "d/")], Exc TypeError).
Proof.
  destruct (main_drops_return_values no_v4c images_only_world
              "create_empty_txt_yolo" "d/" None) as (_ & H2 & H3).
  split; [apply H2; reflexivity | exact H3].
Defined.


(** Without different Labelme files the polygons do not all come back:
    the images [jpg.jpg] and [png.png] have different keys, and both
    Labelme dicts are written to [json.json], where the second one
    stays. *)
Lemma labelme_file_clash_loses_shapes :
  map (key_of name_clash_world)
    (glob_glob (listdir name_clash_world) ("in/" +:+ "*.json"))
  = ["jpg.jpg111"; "png.png222"]
  /\ map (fun p => labelme_path_of "out/" (image_name_of name_clash_world p))
       (glob_glob (listdir name_clash_world) ("in/" +:+ "*.json"))
     = ["out/json.json"; "out/json.json"]
  /\ snd (labelme2via name_clash_world "in/" "via/") = Ok tt
  /\ snd (via2labelme name_clash_via_world "via/" "out/") = Ok tt
  /\ option_map (fun ann => map label (ann_shapes ann))
       (labelme_at "out/json.json"
          (fst (via2labelme name_clash_via_world "via/" "out/")))
     = Some ["dog"].
Proof. vm_compute. repeat split. Qed.

(** C2, as the specification has it, fails in binary64: for the
    triangle with the abscissas 0.1, 0.3 and 0.2 the left edge of the
    box, centre minus half the width, is 0.10000000000000002, to the
    right of the point at 0.1. *)
Lemma binary64_box_leaves_out_a_point :
  exists cx cy bw bh,
    poly_box tenth_points = Ok (cx, cy, bw, bh)
    /\ (3 <= length tenth_points)%nat
    /\ map (fun p => float_repr (fst p)) tenth_points = ["0.1"; "0.3"; "0.2"]
    /\ float_repr (PrimFloat.sub cx (PrimFloat.div bw (float_of_Z 2)))
       = "0.10000000000000002"
    /\ PrimFloat.ltb (PrimFloat.div (float_of_Z 1) (float_of_Z 10))
         (PrimFloat.sub cx (PrimFloat.div bw (float_of_Z 2))) = true.
Proof.
  do 4 eexists. split; [reflexivity |]. split; [simpl; lia |].
  vm_compute. repeat split.
Qed.

End Examples.
